(** * Embedded-document tracking in the volar service plugins

    A shallow embedding of the document bookkeeping of the markdown, json,
    vetur and pug plugins:

    - [packages/markdown/index.ts] and its earlier layout
      [packages/markdown/src/index.ts]: the [sync] routine that recomputes
      the tracked markdown documents and fires the created / changed /
      deleted emitters, the file-watcher bridge, [getTextDocument],
      [matchDocument] and the capability assertions of [create];
    - [packages/json/index.ts] ([getJsonDocument]) and
      [packages/vetur/index.ts] ([getHtmlDocument]): the per-document
      caches of parsed documents;
    - [packages/pug/src/services/hover.ts]: the caller of the position
      mapper.

    JavaScript [Map]s keep insertion order and the order of the fired
    events depends on it, so a [Map] is an association list with the
    update-in-place-or-append behaviour of [Map.prototype.set].  A
    [WeakMap] is never iterated and is a [gmap] keyed by object identity. *)

From Stdlib Require Import List String Ascii ZArith Lia Bool.
From Stdlib Require Import DecimalString DecimalNat Sorted.
From stdpp Require base gmap.
Import ListNotations.

Local Open Scope string_scope.
Local Open Scope list_scope.

(** ** JavaScript [Map<string, V>] *)

Module JsMap.
Section Ops.
Context {V : Type}.

Definition t := list (string * V).

Definition empty : t := [].

(** [m.get(k)]: [None] stands for [undefined]. *)
Fixpoint get (m : t) (k : string) : option V :=
  match m with
  | [] => None
  | (k', v) :: m' => if String.eqb k' k then Some v else get m' k
  end.

(** [m.has(k)] *)
Definition has (m : t) (k : string) : bool :=
  match get m k with Some _ => true | None => false end.

(** [m.set(k, v)]: an existing key keeps its place, a new key goes last. *)
Fixpoint set (m : t) (k : string) (v : V) : t :=
  match m with
  | [] => [(k, v)]
  | (k', v') :: m' =>
      if String.eqb k' k then (k', v) :: m' else (k', v') :: set m' k v
  end.

(** [m.delete(k)] *)
Fixpoint delete (m : t) (k : string) : t :=
  match m with
  | [] => []
  | (k', v') :: m' =>
      if String.eqb k' k then m' else (k', v') :: delete m' k
  end.

(** [m.keys()] and [m.values()], in insertion order. *)
Definition keys (m : t) : list string := map fst m.
Definition values (m : t) : list V := map snd m.

(** Two maps hold the same entries, whatever the insertion order. *)
Definition same_entries (m1 m2 : t) : Prop := forall k, get m1 k = get m2 k.
End Ops.
Arguments t : clear implicits.
End JsMap.

(** [new Set(iterable)] over strings: first occurrences, in order. *)
Module JsSet.
Definition t := list string.

Definition has (s : t) (k : string) : bool := existsb (String.eqb k) s.

Definition add (s : t) (k : string) : t := if has s k then s else s ++ [k].

Definition of_list (l : list string) : t := fold_left add l [].
End JsSet.

(** ** Documents *)

(** A script snapshot, read-only for the plugin: the text it holds. *)
Record Snapshot := { getText : string }.

(** [TextDocument] of vscode-languageserver-textdocument. *)
Record TextDocument := {
  uri : string;
  languageId : string;
  version : Z;
  text : string
}.

(** ** [DocumentSelector] and [matchDocument] *)

Record DocumentFilter := {
  language : option string;
  scheme : option string;
  pattern : option string
}.

Inductive DocumentSelectorEntry :=
| SelString (s : string)
| SelFilter (f : DocumentFilter).

Definition DocumentSelector := list DocumentSelectorEntry.

(** [sel === languageId || (typeof sel === 'object' && sel.language === languageId)] *)
Definition selects (sel : DocumentSelectorEntry) (lang : string) : bool :=
  match sel with
  | SelString s => String.eqb s lang
  | SelFilter f =>
      match language f with
      | Some l => String.eqb l lang
      | None => false
      end
  end.

(** [matchDocument] (markdown/index.ts 356-363, json/index.ts 224-231):
    the loop returns [true] at the first entry that selects the language. *)
Fixpoint matchDocument (selector : DocumentSelector) (lang : string) : bool :=
  match selector with
  | [] => false
  | sel :: rest => if selects sel lang then true else matchDocument rest lang
  end.

(** [isMarkdown] (markdown/src/index.ts 15-17) *)
Definition isMarkdown (document : TextDocument) : bool :=
  String.eqb (languageId document) "markdown".

(** ** Emitters and tracker state *)

(** What the three emitters of the markdown workspace fire.  The deleted
    emitter carries [URI.parse(uri)], kept here as the string it parses. *)
Inductive DocumentEvent :=
| DidChange (document : TextDocument)
| DidCreate (document : TextDocument)
| DidDelete (uri : string).

(** One listener call: the event, and the tracked set as a listener that
    reads it finds it at that moment. *)
Record Fired := {
  event : DocumentEvent;
  observed : JsMap.t TextDocument
}.

(** The closure state of a plugin instance: [lastProjectVersion],
    [syncedVersions], and the listener calls made so far. *)
Record Tracker := {
  lastProjectVersion : option string;
  syncedVersions : JsMap.t TextDocument;
  fired : list Fired
}.

Definition initial : Tracker :=
  {| lastProjectVersion := None; syncedVersions := JsMap.empty; fired := [] |}.

Definition set_lastProjectVersion (v : option string) (st : Tracker) : Tracker :=
  {| lastProjectVersion := v;
     syncedVersions := syncedVersions st;
     fired := fired st |}.

Definition set_syncedVersions (m : JsMap.t TextDocument) (st : Tracker) : Tracker :=
  {| lastProjectVersion := lastProjectVersion st;
     syncedVersions := m;
     fired := fired st |}.

(** [emitter.fire(x)]: listeners run synchronously, before [fire] returns. *)
Definition fire (e : DocumentEvent) (st : Tracker) : Tracker :=
  {| lastProjectVersion := lastProjectVersion st;
     syncedVersions := syncedVersions st;
     fired := fired st ++ [ {| event := e; observed := syncedVersions st |} ] |}.

(** The events of a tracker, in firing order. *)
Definition events (st : Tracker) : list DocumentEvent := map event (fired st).

(** The URI an event is about. *)
Definition event_uri (e : DocumentEvent) : string :=
  match e with
  | DidChange d => uri d
  | DidCreate d => uri d
  | DidDelete u => u
  end.

(** [newProjectVersion === undefined || newProjectVersion !== lastProjectVersion] *)
Definition shouldUpdate (newProjectVersion last : option string) : bool :=
  match newProjectVersion with
  | None => true
  | Some v =>
      match last with
      | Some l => negb (String.eqb v l)
      | None => true
      end
  end.

(** ** Reconciliation: the two loops that close [sync]
    (markdown/index.ts 177-192, markdown/src/index.ts 171-186) *)

(** Body of [for (const [uri, document] of newVersions)]. *)
Definition reconcile_new (st : Tracker) (entry : string * TextDocument) : Tracker :=
  let '(uri, document) := entry in
  let old := JsMap.get (syncedVersions st) uri in
  let st := set_syncedVersions (JsMap.set (syncedVersions st) uri document) st in
  match old with
  | Some _ => fire (DidChange document) st
  | None => fire (DidCreate document) st
  end.

(** Body of [for (const uri of oldVersions)]. *)
Definition reconcile_old (newVersions : JsMap.t TextDocument)
    (st : Tracker) (uri : string) : Tracker :=
  if negb (JsMap.has newVersions uri) then
    let st := set_syncedVersions (JsMap.delete (syncedVersions st) uri) st in
    fire (DidDelete uri) st
  else st.

Definition reconcile (oldVersions : JsSet.t) (newVersions : JsMap.t TextDocument)
    (st : Tracker) : Tracker :=
  let st := fold_left reconcile_new newVersions st in
  fold_left (reconcile_old newVersions) oldVersions st.

(** ** Watched-file changes *)

(** [FileChangeType]: Created = 1, Changed = 2, Deleted = 3. *)
Definition FileChangeType_Created : Z := 1.
Definition FileChangeType_Changed : Z := 2.
Definition FileChangeType_Deleted : Z := 3.

Record FileEvent := {
  fe_uri : string;
  fe_type : Z
}.

(** ** packages/markdown/index.ts *)

Module Markdown.

#[local] Set Warnings "-register-all".

(** A virtual code of a source file; [embeddedCodes] is empty when the
    field is absent. *)
Inductive VirtualCode := {
  vc_id : string;
  vc_languageId : string;
  vc_snapshot : Snapshot;
  embeddedCodes : list VirtualCode
}.

Record SourceFile := {
  sf_id : string;
  sf_languageId : string;
  sf_snapshot : Snapshot;
  generated : option VirtualCode   (* [sourceFile.generated?.code] *)
}.

(** [context.language.typescript.languageServiceHost], as [sync] reads it:
    [getProjectVersion] is the value of [getProjectVersion?.()], which is
    [undefined] when the host has no such method. *)
Record LanguageServiceHost := {
  getProjectVersion : option string;
  getScriptFileNames : list string
}.

(** The service context at the time of a call.  The host owns it and may
    change it between any two calls. *)
Record ServiceContext := {
  typescript : option LanguageServiceHost;
  fileNameToUri : string -> string;
  getVirtualCodeByUri : string -> option VirtualCode * option SourceFile;
  getVirtualCodeUri : string -> string -> string;
  documents_get : string -> string -> Snapshot -> TextDocument;
  files_get : string -> option SourceFile
}.

(** Modelled from the spec: [forEachEmbeddedCode] is imported from
    @volar/language-service and is not part of these sources; the walk is
    the pre-order traversal of the whole tree, the root first, then each
    embedded code with its own descendants. *)
Fixpoint forEachEmbeddedCode (code : VirtualCode) : list VirtualCode :=
  code :: flat_map forEachEmbeddedCode (embeddedCodes code).

Section Instance.
Variable documentSelector : DocumentSelector.
Variable context : ServiceContext.

(** Body of [for (const virtualCode of forEachEmbeddedCode(...))],
    lines 161-167. *)
Definition collect_virtualCode (sourceFile : SourceFile)
    (newVersions : JsMap.t TextDocument) (virtualCode : VirtualCode)
    : JsMap.t TextDocument :=
  if matchDocument documentSelector (vc_languageId virtualCode) then
    let codeUri := getVirtualCodeUri context (sf_id sourceFile) (vc_id virtualCode) in
    let document :=
      documents_get context codeUri (vc_languageId virtualCode) (vc_snapshot virtualCode) in
    JsMap.set newVersions (uri document) document
  else newVersions.

(** Body of [for (const fileName of getScriptFileNames())], lines 157-175. *)
Definition collect_fileName (newVersions : JsMap.t TextDocument)
    (fileName : string) : JsMap.t TextDocument :=
  let fileUri := fileNameToUri context fileName in
  let sourceFile := snd (getVirtualCodeByUri context fileUri) in
  match sourceFile with
  | Some sourceFile =>
      match generated sourceFile with
      | Some code =>
          fold_left (collect_virtualCode sourceFile)
            (forEachEmbeddedCode code) newVersions
      | None =>
          let document :=
            documents_get context fileName
              (sf_languageId sourceFile) (sf_snapshot sourceFile) in
          if matchDocument documentSelector (languageId document) then
            JsMap.set newVersions (uri document) document
          else newVersions
      end
  | None => newVersions
  end.

(** The freshly built [newVersions] map. *)
Definition newVersions (host : LanguageServiceHost) : JsMap.t TextDocument :=
  fold_left collect_fileName (getScriptFileNames host) JsMap.empty.

(** [sync], lines 140-193. *)
Definition sync (st : Tracker) : Tracker :=
  match typescript context with
  | None => st
  | Some languageServiceHost =>
      let newProjectVersion := getProjectVersion languageServiceHost in
      if negb (shouldUpdate newProjectVersion (lastProjectVersion st)) then st
      else
        let st := set_lastProjectVersion newProjectVersion st in
        let oldVersions := JsSet.of_list (JsMap.keys (syncedVersions st)) in
        reconcile oldVersions (newVersions languageServiceHost) st
  end.

(** [workspace.getAllMarkdownDocuments], lines 90-93. *)
Definition getAllMarkdownDocuments (st : Tracker) : Tracker * list TextDocument :=
  let st := sync st in
  (st, JsMap.values (syncedVersions st)).

(** [getTextDocument], lines 340-351. *)
Definition getTextDocument (uri : string) (includeVirtualFile : bool)
    : option TextDocument :=
  let fromSourceFile :=
    match files_get context uri with
    | Some sourceFile =>
        Some (documents_get context uri
                (sf_languageId sourceFile) (sf_snapshot sourceFile))
    | None => None
    end in
  if includeVirtualFile then
    match fst (getVirtualCodeByUri context uri) with
    | Some virtualCode =>
        Some (documents_get context uri
                (vc_languageId virtualCode) (vc_snapshot virtualCode))
    | None => fromSourceFile
    end
  else fromSourceFile.

(** One turn of the loop of the watched-files listener, lines 65-86:
    a [switch] on [change.type] with no default case. *)
Definition fileWatcher_change (st : Tracker) (change : FileEvent) : Tracker :=
  if Z.eqb (fe_type change) FileChangeType_Changed then
    match getTextDocument (fe_uri change) false with
    | Some document => fire (DidChange document) st
    | None => st
    end
  else if Z.eqb (fe_type change) FileChangeType_Created then
    match getTextDocument (fe_uri change) false with
    | Some document => fire (DidCreate document) st
    | None => st
    end
  else if Z.eqb (fe_type change) FileChangeType_Deleted then
    fire (DidDelete (fe_uri change)) st
  else st.

(** The listener registered with [onDidChangeWatchedFiles], lines 64-87. *)
Definition fileWatcher (changes : list FileEvent) (st : Tracker) : Tracker :=
  fold_left fileWatcher_change changes st.
End Instance.

(** What the host may do to a plugin instance: ask for a sync (any of the
    providers, or [getAllMarkdownDocuments]) or report watched-file
    changes; each call sees the service context of its moment. *)
Inductive Trigger :=
| CallSync (context : ServiceContext)
| WatchedFiles (context : ServiceContext) (changes : list FileEvent).

Definition step (documentSelector : DocumentSelector)
    (st : Tracker) (t : Trigger) : Tracker :=
  match t with
  | CallSync context => sync documentSelector context st
  | WatchedFiles context changes => fileWatcher context changes st
  end.

(** The tracker after a sequence of triggers, from a fresh instance. *)
Definition lifetime (documentSelector : DocumentSelector)
    (triggers : list Trigger) : Tracker :=
  fold_left (step documentSelector) triggers initial.

(** The events that the syncs of a run fire, those of the watched-file
    bridge left out: what each [CallSync] adds to the events. *)
Fixpoint sync_events (documentSelector : DocumentSelector)
    (st : Tracker) (triggers : list Trigger) : list DocumentEvent :=
  match triggers with
  | [] => []
  | t :: rest =>
      let st' := step documentSelector st t in
      match t with
      | CallSync _ => skipn (List.length (events st)) (events st')
      | WatchedFiles _ _ => []
      end ++ sync_events documentSelector st' rest
  end.

(** The documents of the nodes that match the selector, in the order in
    which [sync] meets them: every script file of the host; the whole
    tree of a source file that has generated code, root first; the source
    file itself otherwise. *)
Definition document_of_code (context : ServiceContext)
    (sourceFile : SourceFile) (virtualCode : VirtualCode) : TextDocument :=
  documents_get context
    (getVirtualCodeUri context (sf_id sourceFile) (vc_id virtualCode))
    (vc_languageId virtualCode) (vc_snapshot virtualCode).

Definition document_of_file (context : ServiceContext)
    (fileName : string) (sourceFile : SourceFile) : TextDocument :=
  documents_get context fileName (sf_languageId sourceFile) (sf_snapshot sourceFile).

Definition matching_of_fileName (documentSelector : DocumentSelector)
    (context : ServiceContext) (fileName : string) : list TextDocument :=
  match snd (getVirtualCodeByUri context (fileNameToUri context fileName)) with
  | Some sourceFile =>
      match generated sourceFile with
      | Some code =>
          map (document_of_code context sourceFile)
            (filter (fun c => matchDocument documentSelector (vc_languageId c))
               (forEachEmbeddedCode code))
      | None =>
          let document := document_of_file context fileName sourceFile in
          if matchDocument documentSelector (languageId document)
          then [document] else []
      end
  | None => []
  end.

Definition matching_documents (documentSelector : DocumentSelector)
    (context : ServiceContext) (host : LanguageServiceHost) : list TextDocument :=
  flat_map (matching_of_fileName documentSelector context) (getScriptFileNames host).

End Markdown.

(** [m.set(document.uri, document)] for each document in turn. *)
Definition set_documents (documents : list TextDocument)
    (m : JsMap.t TextDocument) : JsMap.t TextDocument :=
  fold_left (fun m d => JsMap.set m (uri d) d) documents m.

(** The map that these insertions build from an empty map. *)
Definition of_documents (documents : list TextDocument) : JsMap.t TextDocument :=
  set_documents documents JsMap.empty.

(** ** packages/markdown/src/index.ts *)

Module MarkdownSrc.

#[local] Set Warnings "-register-all".

Inductive VirtualFile := {
  vf_id : string;
  vf_languageId : string;
  vf_snapshot : Snapshot;
  embeddedFiles : list VirtualFile
}.

Record SourceFile := {
  sf_id : string;
  sf_languageId : string;
  sf_snapshot : Snapshot;
  root : option VirtualFile
}.

(** The service context at the time of a call: [getProjectVersion] is the
    value of [context.project.typescript?.projectHost.getProjectVersion?.()],
    [getVirtualFile] the first component of [fileProvider.getVirtualFile]. *)
Record ServiceContext := {
  getProjectVersion : option string;
  getAllSourceFiles : list SourceFile;
  getVirtualFile : string -> option VirtualFile;
  getSourceFile : string -> option SourceFile;
  documents_get : string -> string -> Snapshot -> TextDocument
}.

(** [function walk(embedded)], lines 152-155: push the file, then walk its
    embedded files; [virtualFiles] is the array being filled. *)
Fixpoint walk (virtualFiles : list VirtualFile) (embedded : VirtualFile)
    {struct embedded} : list VirtualFile :=
  fold_left walk (embeddedFiles embedded) (virtualFiles ++ [embedded]).

(** [virtualFiles] once [sourceFile.root.embeddedFiles.forEach(walk)] is done. *)
Definition virtualFiles_of (root : VirtualFile) : list VirtualFile :=
  fold_left walk (embeddedFiles root) [root].

(** The pre-order listing of a tree: a node, then its children's listings
    from left to right. *)
Fixpoint preorder (file : VirtualFile) : list VirtualFile :=
  file :: flat_map preorder (embeddedFiles file).

Section Instance.
Variable context : ServiceContext.

(** Body of [for (const embedded of virtualFiles)], lines 156-161. *)
Definition collect_embedded (newVersions : JsMap.t TextDocument)
    (embedded : VirtualFile) : JsMap.t TextDocument :=
  if String.eqb (vf_languageId embedded) "markdown" then
    let document :=
      documents_get context (vf_id embedded)
        (vf_languageId embedded) (vf_snapshot embedded) in
    JsMap.set newVersions (uri document) document
  else newVersions.

(** Body of [for (const sourceFile of getAllSourceFiles())], lines 149-169. *)
Definition collect_sourceFile (newVersions : JsMap.t TextDocument)
    (sourceFile : SourceFile) : JsMap.t TextDocument :=
  match root sourceFile with
  | Some r => fold_left collect_embedded (virtualFiles_of r) newVersions
  | None =>
      let document :=
        documents_get context (sf_id sourceFile)
          (sf_languageId sourceFile) (sf_snapshot sourceFile) in
      if isMarkdown document then JsMap.set newVersions (uri document) document
      else newVersions
  end.

Definition newVersions : JsMap.t TextDocument :=
  fold_left collect_sourceFile (getAllSourceFiles context) JsMap.empty.

(** [sync], lines 138-187. *)
Definition sync (st : Tracker) : Tracker :=
  let newProjectVersion := getProjectVersion context in
  if negb (shouldUpdate newProjectVersion (lastProjectVersion st)) then st
  else
    let st := set_lastProjectVersion newProjectVersion st in
    let oldVersions := JsSet.of_list (JsMap.keys (syncedVersions st)) in
    reconcile oldVersions newVersions st.

(** [getTextDocument], lines 323-329. *)
Definition getTextDocument (uri : string) (includeVirtualFile : bool)
    : option TextDocument :=
  let file : option (string * Snapshot) :=
    match (if includeVirtualFile then getVirtualFile context uri else None) with
    | Some f => Some (vf_languageId f, vf_snapshot f)
    | None =>
        match getSourceFile context uri with
        | Some f => Some (sf_languageId f, sf_snapshot f)
        | None => None
        end
    end in
  match file with
  | Some (lang, snapshot) => Some (documents_get context uri lang snapshot)
  | None => None
  end.

(** One turn of the loop of the watched-files listener, lines 61-84. *)
Definition fileWatcher_change (st : Tracker) (change : FileEvent) : Tracker :=
  if Z.eqb (fe_type change) FileChangeType_Changed then
    match getTextDocument (fe_uri change) false with
    | Some document => fire (DidChange document) st
    | None => st
    end
  else if Z.eqb (fe_type change) FileChangeType_Created then
    match getTextDocument (fe_uri change) false with
    | Some document => fire (DidCreate document) st
    | None => st
    end
  else if Z.eqb (fe_type change) FileChangeType_Deleted then
    fire (DidDelete (fe_uri change)) st
  else st.

Definition fileWatcher (changes : list FileEvent) (st : Tracker) : Tracker :=
  fold_left fileWatcher_change changes st.

(** The documents of the markdown nodes, in the order in which [sync]
    meets them, with the tree of each source file listed in pre-order. *)
Definition document_of_embedded (embedded : VirtualFile) : TextDocument :=
  documents_get context (vf_id embedded)
    (vf_languageId embedded) (vf_snapshot embedded).

Definition matching_of_sourceFile (sourceFile : SourceFile) : list TextDocument :=
  match root sourceFile with
  | Some r =>
      map document_of_embedded
        (filter (fun f => String.eqb (vf_languageId f) "markdown") (preorder r))
  | None =>
      let document :=
        documents_get context (sf_id sourceFile)
          (sf_languageId sourceFile) (sf_snapshot sourceFile) in
      if isMarkdown document then [document] else []
  end.

Definition matching_documents : list TextDocument :=
  flat_map matching_of_sourceFile (getAllSourceFiles context).
End Instance.

End MarkdownSrc.

(** ** Create / delete pairing of the events about one URI *)

(** The events about [u], in firing order. *)
Definition restrict (u : string) (evs : list DocumentEvent) : list DocumentEvent :=
  filter (fun e => String.eqb (event_uri e) u) evs.

(** One event read against "is the URI reported as existing?": a create
    needs it absent, a change or a delete needs it present; [None] is a
    violation. *)
Definition pairing_step (present : bool) (e : DocumentEvent) : option bool :=
  match e with
  | DidCreate _ => if present then None else Some true
  | DidChange _ => if present then Some true else None
  | DidDelete _ => if present then Some false else None
  end.

(** Reads a whole sequence; [Some b] when it alternates creates and deletes
    properly, [b] telling whether the URI is left reported as existing. *)
Fixpoint pairing (present : bool) (evs : list DocumentEvent) : option bool :=
  match evs with
  | [] => Some present
  | e :: rest =>
      match pairing_step present e with
      | Some present' => pairing present' rest
      | None => None
      end
  end.

Definition well_paired (evs : list DocumentEvent) : Prop :=
  exists present, pairing false evs = Some present.

(** ** Construction of the markdown plugin instance
    (markdown/index.ts 33-138) *)

Module Create.

Inductive Outcome (A : Type) :=
| Returned (a : A)
| Thrown (message : string).
Arguments Returned {A} a.
Arguments Thrown {A} message.

(** What [create] has built or subscribed to so far. *)
Inductive Resource :=
| ChangeEmitter
| CreateEmitter
| DeleteEmitter
| WatcherSubscription
| LanguageService
| SyncedVersionsMap.

(** Computations that may throw and that build resources on the way. *)
Definition M (A : Type) : Type := list Resource -> Outcome A * list Resource.

Definition ret {A} (a : A) : M A := fun built => (Returned a, built).

Definition bind {A B} (m : M A) (k : A -> M B) : M B :=
  fun built =>
    match m built with
    | (Returned a, built') => k a built'
    | (Thrown message, built') => (Thrown message, built')
    end.

Notation "m ;; k" := (bind m (fun _ => k))
  (at level 61, right associativity).

(** [throw new Error(message)] *)
Definition throw {A} (message : string) : M A := fun built => (Thrown message, built).

(** [assert], lines 15-19. *)
Definition assert (condition : bool) (message : string) : M unit :=
  if negb condition then throw message else ret tt.

Definition build (r : Resource) : M unit := fun built => (Returned tt, built ++ [r]).

(** [context.env]: either capability may be missing. *)
Record Env (FileSystem WatchSource : Type) := {
  fs : option FileSystem;
  onDidChangeWatchedFiles : option WatchSource
}.
Arguments fs {FileSystem WatchSource} e.
Arguments onDidChangeWatchedFiles {FileSystem WatchSource} e.

(** An object is truthy, [undefined] is not. *)
Definition truthy {A} (o : option A) : bool :=
  match o with Some _ => true | None => false end.

(** [create(context)]: the two assertions, then the emitters, the watcher
    subscription, the language service and the [syncedVersions] map. *)
Definition create {FileSystem WatchSource} (env : Env FileSystem WatchSource)
    : M Tracker :=
  assert (truthy (fs env)) "context.env.fs must be defined" ;;
  assert (truthy (onDidChangeWatchedFiles env))
    "context.env.fs.onDidChangeWatchedFiles must be defined" ;;
  build ChangeEmitter ;;
  build CreateEmitter ;;
  build DeleteEmitter ;;
  build WatcherSubscription ;;
  build LanguageService ;;
  build SyncedVersionsMap ;;
  ret initial.

End Create.

(** ** Caches of parsed documents
    (json/index.ts 201-219, vetur/index.ts 282-296) *)

Module Caches.
Import stdpp.base stdpp.gmap.

(** A [TextDocument] object: its identity, which is what a [WeakMap] is
    keyed by, and its present content. *)
Record DocumentObject := {
  identity : positive;
  content : TextDocument
}.

Section Json.
Context {JSONDocument : Type}.
Variable documentSelector : DocumentSelector.
Variable parseJSONDocument : TextDocument -> JSONDocument.

(** [getJsonDocument], over the [WeakMap<TextDocument, [number, JSONDocument]>]. *)
Definition getJsonDocument (jsonDocuments : gmap positive (Z * JSONDocument))
    (textDocument : DocumentObject)
    : option JSONDocument * gmap positive (Z * JSONDocument) :=
  if negb (matchDocument documentSelector (languageId (content textDocument)))
  then (None, jsonDocuments)
  else
    let parsed :=
      let doc := parseJSONDocument (content textDocument) in
      (Some doc,
       <[identity textDocument := (version (content textDocument), doc)]> jsonDocuments) in
    match jsonDocuments !! identity textDocument with
    | Some (cacheVersion, cacheDoc) =>
        if Z.eqb cacheVersion (version (content textDocument))
        then (Some cacheDoc, jsonDocuments)
        else parsed
    | None => parsed
    end.
End Json.

Section Vetur.
Context {HTMLDocument : Type}.
Variable parseHTMLDocument : TextDocument -> HTMLDocument.

(** [getHtmlDocument], over the [WeakMap<TextDocument, HTMLDocument>]. *)
Definition getHtmlDocument (htmlDocuments : gmap positive HTMLDocument)
    (document : DocumentObject)
    : option HTMLDocument * gmap positive HTMLDocument :=
  if negb (String.eqb (languageId (content document)) "html")
  then (None, htmlDocuments)
  else
    match htmlDocuments !! identity document with
    | Some htmlDocument => (Some htmlDocument, htmlDocuments)
    | None =>
        let htmlDocument := parseHTMLDocument (content document) in
        (Some htmlDocument, <[identity document := htmlDocument]> htmlDocuments)
    end.
End Vetur.

(** A store refreshes on a version change when, asked for a document
    object right after it served that object at another version, it
    answers with the parse of the present content. *)
Definition refreshes_on_version_change {Cache Parsed : Type}
    (get : Cache -> DocumentObject -> option Parsed * Cache)
    (parse : TextDocument -> Parsed) (selected : TextDocument -> bool) : Prop :=
  forall (cache : Cache) (before after : DocumentObject),
    identity before = identity after ->
    selected (content before) = true ->
    selected (content after) = true ->
    version (content before) <> version (content after) ->
    fst (get (snd (get cache before)) after) = Some (parse (content after)).

End Caches.

(** ** Position mapping between a pug document and its generated HTML *)

Module PositionMapper.

(** Modelled from the spec: the mapper behind [pugDoc.map] is not part of
    these sources.  A mapped span pairs a half-open source range with a
    half-open generated range whose content is the source content
    verbatim. *)
Record MappedSpan := {
  source_start : Z;
  source_end : Z;
  generated_start : Z;
  generated_end : Z
}.

(** Left-closed, right-open containment. *)
Definition contains (start stop p : Z) : bool := (start <=? p)%Z && (p <? stop)%Z.

(** Modelled from the spec: find the span whose source range contains the
    position and add the offset within the span to the base of its
    generated range; no result when the position is in no span. *)
Fixpoint toGeneratedPosition (spans : list MappedSpan) (p : Z) : option Z :=
  match spans with
  | [] => None
  | span :: rest =>
      if contains (source_start span) (source_end span) p
      then Some (generated_start span + (p - source_start span))%Z
      else toGeneratedPosition rest p
  end.

(** Modelled from the spec: the same search on the generated ranges. *)
Fixpoint toSourcePosition (spans : list MappedSpan) (p : Z) : option Z :=
  match spans with
  | [] => None
  | span :: rest =>
      if contains (generated_start span) (generated_end span) p
      then Some (source_start span + (p - generated_start span))%Z
      else toSourcePosition rest p
  end.

(** Modelled from the spec: a span is verbatim when both ranges are well
    formed and of one length (zero-length spans are legal). *)
Definition verbatim (span : MappedSpan) : bool :=
  (source_start span <=? source_end span)%Z
  && (source_end span - source_start span =? generated_end span - generated_start span)%Z.

(** Modelled from the spec: the spans of a document are sorted, do not
    overlap and increase in both coordinate spaces. *)
Fixpoint monotonic (spans : list MappedSpan) : bool :=
  match spans with
  | [] => true
  | span :: rest =>
      verbatim span
      && forallb (fun later =>
                    (source_end span <=? source_start later)%Z
                    && (generated_end span <=? generated_start later)%Z) rest
      && monotonic rest
  end.

Section Hover.
Context {HtmlHover Hover : Type}.
(** [htmlLs.doHover] on the generated document, and [transformHover]
    with the range mapping of the document. *)
Variable doHover : Z -> option HtmlHover.
Variable transformHover : HtmlHover -> Hover.

(** [register(htmlLs)(pugDoc, pos)], pug/src/services/hover.ts 6-21. *)
Definition hover (spans : list MappedSpan) (pos : Z) : option Hover :=
  match toGeneratedPosition spans pos with
  | None => None
  | Some htmlPos =>
      match doHover htmlPos with
      | None => None
      | Some htmlResult => Some (transformHover htmlResult)
      end
  end.
End Hover.

End PositionMapper.

(** ** What reconciliation does, told call by call *)

(** The event of the first loop for an entry of the new set, judged against
    the set stored before the sync. *)
Definition upsert_event (old : JsMap.t TextDocument)
    (entry : string * TextDocument) : DocumentEvent :=
  if JsMap.has old (fst entry) then DidChange (snd entry) else DidCreate (snd entry).

(** The URIs of the old set that the new set lacks, in the order of the old set. *)
Definition stale (old new : JsMap.t TextDocument) : list string :=
  filter (fun u => negb (JsMap.has new u)) (JsSet.of_list (JsMap.keys old)).

(** [m.set] for each entry in turn, [m.delete] for each key in turn. *)
Definition set_all (entries : list (string * TextDocument))
    (m : JsMap.t TextDocument) : JsMap.t TextDocument :=
  fold_left (fun m e => JsMap.set m (fst e) (snd e)) entries m.

Definition delete_all (uris : list string)
    (m : JsMap.t TextDocument) : JsMap.t TextDocument :=
  fold_left JsMap.delete uris m.

(** The listener calls of the first loop, started with [m] stored. *)
Fixpoint upsert_calls (entries : list (string * TextDocument))
    (m : JsMap.t TextDocument) : list Fired :=
  match entries with
  | [] => []
  | e :: rest =>
      let m' := JsMap.set m (fst e) (snd e) in
      {| event := upsert_event m e; observed := m' |} :: upsert_calls rest m'
  end.

(** The listener calls of the second loop, started with [m] stored. *)
Fixpoint delete_calls (uris : list string)
    (m : JsMap.t TextDocument) : list Fired :=
  match uris with
  | [] => []
  | u :: rest =>
      let m' := JsMap.delete m u in
      {| event := DidDelete u; observed := m' |} :: delete_calls rest m'
  end.

(** Every entry is filed under the URI of its document. *)
Definition keyed (m : JsMap.t TextDocument) : Prop :=
  Forall (fun e => fst e = uri (snd e)) m.

Definition is_upsert (e : DocumentEvent) : Prop :=
  match e with DidDelete _ => False | _ => True end.

Definition is_delete (e : DocumentEvent) : Prop :=
  match e with DidDelete _ => True | _ => False end.

(** ** A small project, for concrete runs *)

Module Sample.

(** A document provider that hands out the document it is asked for. *)
Definition provider (u l : string) (s : Snapshot) : TextDocument :=
  {| uri := u; languageId := l; version := 1; text := getText s |}.

Definition lookup {A} (table : list (string * A)) (k : string) : option A :=
  JsMap.get table k.

Definition selector : DocumentSelector := [SelString "markdown"].

(** Plain markdown files, without generated code. *)
Definition readme : Markdown.SourceFile :=
  {| Markdown.sf_id := "file:///readme.md";
     Markdown.sf_languageId := "markdown";
     Markdown.sf_snapshot := {| getText := "# Readme" |};
     Markdown.generated := None |}.

Definition notes : Markdown.SourceFile :=
  {| Markdown.sf_id := "file:///notes.md";
     Markdown.sf_languageId := "markdown";
     Markdown.sf_snapshot := {| getText := "# Notes" |};
     Markdown.generated := None |}.

Definition todo : Markdown.SourceFile :=
  {| Markdown.sf_id := "file:///todo.md";
     Markdown.sf_languageId := "markdown";
     Markdown.sf_snapshot := {| getText := "# Todo" |};
     Markdown.generated := None |}.

(** A component file whose generated code embeds two markdown blocks, one
    of them below an HTML block. *)
Definition page_code : Markdown.VirtualCode :=
  {| Markdown.vc_id := "root";
     Markdown.vc_languageId := "vue";
     Markdown.vc_snapshot := {| getText := "<docs/><template/>" |};
     Markdown.embeddedCodes :=
       [ {| Markdown.vc_id := "docs_0";
            Markdown.vc_languageId := "markdown";
            Markdown.vc_snapshot := {| getText := "intro" |};
            Markdown.embeddedCodes := [] |};
         {| Markdown.vc_id := "template";
            Markdown.vc_languageId := "html";
            Markdown.vc_snapshot := {| getText := "<p/>" |};
            Markdown.embeddedCodes :=
              [ {| Markdown.vc_id := "docs_1";
                   Markdown.vc_languageId := "markdown";
                   Markdown.vc_snapshot := {| getText := "outro" |};
                   Markdown.embeddedCodes := [] |} ] |} ] |}.

Definition page : Markdown.SourceFile :=
  {| Markdown.sf_id := "file:///page.vue";
     Markdown.sf_languageId := "vue";
     Markdown.sf_snapshot := {| getText := "<docs/><template/>" |};
     Markdown.generated := Some page_code |}.

Definition host (projectVersion : option string)
    (files : list (string * Markdown.SourceFile)) : Markdown.LanguageServiceHost :=
  {| Markdown.getProjectVersion := projectVersion;
     Markdown.getScriptFileNames := map fst files |}.

(** A service context over the given files, each listed with its file
    name; a file name is its own URI here. *)
Definition context (typescript : option Markdown.LanguageServiceHost)
    (files : list (string * Markdown.SourceFile)) : Markdown.ServiceContext :=
  {| Markdown.typescript := typescript;
     Markdown.fileNameToUri := fun fileName => fileName;
     Markdown.getVirtualCodeByUri := fun u => (None, lookup files u);
     Markdown.getVirtualCodeUri := fun fileId codeId => (fileId ++ "#" ++ codeId)%string;
     Markdown.documents_get := provider;
     Markdown.files_get := lookup files |}.

Definition project (projectVersion : option string)
    (files : list (string * Markdown.SourceFile)) : Markdown.ServiceContext :=
  context (Some (host projectVersion files)) files.

Definition files_1 : list (string * Markdown.SourceFile) :=
  [("file:///readme.md", readme); ("file:///page.vue", page)].

Definition files_2 : list (string * Markdown.SourceFile) :=
  [("file:///notes.md", notes); ("file:///todo.md", todo)].

Definition readme_document : TextDocument :=
  provider "file:///readme.md" "markdown" {| getText := "# Readme" |}.

Definition notes_document : TextDocument :=
  provider "file:///notes.md" "markdown" {| getText := "# Notes" |}.

Definition todo_document : TextDocument :=
  provider "file:///todo.md" "markdown" {| getText := "# Todo" |}.

(** A host without [getProjectVersion]: one sync, then another one over
    the same project. *)
Definition unversioned : Markdown.ServiceContext := project None files_1.
Definition unversioned_host : Markdown.LanguageServiceHost := host None files_1.
Definition once : Tracker := Markdown.sync selector unversioned initial.
Definition twice : Tracker := Markdown.sync selector unversioned once.

(** A host at project version 7, whose files change under that version. *)
Definition versioned : Markdown.ServiceContext := project (Some "7") files_1.
Definition versioned_host : Markdown.LanguageServiceHost := host (Some "7") files_1.
Definition versioned' : Markdown.ServiceContext := project (Some "7") files_2.
Definition versioned_host' : Markdown.LanguageServiceHost := host (Some "7") files_2.
Definition once_7 : Tracker := Markdown.sync selector versioned initial.
Definition twice_7 : Tracker := Markdown.sync selector versioned' once_7.

(** The project replaced by other files, under a new version. *)
Definition replaced : Markdown.ServiceContext := project (Some "8") files_2.
Definition replaced_host : Markdown.LanguageServiceHost := host (Some "8") files_2.
Definition once_8 : Tracker := Markdown.sync selector replaced once_7.

(** A sync, then the report of a deleted file that was never known. *)
Definition gone : FileEvent :=
  {| fe_uri := "file:///gone.md"; fe_type := FileChangeType_Deleted |}.
Definition with_watcher : Tracker :=
  Markdown.lifetime selector
    [Markdown.CallSync versioned; Markdown.WatchedFiles versioned [gone]].

(** An HTML document object, edited in place from version 1 to version 2. *)
Definition html_v1 : Caches.DocumentObject :=
  {| Caches.identity := 1%positive;
     Caches.content := {| uri := "file:///a.html"; languageId := "html";
                          version := 1; text := "<p>" |} |}.

Definition html_v2 : Caches.DocumentObject :=
  {| Caches.identity := 1%positive;
     Caches.content := {| uri := "file:///a.html"; languageId := "html";
                          version := 2; text := "<div>" |} |}.

Definition is_html (d : TextDocument) : bool := String.eqb (languageId d) "html".

(** A stand-in for a parser: the parse of a document is its text. *)
Definition parse (d : TextDocument) : string := text d.

(** One span, source [5,15) onto generated [0,10). *)
Definition span_5_15 : PositionMapper.MappedSpan :=
  {| PositionMapper.source_start := 5; PositionMapper.source_end := 15;
     PositionMapper.generated_start := 0; PositionMapper.generated_end := 10 |}.

Definition environment (fs watch : bool) : Create.Env unit unit :=
  {| Create.fs := if fs then Some tt else None;
     Create.onDidChangeWatchedFiles := if watch then Some tt else None |}.

End Sample.

(** ** The workspace and the providers of the markdown plugin
    (markdown/index.ts 89-112, 194-254) *)

Module MarkdownProviders.

Section Instance.
Variable documentSelector : DocumentSelector.
Variable context : Markdown.ServiceContext.

(** [prepare], lines 194-200. *)
Definition prepare (document : TextDocument) (st : Tracker) : Tracker * bool :=
  if negb (matchDocument documentSelector (languageId document)) then (st, false)
  else (Markdown.sync documentSelector context st, true).

(** [workspace.hasMarkdownDocument], lines 99-102; the resource is given
    by its string. *)
Definition hasMarkdownDocument (resource : string) : bool :=
  match Markdown.getTextDocument context resource true with
  | Some document => matchDocument documentSelector (languageId document)
  | None => false
  end.

(** [workspace.openMarkdownDocument], lines 110-112. *)
Definition openMarkdownDocument (resource : string) : option TextDocument :=
  Markdown.getTextDocument context resource true.

Section Definition_.
Context {Position Range : Type}.

Record Location := {
  loc_uri : string;
  loc_range : Range
}.

(** What [ls.getDefinition] resolves to, when it is not [undefined]: one
    location or an array of locations. *)
Inductive Definitions :=
| OneLocation (location : Location)
| ManyLocations (locations : list Location).

Record LocationLink := {
  targetUri : string;
  targetRange : Range;
  targetSelectionRange : Range
}.

Variable getDefinition : TextDocument -> Position -> option Definitions.

(** [provideDefinition], lines 236-254. *)
Definition provideDefinition (document : TextDocument) (position : Position)
    (st : Tracker) : Tracker * option (list LocationLink) :=
  let '(st, prepared) := prepare document st in
  if prepared then
    match getDefinition document position with
    | None => (st, None)
    | Some found =>
        let locations :=
          match found with
          | OneLocation location => [location]
          | ManyLocations locations => locations
          end in
        (st, Some (map (fun location =>
                          {| targetUri := loc_uri location;
                             targetRange := loc_range location;
                             targetSelectionRange := loc_range location |})
                       locations))
    end
  else (st, None).
End Definition_.
End Instance.

End MarkdownProviders.

(** ** More concrete inputs *)

Module Cases.

(** The project of the sample, emptied, under a new version. *)
Definition emptied : Markdown.ServiceContext := Sample.project (Some "9") [].
Definition emptied_host : Markdown.LanguageServiceHost := Sample.host (Some "9") [].

End Cases.

(** ** JavaScript strings: the operations the plugins use *)

Module JsString.

(** [s.length] *)
Definition length (s : string) : Z := Z.of_nat (String.length s).

Fixpoint take (n : nat) (s : string) : string :=
  match n, s with
  | S n', String a s' => String a (take n' s')
  | _, _ => EmptyString
  end.

Fixpoint drop (n : nat) (s : string) : string :=
  match n, s with
  | S n', String _ s' => drop n' s'
  | _, _ => s
  end.

(** An index argument is clamped to [0 .. length]. *)
Definition clamp (s : string) (i : Z) : Z := Z.max 0 (Z.min i (length s)).

(** [s.substring(start, end)]: both ends are clamped, and swapped when
    [start] is greater than [end]. *)
Definition substring (s : string) (start stop : Z) : string :=
  let a := clamp s start in
  let b := clamp s stop in
  let lo := Z.min a b in
  let hi := Z.max a b in
  take (Z.to_nat (hi - lo)) (drop (Z.to_nat lo) s).

Fixpoint lastIndexOf_from (s : string) (c : ascii) (i last : Z) : Z :=
  match s with
  | EmptyString => last
  | String a s' => lastIndexOf_from s' c (i + 1) (if Ascii.eqb a c then i else last)
  end.

(** [s.lastIndexOf(c)] for a one-character search string: the index of
    the last occurrence, [-1] when there is none. *)
Definition lastIndexOf (s : string) (c : ascii) : Z := lastIndexOf_from s c 0 (-1).

(** Whether [c] occurs in [s]: [s.indexOf(c) >= 0]. *)
Fixpoint occurs (c : ascii) (s : string) : bool :=
  match s with
  | EmptyString => false
  | String a s' => Ascii.eqb a c || occurs c s'
  end.

(** [s.startsWith(p)] *)
Definition startsWith (s p : string) : bool := String.prefix p s.

(** A template literal prints a non-negative integer in decimal. *)
Definition of_index (i : nat) : string := NilEmpty.string_of_uint (Nat.to_uint i).

(** The line feed, written '\n' in the sources. *)
Definition newline : string := String (Ascii.ascii_of_nat 10) EmptyString.

(** A string is truthy when it is not empty; [undefined] is not. *)
Definition truthy (o : option string) : bool :=
  match o with
  | Some s => negb (String.eqb s "")
  | None => false
  end.

End JsString.

(** ** The defaults of the json plugin (json/index.ts 18-66) *)

Module Json.

(** The one field of a schema that the plugin reads. *)
Record JSONSchema := { id : option string }.

Record JSONSchemaSettings := {
  fileMatch : option (list string);
  url : option string;
  schema : option JSONSchema;
  folderUri : option string
}.

Record SchemaConfiguration := {
  sc_uri : string;
  sc_fileMatch : option (list string);
  sc_schema : option JSONSchema;
  sc_folderUri : option string
}.

Record LanguageSettings := {
  validate : bool;
  schemas : list SchemaConfiguration
}.

(** The URI chosen for the schema at index [i], lines 44-47: the [url] of
    the settings, or for settings with an inline schema and no [url] the
    [id] of that schema, or a URI made from the index. *)
Definition schema_uri (i : nat) (settings : JSONSchemaSettings) : option string :=
  let uri := url settings in
  if negb (JsString.truthy uri) then
    match schema settings with
    | Some inline =>
        if JsString.truthy (id inline) then id inline
        else Some ("vscode://schemas/custom/" ++ JsString.of_index i)%string
    | None => uri
    end
  else uri.

(** The loop of lines 42-51, from index [i] on. *)
Fixpoint push_schemas (i : nat) (configured : list JSONSchemaSettings)
    (schemas : list SchemaConfiguration) : list SchemaConfiguration :=
  match configured with
  | [] => schemas
  | settings :: rest =>
      let uri := schema_uri i settings in
      let schemas :=
        match uri with
        | Some u =>
            if JsString.truthy uri then
              schemas ++ [ {| sc_uri := u;
                              sc_fileMatch := fileMatch settings;
                              sc_schema := schema settings;
                              sc_folderUri := folderUri settings |} ]
            else schemas
        | None => schemas
        end in
      push_schemas (S i) rest schemas
  end.

(** The default [getLanguageSettings], lines 34-53: [validateSetting] and
    [schemasSetting] are what [getConfiguration?.(...)] gives for
    'json.validate' and 'json.schemas', [None] for [undefined]. *)
Definition getLanguageSettings (validateSetting : option bool)
    (schemasSetting : option (list JSONSchemaSettings)) : LanguageSettings :=
  {| validate := match validateSetting with Some v => v | None => true end;
     schemas :=
       push_schemas 0
         (match schemasSetting with Some l => l | None => [] end) [] |}.

(** The base of a resource in the default [resolveRelativePath], line 23:
    [resource.substring(0, resource.lastIndexOf('/') + 1)]. *)
Definition base (resource : string) : string :=
  JsString.substring resource 0 (JsString.lastIndexOf resource "/" + 1).

(** The default [isFormattingEnabled], lines 28-30: [enableSetting] is
    what [getConfiguration?.('json.format.enable')] gives, [None] for
    [undefined]. *)
Definition isFormattingEnabled (enableSetting : option bool) : bool :=
  match enableSetting with Some enabled => enabled | None => true end.

(** [{ ...options, ...formatOptions }], line 178, over objects as maps
    from property names: the properties of [options], then those of
    [formatOptions], which is [None] when the default
    [getFormattingOptions] gives [undefined]. *)
Definition spread {Value : Type} (options : JsMap.t Value)
    (formatOptions : option (JsMap.t Value)) : JsMap.t Value :=
  match formatOptions with
  | Some more =>
      fold_left (fun merged entry => JsMap.set merged (fst entry) (snd entry))
        more options
  | None => options
  end.

End Json.

(** ** The worker of the json plugin (json/index.ts 82-101, 185-199) *)

Module JsonWorker.
Import stdpp.base stdpp.gmap.

Section Instance.
Context {JSONDocument : Type}.
Variable documentSelector : DocumentSelector.
Variable parseJSONDocument : TextDocument -> JSONDocument.

(** The closure state of a plugin instance: the cache of parsed
    documents, whether [initializing] holds a promise, and the settings
    that [jsonLs.configure] was called with so far. *)
Record Instance := {
  jsonDocuments : gmap positive (Z * JSONDocument);
  initializing : bool;
  configured : list Json.LanguageSettings
}.

Definition fresh : Instance :=
  {| jsonDocuments := ∅; initializing := false; configured := [] |}.

(** [initialize], lines 196-199: [settings] is what
    [getLanguageSettings(context)] gives at that time. *)
Definition initialize (settings : Json.LanguageSettings) (st : Instance) : Instance :=
  {| jsonDocuments := jsonDocuments st;
     initializing := initializing st;
     configured := configured st ++ [settings] |}.

(** [await (initializing ??= initialize())], line 191.  Each call is taken
    to run to its end before the next one starts. *)
Definition ensure_initialized (settings : Json.LanguageSettings)
    (st : Instance) : Instance :=
  if initializing st then st
  else initialize settings
         {| jsonDocuments := jsonDocuments st;
            initializing := true;
            configured := configured st |}.

(** [worker], lines 185-194. *)
Definition worker {T : Type} (settings : Json.LanguageSettings)
    (document : Caches.DocumentObject) (callback : JSONDocument -> T)
    (st : Instance) : Instance * option T :=
  let '(jsonDocument, cache) :=
    Caches.getJsonDocument documentSelector parseJSONDocument
      (jsonDocuments st) document in
  let st := {| jsonDocuments := cache;
               initializing := initializing st;
               configured := configured st |} in
  match jsonDocument with
  | None => (st, None)
  | Some parsed => (ensure_initialized settings st, Some (callback parsed))
  end.

(** [provideDocumentFormattingEdits], lines 168-182, with the default
    [isFormattingEnabled] and [getFormattingOptions]; [format] is
    [jsonLs.format]. *)
Definition provideDocumentFormattingEdits {Value Range Edits : Type}
    (format : TextDocument -> Range -> JsMap.t Value -> Edits)
    (settings : Json.LanguageSettings) (enableSetting : option bool)
    (formatOptions : option (JsMap.t Value))
    (document : Caches.DocumentObject) (range : Range) (options : JsMap.t Value)
    (st : Instance) : Instance * option (option Edits) :=
  worker settings document
    (fun _ =>
       if negb (Json.isFormattingEnabled enableSetting) then None
       else Some (format (Caches.content document) range
                    (Json.spread options formatOptions))) st.

(** The listener given to [onDidChangeLanguageSettings], line 88. *)
Definition settingsChanged (st : Instance) : Instance :=
  {| jsonDocuments := jsonDocuments st;
     initializing := false;
     configured := configured st |}.

(** What happens to an instance: a request of a provider for a document,
    made while the configuration gives [settings], or a change of the
    language settings. *)
Inductive Call :=
| Request (settings : Json.LanguageSettings) (document : Caches.DocumentObject)
| SettingsChanged.

Definition step (st : Instance) (call : Call) : Instance :=
  match call with
  | Request settings document => fst (worker settings document (fun _ => tt) st)
  | SettingsChanged => settingsChanged st
  end.

Definition run (calls : list Call) : Instance := fold_left step calls fresh.

Definition is_change (call : Call) : bool :=
  match call with SettingsChanged => true | Request _ _ => false end.
End Instance.

End JsonWorker.

(** ** The vetur plugin (vetur/index.ts) *)

Module Vetur.

(** *** Attributes offered for a tag, lines 233-262 *)

Section Attributes.
Context {ValueSet Documentation : Type}.

Record IAttributeData := {
  attr_name : string;
  attr_valueSet : ValueSet;
  attr_description : Documentation
}.

(** The callback given to [provider.collectAttributes], lines 235-260. *)
Definition push_attribute (attributes : list IAttributeData)
    (collected : string * ValueSet * Documentation) : list IAttributeData :=
  let '(attribute, type, documentation) := collected in
  let entry name :=
    {| attr_name := name; attr_valueSet := type; attr_description := documentation |} in
  if JsString.startsWith attribute "v-" || JsString.startsWith attribute "@" then
    attributes ++ [entry attribute]
  else
    attributes ++ [ entry ("v-bind:" ++ attribute)%string;
                    entry (":" ++ attribute)%string;
                    entry attribute ].

(** [provideAttributes(tag)]: [collected] lists the attributes that the
    tag provider reports for the tag, in the order of its calls. *)
Definition provideAttributes (collected : list (string * ValueSet * Documentation))
    : list IAttributeData :=
  fold_left push_attribute collected [].
End Attributes.

(** *** The nearest package.json, lines 148-180 *)

(** [s.replace(/\\/g, '/')] *)
Fixpoint slashes (s : string) : string :=
  match s with
  | EmptyString => EmptyString
  | String a s' => String (if Ascii.eqb a "\" then "/"%char else a) (slashes s')
  end.

Section PackageJson.
(** [URI.parse(uri).scheme] and [.fsPath], [path.dirname], [fs.existsSync]. *)
Variable scheme : string -> string.
Variable fsPath : string -> string.
Variable dirname : string -> string.
Variable existsSync : string -> bool.

(** The [while (true)] loop of lines 160-173; [None] when the fuel runs
    out before the loop ends. *)
Fixpoint search (fuel : nat) (lastDirname : string) : option (option string) :=
  match fuel with
  | O => None
  | S fuel' =>
      let dirname_ := dirname lastDirname in
      if String.eqb dirname_ lastDirname then Some None
      else if existsSync (dirname_ ++ "/package.json")%string
           then Some (Some (dirname_ ++ "/package.json")%string)
           else search fuel' dirname_
  end.

(** [getPackageJsonPath], lines 148-180, over the map
    [uriToPackageJsonPath]. *)
Definition getPackageJsonPath (fuel : nat)
    (uriToPackageJsonPath : JsMap.t (option string)) (document : TextDocument)
    : option (option string * JsMap.t (option string)) :=
  let packageJsonPath :=
    match JsMap.get uriToPackageJsonPath (uri document) with
    | Some stored => stored
    | None => None
    end in
  if negb (JsString.truthy packageJsonPath) then
    let found :=
      if String.eqb (scheme (uri document)) "file"
      then search fuel (slashes (fsPath (uri document)))
      else Some packageJsonPath in
    match found with
    | Some packageJsonPath =>
        Some (packageJsonPath,
              JsMap.set uriToPackageJsonPath (uri document) packageJsonPath)
    | None => None
    end
  else Some (packageJsonPath, uriToPackageJsonPath).
End PackageJson.

(** *** Semantic tokens, lines 81-117 *)

Inductive TokenType :=
| StartTag
| EndTag
| OtherToken (kind : Z).

(** A token of the scanner: what [scan], [getTokenOffset], [getTokenText]
    and [getTokenLength] give for it. *)
Record Token := {
  tk_type : TokenType;
  tk_offset : Z;
  tk_text : string;
  tk_length : Z
}.

Record DataProvider := {
  getId : string;
  provideTags : list string   (* the names of the tags *)
}.

(** The set of component names, line 81. *)
Definition components (providers : list DataProvider) : JsSet.t :=
  JsSet.of_list
    (flat_map (fun provider =>
                 if String.eqb (getId provider) "html5" then []
                 else provideTags provider)
       providers).

Definition is_tag (t : TokenType) : bool :=
  match t with StartTag | EndTag => true | OtherToken _ => false end.

(** [line, character, length, tokenType, tokenModifiers] *)
Definition SemanticToken : Type := Z * Z * Z * Z * Z.

Section Tokens.
(** [document.positionAt] and [legend.tokenTypes.indexOf('function')]. *)
Variable positionAt : Z -> Z * Z.
Variable functionType : Z.

Definition semantic (token : Token) : SemanticToken :=
  let '(line, character) := positionAt (tk_offset token) in
  (line, character, tk_length token, functionType, 0%Z).

(** The scanning loop of lines 89-115, over the tokens that the scanner
    gives before the end of the stream. *)
Fixpoint scan (names : JsSet.t) (rangeStart rangeEnd : Z)
    (tokens : list Token) (result : list SemanticToken) : list SemanticToken :=
  match tokens with
  | [] => result
  | token :: rest =>
      if (tk_offset token >? rangeEnd)%Z then result
      else
        let result :=
          if (tk_offset token >=? rangeStart)%Z && is_tag (tk_type token) then
            if JsSet.has names (tk_text token) || JsString.occurs "." (tk_text token)
            then
              if JsSet.has names (tk_text token)
              then result ++ [semantic token]
              else result
            else result
          else result in
        scan names rangeStart rangeEnd rest result
  end.
End Tokens.

(** The tokens that get highlighted: start and end tags inside the range
    whose name is a component name. *)
Definition picked (names : JsSet.t) (rangeStart rangeEnd : Z)
    (token : Token) : bool :=
  (rangeStart <=? tk_offset token)%Z
  && (tk_offset token <=? rangeEnd)%Z
  && is_tag (tk_type token)
  && JsSet.has names (tk_text token).

End Vetur.

(** ** The workers of the vetur plugin (vetur/index.ts 43-146, 207-296) *)

Module VeturWorker.
Import stdpp.base stdpp.gmap.

(** [html.CompletionList] *)
Record CompletionList {Item : Type} := {
  isIncomplete : bool;
  items : list Item
}.
Arguments CompletionList : clear implicits.

Section Instance.
Context {HTMLDocument Provider Position Item Hover : Type}.
(** [htmlLs.parseHTMLDocument]; [URI.parse(uri).scheme] and [.fsPath],
    [path.dirname], [fs.existsSync]; the data providers built from
    [vls.getEnabledTagProviders(vls.getTagProviderSettings(path))], with
    their [getId()] and the names of their [provideTags()]. *)
Variable parseHTMLDocument : TextDocument -> HTMLDocument.
Variable scheme : string -> string.
Variable fsPath : string -> string.
Variable dirname : string -> string.
Variable existsSync : string -> bool.
Variable enabledTagProviders : string -> list Provider.
Variable provider_getId : Provider -> string.
Variable provider_tags : Provider -> list string.
(** [htmlLs.doComplete] and [htmlLs.doHover], which answer from the data
    providers that [htmlLs.setDataProviders] was last given ([None]: the
    built-in ones); the tokens that [htmlLs.createScanner(text)] scans
    before the end of the stream; [document.offsetAt] and
    [document.positionAt]. *)
Variable doComplete :
  option (list Provider) -> TextDocument -> Position -> HTMLDocument -> CompletionList Item.
Variable doHover :
  option (list Provider) -> TextDocument -> Position -> HTMLDocument -> option Hover.
Variable createScanner : string -> list Vetur.Token.
Variable offsetAt : TextDocument -> Position -> Z.
Variable positionAt : TextDocument -> Z -> Z * Z.

(** The closure state of a plugin instance, lines 28-31: the three caches
    and the data providers of [htmlLs]. *)
Record Instance := {
  htmlDocuments : gmap positive HTMLDocument;
  uriToPackageJsonPath : JsMap.t (option string);
  htmlDataProviders : JsMap.t (list Provider);
  dataProviders : option (list Provider)
}.

Definition fresh : Instance :=
  {| htmlDocuments := ∅;
     uriToPackageJsonPath := JsMap.empty;
     htmlDataProviders := JsMap.empty;
     dataProviders := None |}.

(** [getHtmlDataProviders], lines 207-280: an array is truthy, so a stored
    one is always answered. *)
Definition getHtmlDataProviders (packageJsonPath : string)
    (cache : JsMap.t (list Provider)) : list Provider * JsMap.t (list Provider) :=
  match JsMap.get cache packageJsonPath with
  | Some providers => (providers, cache)
  | None =>
      let providers := enabledTagProviders packageJsonPath in
      (providers, JsMap.set cache packageJsonPath providers)
  end.

(** A call of [getPackageJsonPath] on the instance; [None] when the fuel
    of the search runs out. *)
Definition packageJsonPath_of (fuel : nat) (document : Caches.DocumentObject)
    (st : Instance) : option (Instance * option string) :=
  match Vetur.getPackageJsonPath scheme fsPath dirname existsSync fuel
          (uriToPackageJsonPath st) (Caches.content document) with
  | Some (packageJsonPath, paths) =>
      Some ({| htmlDocuments := htmlDocuments st;
               uriToPackageJsonPath := paths;
               htmlDataProviders := htmlDataProviders st;
               dataProviders := dataProviders st |},
            packageJsonPath)
  | None => None
  end.

(** A call of [getHtmlDataProviders] on the instance. *)
Definition dataProviders_of (packageJsonPath : string) (st : Instance)
    : Instance * list Provider :=
  let '(providers, cache) :=
    getHtmlDataProviders packageJsonPath (htmlDataProviders st) in
  ({| htmlDocuments := htmlDocuments st;
      uriToPackageJsonPath := uriToPackageJsonPath st;
      htmlDataProviders := cache;
      dataProviders := dataProviders st |},
   providers).

(** [htmlLs.setDataProviders(false, providers)] *)
Definition setDataProviders (providers : list Provider) (st : Instance) : Instance :=
  {| htmlDocuments := htmlDocuments st;
     uriToPackageJsonPath := uriToPackageJsonPath st;
     htmlDataProviders := htmlDataProviders st;
     dataProviders := Some providers |}.

(** [htmlWorker], lines 122-140.  The callback runs on the instance. *)
Definition htmlWorker {T : Type} (fuel : nat) (document : Caches.DocumentObject)
    (callback : HTMLDocument -> Instance -> option (Instance * T))
    (st : Instance) : option (Instance * option T) :=
  let '(htmlDocument, cache) :=
    Caches.getHtmlDocument parseHTMLDocument (htmlDocuments st) document in
  let st := {| htmlDocuments := cache;
               uriToPackageJsonPath := uriToPackageJsonPath st;
               htmlDataProviders := htmlDataProviders st;
               dataProviders := dataProviders st |} in
  match htmlDocument with
  | None => Some (st, None)
  | Some htmlDocument =>
      match packageJsonPath_of fuel document st with
      | None => None
      | Some (st, packageJsonPath) =>
          match packageJsonPath with
          | Some path =>
              if JsString.truthy (Some path) then
                let '(st, providers) := dataProviders_of path st in
                let st := setDataProviders providers st in
                match callback htmlDocument st with
                | Some (st, result) => Some (st, Some result)
                | None => None
                end
              else Some (st, None)
          | None => Some (st, None)
          end
      end
  end.

(** A callback that answers from the instance and leaves it as it is. *)
Definition pure {T : Type} (f : HTMLDocument -> Instance -> T)
    (htmlDocument : HTMLDocument) (st : Instance) : option (Instance * T) :=
  Some (st, f htmlDocument st).

(** The worker up to its callback: the parsed document that the callback
    is run on, and the instance at that time. *)
Definition prepared (fuel : nat) (document : Caches.DocumentObject) (st : Instance)
    : option (Instance * option HTMLDocument) :=
  htmlWorker fuel document (pure (fun htmlDocument _ => htmlDocument)) st.

(** An instance is settled for a document when the parsed document, the
    path of the package.json and the data providers are stored for it, and
    the data providers are the ones set on the language service. *)
Definition settled (document : Caches.DocumentObject) (htmlDocument : HTMLDocument)
    (path : string) (providers : list Provider) (st : Instance) : Prop :=
  htmlDocuments st !! Caches.identity document = Some htmlDocument
  /\ JsMap.get (uriToPackageJsonPath st) (uri (Caches.content document))
     = Some (Some path)
  /\ path <> ""
  /\ JsMap.get (htmlDataProviders st) path = Some providers
  /\ dataProviders st = Some providers.

(** [vueWorker], lines 142-146. *)
Definition vueWorker {T : Type} (document : Caches.DocumentObject)
    (callback : unit -> T) : option T :=
  if String.eqb (languageId (Caches.content document)) "vue"
  then Some (callback tt) else None.

(** [provideCompletionItems], lines 43-64.  [snippets] is what
    [snippetManager.completeSnippets] gives at that time; each callback
    answers the value it leaves in [result]. *)
Definition provideCompletionItems (fuel : nat) (snippets : list Item)
    (document : Caches.DocumentObject) (position : Position)
    (triggerCharacter : option string) (st : Instance)
    : option (Instance * option (CompletionList Item)) :=
  match htmlWorker fuel document
          (fun htmlDocument st =>
             Some (st, doComplete (dataProviders st) (Caches.content document)
                         position htmlDocument)) st with
  | None => None
  | Some (st, result) =>
      let result :=
        if negb (JsString.truthy triggerCharacter) then
          match vueWorker document
                  (fun _ =>
                     let items := snippets in
                     if negb (Nat.eqb (List.length items) 0)
                     then Some {| isIncomplete := false; items := items |}
                     else result) with
          | Some result => result
          | None => result
          end
        else result in
      Some (st, result)
  end.

(** [provideHover], lines 66-70. *)
Definition provideHover (fuel : nat) (document : Caches.DocumentObject)
    (position : Position) (st : Instance)
    : option (Instance * option (option Hover)) :=
  htmlWorker fuel document
    (fun htmlDocument st =>
       Some (st, doHover (dataProviders st) (Caches.content document)
                   position htmlDocument)) st.

Definition as_data (provider : Provider) : Vetur.DataProvider :=
  {| Vetur.getId := provider_getId provider;
     Vetur.provideTags := provider_tags provider |}.

(** The tokens of the components among the tags of the document, lines
    81-117, for the data providers at hand. *)
Definition tokens_of (providers : list Provider) (document : TextDocument)
    (rangeStart rangeEnd : Position) (functionType : Z) : list Vetur.SemanticToken :=
  Vetur.scan (positionAt document) functionType
    (Vetur.components (List.map as_data providers))
    (offsetAt document rangeStart) (offsetAt document rangeEnd)
    (createScanner (text document)) [].

(** [provideDocumentSemanticTokens], lines 72-119; [functionType] is
    [legend.tokenTypes.indexOf('function')]. *)
Definition provideDocumentSemanticTokens (fuel : nat)
    (document : Caches.DocumentObject) (rangeStart rangeEnd : Position)
    (functionType : Z) (st : Instance)
    : option (Instance * option (option (list Vetur.SemanticToken))) :=
  htmlWorker fuel document
    (fun _ st =>
       match packageJsonPath_of fuel document st with
       | None => None
       | Some (st, packageJsonPath) =>
           match packageJsonPath with
           | Some path =>
               if JsString.truthy (Some path) then
                 let '(st, providers) := dataProviders_of path st in
                 Some (st, Some (tokens_of providers (Caches.content document)
                                   rangeStart rangeEnd functionType))
               else Some (st, None)
           | None => Some (st, None)
           end
       end) st.
End Instance.

End VeturWorker.

(** ** A concrete site for the vetur plugin *)

Module Site.

(** A site with one HTML page and a package.json beside it. *)
Definition scheme (u : string) : string := JsString.take 4 u.
Definition fsPath (u : string) : string := JsString.drop 7 u.
Definition dirname (p : string) : string :=
  if String.eqb p "/site/index.html" then "/site" else "/".
Definition existsSync (p : string) : bool := String.eqb p "/site/package.json".
Definition providers (p : string) : list string := ["vue"; "html5"].

Definition index_html : Caches.DocumentObject :=
  {| Caches.identity := 1%positive;
     Caches.content :=
       {| uri := "file:///site/index.html"; languageId := "html";
          version := 1; text := "<my-button/>" |} |}.

End Site.

(** ** Text edits of the formatters *)

(** A replacement of the text between two offsets; positions of a document
    are taken by their offsets. *)
Record TextEdit := {
  edit_start : Z;
  edit_end : Z;
  edit_newText : string
}.

(** ** The prettier plugin *)

Module Prettier.

Record PluginOptions := {
  languages : option (list string);
  breakContentsFromTags : option bool;   (* [options.html?.breakContentsFromTags] *)
  ignoreIDEOptions : option bool
}.

Record FormattingOptions := {
  tabSize : Z;
  insertSpaces : bool
}.

Section Plugin.
(** What the configuration file of prettier gives besides [useTabs] and
    [tabWidth]. *)
Context {Other : Type}.

Record Config := {
  useTabs : option bool;
  tabWidth : option Z;
  filepath : option string;
  other : Other
}.

(** [format] of prettier, [String.prototype.trim], the two [replace] calls
    of the HTML preprocessing, and [context.uriToFileName]. *)
Variable format : string -> Config -> string.
Variable trim : string -> string.
Variable breakContents : string -> string.
Variable uriToFileName : string -> string.

Definition truthy (o : option bool) : bool :=
  match o with Some b => b | None => false end.

(** [options.languages ??= [...]] *)
Definition languages_of (options : PluginOptions) : list string :=
  match languages options with
  | Some l => l
  | None => ["html"; "css"; "scss"; "typescript"; "javascript"]
  end.

(** [languages.includes(languageId)] *)
Definition includes (l : list string) (x : string) : bool := existsb (String.eqb x) l.

(** The configuration handed to prettier. *)
Definition currentPrettierConfig (options : PluginOptions) (prettierOptions : Config)
    (document : TextDocument) (formatOptions : FormattingOptions) : Config :=
  let config :=
    {| useTabs := useTabs prettierOptions;
       tabWidth := tabWidth prettierOptions;
       filepath := Some (uriToFileName (uri document));
       other := other prettierOptions |} in
  if negb (truthy (ignoreIDEOptions options)) then
    {| useTabs := Some (negb (insertSpaces formatOptions));
       tabWidth := Some (tabSize formatOptions);
       filepath := filepath config;
       other := other config |}
  else config.

Definition oldText_of (options : PluginOptions) (document : TextDocument) : string :=
  let isHTML := String.eqb (languageId document) "html" in
  if isHTML && truthy (breakContentsFromTags options)
  then breakContents (text document)
  else text document.

(** [format(document, _, formatOptions)] of the plugin. *)
Definition plugin_format (options : PluginOptions) (prettierOptions : Config)
    (document : TextDocument) (formatOptions : FormattingOptions)
    : option (list TextEdit) :=
  if negb (includes (languages_of options) (languageId document)) then None
  else
    let fullText := text document in
    let oldText := oldText_of options document in
    let newText :=
      format oldText
        (currentPrettierConfig options prettierOptions document formatOptions) in
    let newText := (JsString.newline ++ trim newText ++ JsString.newline)%string in
    if String.eqb newText oldText then Some []
    else Some [ {| edit_start := 0;
                   edit_end := JsString.length fullText;
                   edit_newText := newText |} ].
End Plugin.

End Prettier.

(** ** The prettyhtml plugin (prettyhtml/src/index.ts) *)

Module PrettyHtml.

Section Plugin.
(** [prettyhtml(text, { ...configs, tabWidth, useTabs }).contents] *)
Variable prettyhtml : string -> Z -> bool -> string.

(** [document.getText(range)], the range given by its offsets. *)
Definition getText (document : TextDocument) (start stop : Z) : string :=
  JsString.substring (text document) start stop.

(** [provideDocumentFormattingEdits(document, range, options)] *)
Definition provideDocumentFormattingEdits (document : TextDocument)
    (rangeStart rangeEnd : Z) (options : Prettier.FormattingOptions)
    : option (list TextEdit) :=
  if negb (String.eqb (languageId document) "html") then None
  else
    let oldRangeText := getText document rangeStart rangeEnd in
    let newRangeText :=
      prettyhtml oldRangeText (Prettier.tabSize options)
        (negb (Prettier.insertSpaces options)) in
    if String.eqb newRangeText oldRangeText then Some []
    else
      let newText :=
        (getText document 0 rangeStart
         ++ newRangeText
         ++ getText document rangeEnd (JsString.length (text document)))%string in
      Some [ {| edit_start := 0;
                edit_end := JsString.length (text document);
                edit_newText := newText |} ].
End Plugin.

End PrettyHtml.

(** * Properties *)

(** ** [JsMap] *)

Section JsMapFacts.
Context {V : Type}.
Implicit Types (m : JsMap.t V) (k : string) (v : V).

Lemma get_set m k v k' :
  JsMap.get (JsMap.set m k v) k' = if String.eqb k k' then Some v else JsMap.get m k'.
Proof.
  induction m as [|[k0 v0] m IH]; simpl.
  - reflexivity.
  - destruct (String.eqb_spec k0 k) as [->|Hne]; simpl.
    + destruct (String.eqb k k'); reflexivity.
    + rewrite IH. destruct (String.eqb_spec k0 k') as [->|Hne'].
      * destruct (String.eqb_spec k k'); [congruence | reflexivity].
      * reflexivity.
Qed.

Lemma has_set m k v k' :
  JsMap.has (JsMap.set m k v) k' = String.eqb k k' || JsMap.has m k'.
Proof.
  unfold JsMap.has. rewrite get_set. destruct (String.eqb k k'); reflexivity.
Qed.

Lemma has_In_keys m k : JsMap.has m k = true <-> In k (JsMap.keys m).
Proof.
  unfold JsMap.has, JsMap.keys.
  induction m as [|[k0 v0] m IH]; simpl.
  - split; [discriminate | tauto].
  - destruct (String.eqb_spec k0 k) as [->|Hne].
    + split; auto.
    + rewrite IH. split; [auto | intros [H|H]; [congruence | exact H]].
Qed.

Lemma has_false_not_In m k : JsMap.has m k = false <-> ~ In k (JsMap.keys m).
Proof.
  rewrite <- has_In_keys. destruct (JsMap.has m k); split; congruence.
Qed.

Lemma get_In m k v : JsMap.get m k = Some v -> In (k, v) m.
Proof.
  induction m as [|[k0 v0] m IH]; simpl; [discriminate|].
  destruct (String.eqb_spec k0 k) as [->|Hne].
  - intros [= ->]. auto.
  - auto.
Qed.

Lemma In_get m k v : NoDup (JsMap.keys m) -> In (k, v) m -> JsMap.get m k = Some v.
Proof.
  unfold JsMap.keys.
  induction m as [|[k0 v0] m IH]; simpl; [tauto|].
  intros Hnd Hin. apply NoDup_cons_iff in Hnd as [Hnotin Hnd].
  destruct Hin as [[= -> ->]|Hin].
  - rewrite String.eqb_refl. reflexivity.
  - destruct (String.eqb_spec k0 k) as [->|Hne].
    + exfalso. apply Hnotin. apply (in_map fst) in Hin. exact Hin.
    + auto.
Qed.

Lemma keys_set m k v :
  JsMap.keys (JsMap.set m k v)
  = if JsMap.has m k then JsMap.keys m else JsMap.keys m ++ [k].
Proof.
  unfold JsMap.has, JsMap.keys.
  induction m as [|[k0 v0] m IH]; simpl; [reflexivity|].
  destruct (String.eqb_spec k0 k) as [->|Hne]; simpl; [reflexivity|].
  rewrite IH. destruct (JsMap.get m k); reflexivity.
Qed.

Lemma NoDup_keys_set m k v :
  NoDup (JsMap.keys m) -> NoDup (JsMap.keys (JsMap.set m k v)).
Proof.
  intros Hnd. rewrite keys_set. destruct (JsMap.has m k) eqn:Hhas; [exact Hnd|].
  apply has_false_not_In in Hhas.
  apply NoDup_app; [exact Hnd | repeat constructor; simpl; tauto |].
  intros x Hx [<-|[]]. exact (Hhas Hx).
Qed.

Lemma keys_delete_incl m k x :
  In x (JsMap.keys (JsMap.delete m k)) -> In x (JsMap.keys m).
Proof.
  unfold JsMap.keys.
  induction m as [|[k0 v0] m IH]; simpl; [tauto|].
  destruct (String.eqb k0 k); simpl; [auto | intros [H|H]; auto].
Qed.

Lemma NoDup_keys_delete m k :
  NoDup (JsMap.keys m) -> NoDup (JsMap.keys (JsMap.delete m k)).
Proof.
  unfold JsMap.keys.
  induction m as [|[k0 v0] m IH]; simpl; [auto|].
  intros Hnd. apply NoDup_cons_iff in Hnd as [Hnotin Hnd].
  destruct (String.eqb k0 k); [exact Hnd|].
  simpl. constructor; [|auto].
  intros Hin. apply Hnotin. exact (keys_delete_incl _ _ _ Hin).
Qed.

Lemma get_delete_ne m k k' :
  k <> k' -> JsMap.get (JsMap.delete m k) k' = JsMap.get m k'.
Proof.
  intros Hne.
  induction m as [|[k0 v0] m IH]; simpl; [reflexivity|].
  destruct (String.eqb_spec k0 k) as [->|Hne0]; simpl.
  - destruct (String.eqb_spec k k'); [congruence | reflexivity].
  - rewrite IH. reflexivity.
Qed.

Lemma get_delete_eq m k :
  NoDup (JsMap.keys m) -> JsMap.get (JsMap.delete m k) k = None.
Proof.
  unfold JsMap.keys.
  induction m as [|[k0 v0] m IH]; simpl; [reflexivity|].
  intros Hnd. apply NoDup_cons_iff in Hnd as [Hnotin Hnd].
  destruct (String.eqb_spec k0 k) as [->|Hne0]; simpl.
  - destruct (JsMap.get m k) eqn:Hget; [|reflexivity].
    exfalso. apply Hnotin. apply get_In in Hget.
    apply (in_map fst) in Hget. exact Hget.
  - destruct (String.eqb_spec k0 k); [congruence | auto].
Qed.

Lemma get_delete m k k' :
  NoDup (JsMap.keys m) ->
  JsMap.get (JsMap.delete m k) k' = if String.eqb k k' then None else JsMap.get m k'.
Proof.
  intros Hnd. destruct (String.eqb_spec k k') as [<-|Hne].
  - apply get_delete_eq, Hnd.
  - apply get_delete_ne, Hne.
Qed.

Lemma In_values_get m v :
  NoDup (JsMap.keys m) ->
  In v (JsMap.values m) <-> exists k, JsMap.get m k = Some v.
Proof.
  intros Hnd. unfold JsMap.values. rewrite in_map_iff. split.
  - intros [[k v'] [Hv Hin]]. simpl in Hv. subst v'.
    exists k. apply In_get; assumption.
  - intros [k Hget]. exists (k, v). split; [reflexivity | apply get_In, Hget].
Qed.
End JsMapFacts.

(** ** [JsSet] *)

Lemma JsSet_has_In s k : JsSet.has s k = true <-> In k s.
Proof.
  unfold JsSet.has. rewrite existsb_exists. split.
  - intros [x [Hin Heq]]. apply String.eqb_eq in Heq. subst. exact Hin.
  - intros Hin. exists k. split; [exact Hin | apply String.eqb_refl].
Qed.

Lemma JsSet_add_In s k x : In x (JsSet.add s k) <-> In x s \/ x = k.
Proof.
  unfold JsSet.add. destruct (JsSet.has s k) eqn:Hhas.
  - apply JsSet_has_In in Hhas. split; [auto | intros [H| ->]; auto].
  - rewrite in_app_iff. simpl. split; intros [H|H]; auto.
    + destruct H as [<-|[]]. auto.
Qed.

Lemma JsSet_add_NoDup s k : NoDup s -> NoDup (JsSet.add s k).
Proof.
  intros Hnd. unfold JsSet.add. destruct (JsSet.has s k) eqn:Hhas; [exact Hnd|].
  apply NoDup_app; [exact Hnd | repeat constructor; simpl; tauto |].
  intros x Hx [<-|[]].
  apply JsSet_has_In in Hx. congruence.
Qed.

Lemma JsSet_fold_add l : forall s,
  NoDup s ->
  NoDup (fold_left JsSet.add l s)
  /\ forall x, In x (fold_left JsSet.add l s) <-> In x s \/ In x l.
Proof.
  induction l as [|k l IH]; simpl; intros s Hnd.
  - split; [exact Hnd | intros x; tauto].
  - destruct (IH (JsSet.add s k) (JsSet_add_NoDup s k Hnd)) as [H1 H2].
    split; [exact H1|]. intros x. rewrite H2, JsSet_add_In.
    split; [intros [[H|H]|H] | intros [H|[H|H]]]; auto.
Qed.

Lemma JsSet_of_list_NoDup l : NoDup (JsSet.of_list l).
Proof. apply JsSet_fold_add. constructor. Qed.

Lemma JsSet_of_list_In l x : In x (JsSet.of_list l) <-> In x l.
Proof.
  unfold JsSet.of_list.
  destruct (JsSet_fold_add l [] (NoDup_nil _)) as [_ H]. rewrite H. simpl. tauto.
Qed.

(** ** Reconciliation *)

Lemma fold_reconcile_new entries : forall st,
  fold_left reconcile_new entries st
  = {| lastProjectVersion := lastProjectVersion st;
       syncedVersions := set_all entries (syncedVersions st);
       fired := fired st ++ upsert_calls entries (syncedVersions st) |}.
Proof.
  induction entries as [|[k d] entries IH]; intros st; simpl.
  - rewrite app_nil_r. destruct st; reflexivity.
  - rewrite IH. unfold upsert_event, JsMap.has. simpl.
    destruct (JsMap.get (syncedVersions st) k); simpl;
      rewrite <- app_assoc; reflexivity.
Qed.

Lemma fold_reconcile_old new uris : forall st,
  fold_left (reconcile_old new) uris st
  = let gone := filter (fun u => negb (JsMap.has new u)) uris in
    {| lastProjectVersion := lastProjectVersion st;
       syncedVersions := delete_all gone (syncedVersions st);
       fired := fired st ++ delete_calls gone (syncedVersions st) |}.
Proof.
  induction uris as [|u uris IH]; intros st; simpl.
  - rewrite app_nil_r. destruct st; reflexivity.
  - rewrite IH. unfold reconcile_old.
    destruct (negb (JsMap.has new u)); simpl.
    + rewrite <- app_assoc. reflexivity.
    + reflexivity.
Qed.

(** The state and the listener calls of a whole reconciliation. *)
Lemma reconcile_unfold old_uris new st :
  reconcile old_uris new st
  = let gone := filter (fun u => negb (JsMap.has new u)) old_uris in
    let mid := set_all new (syncedVersions st) in
    {| lastProjectVersion := lastProjectVersion st;
       syncedVersions := delete_all gone mid;
       fired := fired st ++ upsert_calls new (syncedVersions st)
                         ++ delete_calls gone mid |}.
Proof.
  unfold reconcile. rewrite fold_reconcile_new, fold_reconcile_old. simpl.
  rewrite <- app_assoc. reflexivity.
Qed.

Lemma get_set_all entries : forall m k,
  JsMap.get (set_all entries m) k
  = match JsMap.get (rev entries) k with
    | Some d => Some d
    | None => JsMap.get m k
    end.
Proof.
  unfold set_all.
  induction entries as [|[k0 d0] entries IH]; intros m k; simpl.
  - reflexivity.
  - rewrite IH, get_set.
    assert (Hrev : forall (l : JsMap.t TextDocument) e,
               JsMap.get (l ++ [e]) k
               = match JsMap.get l k with
                 | Some d => Some d
                 | None => if String.eqb (fst e) k then Some (snd e) else None
                 end).
    { induction l as [|[k1 d1] l IHl]; intros [k2 d2]; simpl.
      - reflexivity.
      - destruct (String.eqb k1 k); [reflexivity | apply IHl]. }
    rewrite Hrev. simpl.
    destruct (JsMap.get (rev entries) k); [reflexivity|].
    destruct (String.eqb k0 k); reflexivity.
Qed.

Lemma get_rev (m : JsMap.t TextDocument) k :
  NoDup (JsMap.keys m) -> JsMap.get (rev m) k = JsMap.get m k.
Proof.
  intros Hnd.
  assert (Hnd' : NoDup (JsMap.keys (rev m))).
  { unfold JsMap.keys. rewrite map_rev. apply NoDup_rev. exact Hnd. }
  destruct (JsMap.get m k) as [d|] eqn:Hget.
  - apply In_get; [exact Hnd'|]. apply in_rev. rewrite rev_involutive.
    apply get_In, Hget.
  - destruct (JsMap.get (rev m) k) as [d|] eqn:Hget'; [|reflexivity].
    apply get_In, in_rev in Hget'. apply In_get in Hget'; [congruence | exact Hnd].
Qed.

Lemma get_set_all_NoDup entries m k :
  NoDup (JsMap.keys entries) ->
  JsMap.get (set_all entries m) k
  = match JsMap.get entries k with
    | Some d => Some d
    | None => JsMap.get m k
    end.
Proof. intros Hnd. rewrite get_set_all, get_rev by exact Hnd. reflexivity. Qed.

Lemma NoDup_keys_set_all entries : forall m,
  NoDup (JsMap.keys m) -> NoDup (JsMap.keys (set_all entries m)).
Proof.
  unfold set_all. induction entries as [|e entries IH]; intros m Hnd; simpl.
  - exact Hnd.
  - apply IH, NoDup_keys_set, Hnd.
Qed.

Lemma NoDup_keys_delete_all uris : forall (m : JsMap.t TextDocument),
  NoDup (JsMap.keys m) -> NoDup (JsMap.keys (delete_all uris m)).
Proof.
  unfold delete_all. induction uris as [|u uris IH]; intros m Hnd; simpl.
  - exact Hnd.
  - apply IH, NoDup_keys_delete, Hnd.
Qed.

Lemma get_delete_all uris : forall (m : JsMap.t TextDocument) k,
  NoDup (JsMap.keys m) ->
  JsMap.get (delete_all uris m) k
  = if JsSet.has uris k then None else JsMap.get m k.
Proof.
  unfold delete_all, JsSet.has.
  induction uris as [|u uris IH]; intros m k Hnd; simpl.
  - reflexivity.
  - rewrite IH by (apply NoDup_keys_delete, Hnd).
    rewrite get_delete by exact Hnd.
    rewrite (String.eqb_sym k u).
    destruct (String.eqb u k); simpl; [|reflexivity].
    destruct (existsb (String.eqb k) uris); reflexivity.
Qed.

Lemma stale_In old new u :
  In u (stale old new) <-> JsMap.has old u = true /\ JsMap.has new u = false.
Proof.
  unfold stale. rewrite filter_In, JsSet_of_list_In, <- has_In_keys.
  rewrite negb_true_iff. tauto.
Qed.

(** After a reconciliation the stored set holds the entries of the new set
    and nothing else. *)
Lemma reconcile_same_entries new st :
  NoDup (JsMap.keys (syncedVersions st)) ->
  NoDup (JsMap.keys new) ->
  JsMap.same_entries
    (syncedVersions (reconcile (JsSet.of_list (JsMap.keys (syncedVersions st))) new st))
    new.
Proof.
  intros Hold Hnew k. rewrite reconcile_unfold. simpl.
  fold (stale (syncedVersions st) new).
  rewrite get_delete_all by (apply NoDup_keys_set_all, Hold).
  rewrite get_set_all_NoDup by exact Hnew.
  destruct (JsSet.has (stale (syncedVersions st) new) k) eqn:Hs.
  - apply JsSet_has_In, stale_In in Hs as [_ Hs].
    unfold JsMap.has in Hs. destruct (JsMap.get new k); [discriminate | reflexivity].
  - destruct (JsMap.get new k) as [d|] eqn:Hget; [reflexivity|].
    destruct (JsMap.get (syncedVersions st) k) as [d|] eqn:Hgo; [|reflexivity].
    exfalso. apply not_true_iff_false in Hs. apply Hs.
    apply JsSet_has_In, stale_In. unfold JsMap.has. rewrite Hgo, Hget. auto.
Qed.

(** ** Maps built by [set(document.uri, document)] *)

Lemma set_documents_app docs1 docs2 m :
  set_documents (docs1 ++ docs2) m = set_documents docs2 (set_documents docs1 m).
Proof. unfold set_documents. apply fold_left_app. Qed.

Lemma set_documents_set_all docs m :
  set_documents docs m = set_all (map (fun d => (uri d, d)) docs) m.
Proof.
  unfold set_documents, set_all. revert m.
  induction docs as [|d docs IH]; intros m; simpl; [reflexivity | apply IH].
Qed.

Lemma NoDup_keys_set_documents docs m :
  NoDup (JsMap.keys m) -> NoDup (JsMap.keys (set_documents docs m)).
Proof. rewrite set_documents_set_all. apply NoDup_keys_set_all. Qed.

Lemma keyed_set m d : keyed m -> keyed (JsMap.set m (uri d) d).
Proof.
  unfold keyed. induction m as [|[k0 d0] m IH]; simpl; intros Hk.
  - repeat constructor.
  - inversion Hk as [|? ? Hhd Htl]; subst. simpl in Hhd.
    destruct (String.eqb_spec k0 (uri d)) as [->|Hne].
    + constructor; [reflexivity | exact Htl].
    + constructor; [exact Hhd | apply IH, Htl].
Qed.

Lemma keyed_set_documents docs : forall m, keyed m -> keyed (set_documents docs m).
Proof.
  unfold set_documents. induction docs as [|d docs IH]; intros m Hk; simpl.
  - exact Hk.
  - apply IH, keyed_set, Hk.
Qed.

Lemma of_documents_NoDup docs : NoDup (JsMap.keys (of_documents docs)).
Proof. apply NoDup_keys_set_documents. constructor. Qed.

Lemma of_documents_keyed docs : keyed (of_documents docs).
Proof. apply keyed_set_documents. constructor. Qed.

Lemma keyed_get m k d : keyed m -> JsMap.get m k = Some d -> k = uri d.
Proof.
  intros Hk Hget. apply get_In in Hget.
  unfold keyed in Hk. rewrite Forall_forall in Hk. exact (Hk _ Hget).
Qed.

(** An entry of the built map is one of the documents, under its own URI. *)
Lemma of_documents_get docs k d :
  JsMap.get (of_documents docs) k = Some d -> k = uri d /\ In d docs.
Proof.
  intros Hget. split; [exact (keyed_get _ _ _ (of_documents_keyed docs) Hget)|].
  unfold of_documents in Hget. rewrite set_documents_set_all, get_set_all in Hget.
  simpl in Hget.
  destruct (JsMap.get (rev (map (fun d => (uri d, d)) docs)) k) as [d'|] eqn:Hrev;
    [|discriminate].
  injection Hget as ->. apply get_In, in_rev, in_map_iff in Hrev.
  destruct Hrev as [d0 [[= _ ->] Hin]]. exact Hin.
Qed.

(** The URI of every document is a key of the built map. *)
Lemma of_documents_has docs d :
  In d docs -> JsMap.has (of_documents docs) (uri d) = true.
Proof.
  intros Hin. apply has_In_keys.
  unfold of_documents. generalize (@JsMap.empty TextDocument).
  induction docs as [|d0 docs IH]; intros m; [destruct Hin|].
  destruct Hin as [->|Hin]; [|apply IH, Hin].
  unfold set_documents. simpl. fold (set_documents docs (JsMap.set m (uri d) d)).
  assert (Hkeep : forall docs m k, In k (JsMap.keys m) ->
                    In k (JsMap.keys (set_documents docs m))).
  { clear. induction docs as [|d docs IH]; intros m k Hk; [exact Hk|].
    apply IH. apply has_In_keys. rewrite has_set.
    apply has_In_keys in Hk. rewrite Hk. apply orb_true_r. }
  apply Hkeep. apply has_In_keys. rewrite has_set, String.eqb_refl. reflexivity.
Qed.

(** The first loop fires, for each entry, the event chosen against the set
    stored before the sync: earlier insertions concern other keys. *)
Lemma upsert_calls_events entries : forall m,
  NoDup (JsMap.keys entries) ->
  map event (upsert_calls entries m) = map (upsert_event m) entries.
Proof.
  induction entries as [|[k d] entries IH]; intros m Hnd; simpl; [reflexivity|].
  unfold JsMap.keys in Hnd. simpl in Hnd. apply NoDup_cons_iff in Hnd as [Hnotin Hnd].
  f_equal. rewrite IH by exact Hnd.
  apply map_ext_in. intros [k' d'] Hin. unfold upsert_event. simpl.
  rewrite has_set.
  destruct (String.eqb_spec k k') as [->|Hne]; [|reflexivity].
  exfalso. apply Hnotin. apply (in_map fst) in Hin. exact Hin.
Qed.

Lemma delete_calls_events uris : forall m,
  map event (delete_calls uris m) = map DidDelete uris.
Proof.
  induction uris as [|u uris IH]; intros m; simpl; [reflexivity|].
  rewrite IH. reflexivity.
Qed.

(** The events of a reconciliation against the keys of the stored set. *)
Lemma reconcile_events new st :
  NoDup (JsMap.keys new) ->
  events (reconcile (JsSet.of_list (JsMap.keys (syncedVersions st))) new st)
  = events st ++ map (upsert_event (syncedVersions st)) new
              ++ map DidDelete (stale (syncedVersions st) new).
Proof.
  intros Hnd. unfold events. rewrite reconcile_unfold. simpl.
  rewrite !map_app, upsert_calls_events, delete_calls_events by exact Hnd.
  reflexivity.
Qed.

(** ** The walk of [sync] (markdown/src/index.ts) *)

(** Induction on a tree of virtual files, with the hypothesis available for
    every embedded file. *)
Lemma VirtualFile_tree_ind (P : MarkdownSrc.VirtualFile -> Prop) :
  (forall id lang snapshot embedded,
      Forall P embedded ->
      P (MarkdownSrc.Build_VirtualFile id lang snapshot embedded)) ->
  forall file, P file.
Proof.
  intros Hnode. fix IH 1. intros [id lang snapshot embedded].
  apply Hnode. induction embedded as [|e embedded IHe]; constructor.
  - apply IH.
  - exact IHe.
Qed.

Lemma walk_children_preorder children : forall acc,
  Forall (fun c => forall acc, MarkdownSrc.walk acc c = acc ++ MarkdownSrc.preorder c)
    children ->
  fold_left MarkdownSrc.walk children acc
  = acc ++ flat_map MarkdownSrc.preorder children.
Proof.
  induction children as [|c children IH]; intros acc Hall; simpl.
  - rewrite app_nil_r. reflexivity.
  - inversion Hall as [|? ? Hc Hrest]; subst.
    rewrite Hc, IH by exact Hrest. rewrite <- app_assoc. reflexivity.
Qed.

(** [walk] appends the pre-order listing of the file it is given. *)
Lemma walk_preorder file : forall acc,
  MarkdownSrc.walk acc file = acc ++ MarkdownSrc.preorder file.
Proof.
  induction file as [id lang snapshot embedded IH] using VirtualFile_tree_ind.
  intros acc. simpl.
  rewrite walk_children_preorder by exact IH.
  rewrite <- app_assoc. reflexivity.
Qed.

Lemma virtualFiles_of_preorder r :
  MarkdownSrc.virtualFiles_of r = MarkdownSrc.preorder r.
Proof.
  unfold MarkdownSrc.virtualFiles_of. destruct r as [id lang snapshot embedded].
  simpl. rewrite walk_children_preorder; [reflexivity|].
  apply Forall_forall. intros c _. apply walk_preorder.
Qed.

Lemma src_collect_embedded_fold context files : forall m,
  fold_left (MarkdownSrc.collect_embedded context) files m
  = set_documents
      (map (MarkdownSrc.document_of_embedded context)
         (filter (fun f => String.eqb (MarkdownSrc.vf_languageId f) "markdown") files))
      m.
Proof.
  induction files as [|f files IH]; intros m; simpl; [reflexivity|].
  rewrite IH. unfold MarkdownSrc.collect_embedded.
  destruct (String.eqb (MarkdownSrc.vf_languageId f) "markdown"); reflexivity.
Qed.

Lemma src_collect_sourceFile_matching context m sourceFile :
  MarkdownSrc.collect_sourceFile context m sourceFile
  = set_documents (MarkdownSrc.matching_of_sourceFile context sourceFile) m.
Proof.
  unfold MarkdownSrc.collect_sourceFile, MarkdownSrc.matching_of_sourceFile.
  destruct (MarkdownSrc.root sourceFile) as [r|].
  - rewrite src_collect_embedded_fold, virtualFiles_of_preorder. reflexivity.
  - destruct (isMarkdown _); reflexivity.
Qed.

Lemma src_newVersions_of_documents context :
  MarkdownSrc.newVersions context
  = of_documents (MarkdownSrc.matching_documents context).
Proof.
  unfold MarkdownSrc.newVersions, MarkdownSrc.matching_documents, of_documents.
  generalize (@JsMap.empty TextDocument).
  induction (MarkdownSrc.getAllSourceFiles context) as [|sf sfs IH]; intros m; simpl.
  - reflexivity.
  - rewrite IH, set_documents_app, src_collect_sourceFile_matching. reflexivity.
Qed.

(** ** The walk of [sync] (markdown/index.ts) *)

Lemma collect_virtualCode_fold documentSelector context sourceFile codes : forall m,
  fold_left (Markdown.collect_virtualCode documentSelector context sourceFile) codes m
  = set_documents
      (map (Markdown.document_of_code context sourceFile)
         (filter (fun c => matchDocument documentSelector (Markdown.vc_languageId c))
            codes))
      m.
Proof.
  induction codes as [|c codes IH]; intros m; simpl; [reflexivity|].
  rewrite IH. unfold Markdown.collect_virtualCode.
  destruct (matchDocument documentSelector (Markdown.vc_languageId c)); reflexivity.
Qed.

Lemma collect_fileName_matching documentSelector context m fileName :
  Markdown.collect_fileName documentSelector context m fileName
  = set_documents (Markdown.matching_of_fileName documentSelector context fileName) m.
Proof.
  unfold Markdown.collect_fileName, Markdown.matching_of_fileName.
  destruct (snd (Markdown.getVirtualCodeByUri context _)) as [sourceFile|];
    [|reflexivity].
  destruct (Markdown.generated sourceFile) as [code|].
  - apply collect_virtualCode_fold.
  - unfold Markdown.document_of_file. destruct (matchDocument _ _); reflexivity.
Qed.

Lemma newVersions_of_documents documentSelector context host :
  Markdown.newVersions documentSelector context host
  = of_documents (Markdown.matching_documents documentSelector context host).
Proof.
  unfold Markdown.newVersions, Markdown.matching_documents, of_documents.
  generalize (@JsMap.empty TextDocument).
  induction (Markdown.getScriptFileNames host) as [|f fs IH]; intros m; simpl.
  - reflexivity.
  - rewrite IH, set_documents_app, collect_fileName_matching. reflexivity.
Qed.

Lemma newVersions_NoDup documentSelector context host :
  NoDup (JsMap.keys (Markdown.newVersions documentSelector context host)).
Proof. rewrite newVersions_of_documents. apply of_documents_NoDup. Qed.

Lemma newVersions_keyed documentSelector context host :
  keyed (Markdown.newVersions documentSelector context host).
Proof. rewrite newVersions_of_documents. apply of_documents_keyed. Qed.

Lemma src_newVersions_NoDup context :
  NoDup (JsMap.keys (MarkdownSrc.newVersions context)).
Proof. rewrite src_newVersions_of_documents. apply of_documents_NoDup. Qed.

Lemma src_newVersions_keyed context : keyed (MarkdownSrc.newVersions context).
Proof. rewrite src_newVersions_of_documents. apply of_documents_keyed. Qed.

(** C6: when [sync] recomputes the tracked set it meets every source file
    of the project; the tree of a source file is listed in pre-order (the
    array that [walk] fills is the pre-order listing of the root), a
    document is inserted under its own URI for every node of the tree whose
    language is selected, the document being asked from the provider with
    the node id (markdown/src/index.ts) or with the URI made from the
    source-file id and the node id (markdown/index.ts); a source file with
    no tree is tested itself and inserted when it matches.  So the new set
    is the map built by inserting, in this order, the documents of all
    matching nodes: each entry is such a document under its URI, and the
    URI of each such document is a key. *)
Theorem sync_walks_every_source_file :
  (forall r : MarkdownSrc.VirtualFile,
      MarkdownSrc.virtualFiles_of r = MarkdownSrc.preorder r)
  /\ (forall context,
        let new := MarkdownSrc.newVersions context in
        let matching := MarkdownSrc.matching_documents context in
        new = of_documents matching
        /\ (forall k d, JsMap.get new k = Some d -> k = uri d /\ In d matching)
        /\ (forall d, In d matching -> JsMap.has new (uri d) = true))
  /\ (forall documentSelector context host,
        let new := Markdown.newVersions documentSelector context host in
        let matching := Markdown.matching_documents documentSelector context host in
        new = of_documents matching
        /\ (forall k d, JsMap.get new k = Some d -> k = uri d /\ In d matching)
        /\ (forall d, In d matching -> JsMap.has new (uri d) = true)).
Proof.
  split; [exact virtualFiles_of_preorder|]. split.
  - intros context new matching. subst new matching.
    rewrite src_newVersions_of_documents.
    split; [reflexivity|]. split.
    + apply of_documents_get.
    + apply of_documents_has.
  - intros documentSelector context host new matching. subst new matching.
    rewrite newVersions_of_documents.
    split; [reflexivity|]. split.
    + apply of_documents_get.
    + apply of_documents_has.
Qed.

(** ** What one reconciliation emits *)

Lemma upsert_event_uri old e : keyed [e] -> event_uri (upsert_event old e) = fst e.
Proof.
  intros Hk. inversion Hk as [|? ? Hhd _]; subst.
  unfold upsert_event. destruct (JsMap.has old (fst e)); simpl; congruence.
Qed.

Lemma reconcile_emits old new :
  keyed new ->
  let upserts := map (upsert_event old) new in
  let deletes := map DidDelete (stale old new) in
  (forall u d, JsMap.get new u = Some d -> JsMap.has old u = true ->
               In (DidChange d) upserts)
  /\ (forall u d, JsMap.get new u = Some d -> JsMap.has old u = false ->
                  In (DidCreate d) upserts)
  /\ (forall u, JsMap.has old u = true -> JsMap.has new u = false ->
                In (DidDelete u) deletes)
  /\ (forall e, In e (upserts ++ deletes) ->
                JsMap.has old (event_uri e) = true
                \/ JsMap.has new (event_uri e) = true)
  /\ Forall is_upsert upserts
  /\ Forall is_delete deletes.
Proof.
  intros Hk upserts deletes. subst upserts deletes.
  repeat split.
  - intros u d Hget Hold. apply in_map_iff. exists (u, d).
    unfold upsert_event. simpl. rewrite Hold. split; [reflexivity | apply get_In, Hget].
  - intros u d Hget Hold. apply in_map_iff. exists (u, d).
    unfold upsert_event. simpl. rewrite Hold. split; [reflexivity | apply get_In, Hget].
  - intros u Hold Hnew. apply in_map, stale_In. auto.
  - intros e Hin. apply in_app_or in Hin as [Hin|Hin].
    + right. apply in_map_iff in Hin as [[k d] [<- Hin]].
      unfold keyed in Hk. rewrite Forall_forall in Hk.
      rewrite upsert_event_uri by (constructor; [exact (Hk _ Hin) | constructor]).
      apply has_In_keys. apply (in_map fst) in Hin. exact Hin.
    + left. apply in_map_iff in Hin as [u [<- Hin]]. simpl.
      apply stale_In in Hin. tauto.
  - apply Forall_forall. intros e Hin. apply in_map_iff in Hin as [[k d] [<- _]].
    unfold upsert_event. destruct (JsMap.has old _); exact I.
  - apply Forall_forall. intros e Hin. apply in_map_iff in Hin as [u [<- _]].
    exact I.
Qed.

(** [sync] either returns at once or reconciles against the new set. *)
Lemma sync_reconciles documentSelector context host st :
  Markdown.typescript context = Some host ->
  shouldUpdate (Markdown.getProjectVersion host) (lastProjectVersion st) = true ->
  Markdown.sync documentSelector context st
  = reconcile (JsSet.of_list (JsMap.keys (syncedVersions st)))
      (Markdown.newVersions documentSelector context host)
      (set_lastProjectVersion (Markdown.getProjectVersion host) st).
Proof.
  intros Hts Hup. unfold Markdown.sync. rewrite Hts, Hup. reflexivity.
Qed.

Lemma sync_skips documentSelector context st :
  match Markdown.typescript context with
  | Some host =>
      shouldUpdate (Markdown.getProjectVersion host) (lastProjectVersion st) = false
  | None => True
  end ->
  Markdown.sync documentSelector context st = st.
Proof.
  unfold Markdown.sync. destruct (Markdown.typescript context) as [host|];
    [|reflexivity].
  intros ->. reflexivity.
Qed.

Lemma src_sync_reconciles context st :
  shouldUpdate (MarkdownSrc.getProjectVersion context) (lastProjectVersion st) = true ->
  MarkdownSrc.sync context st
  = reconcile (JsSet.of_list (JsMap.keys (syncedVersions st)))
      (MarkdownSrc.newVersions context)
      (set_lastProjectVersion (MarkdownSrc.getProjectVersion context) st).
Proof. intros Hup. unfold MarkdownSrc.sync. rewrite Hup. reflexivity. Qed.

(** C1: a sync that reconciles emits, after the events already fired, first
    one event per entry of the new set, in the order of the new set:
    "changed" when the URI was in the old set (whatever the old and the new
    document are, also when they are the same), "created" otherwise; then
    one "deleted" per URI of the old set that the new set lacks, in the
    order of the old set.  Every emitted event is about a URI of the old or
    of the new set. *)
Theorem sync_emits documentSelector context host st :
  Markdown.typescript context = Some host ->
  shouldUpdate (Markdown.getProjectVersion host) (lastProjectVersion st) = true ->
  let old := syncedVersions st in
  let new := Markdown.newVersions documentSelector context host in
  exists upserts deletes,
    events (Markdown.sync documentSelector context st) = events st ++ upserts ++ deletes
    /\ upserts = map (upsert_event old) new
    /\ deletes = map DidDelete (stale old new)
    /\ (forall u d, JsMap.get new u = Some d -> JsMap.has old u = true ->
                    In (DidChange d) upserts)
    /\ (forall u d, JsMap.get old u = Some d -> JsMap.get new u = Some d ->
                    In (DidChange d) upserts)
    /\ (forall u d, JsMap.get new u = Some d -> JsMap.has old u = false ->
                    In (DidCreate d) upserts)
    /\ (forall u, JsMap.has old u = true -> JsMap.has new u = false ->
                  In (DidDelete u) deletes)
    /\ (forall e, In e (upserts ++ deletes) ->
                  JsMap.has old (event_uri e) = true
                  \/ JsMap.has new (event_uri e) = true)
    /\ Forall is_upsert upserts
    /\ Forall is_delete deletes.
Proof.
  intros Hts Hup old new.
  exists (map (upsert_event old) new), (map DidDelete (stale old new)).
  destruct (reconcile_emits old new (newVersions_keyed _ _ _))
    as (Hchange & Hcreate & Hdelete & Huri & Hups & Hdels).
  split.
  - rewrite (sync_reconciles _ _ _ _ Hts Hup).
    apply (reconcile_events new (set_lastProjectVersion _ st)), newVersions_NoDup.
  - repeat (split; [first [reflexivity | assumption]|]).
    split; [|repeat (split; [assumption|]); assumption].
    intros u d Hold Hnew. apply (Hchange u d Hnew).
    unfold JsMap.has. fold old. rewrite Hold. reflexivity.
Qed.

(** The same for the [sync] of markdown/src/index.ts. *)
Lemma src_sync_emits context st :
  shouldUpdate (MarkdownSrc.getProjectVersion context) (lastProjectVersion st) = true ->
  let old := syncedVersions st in
  let new := MarkdownSrc.newVersions context in
  events (MarkdownSrc.sync context st)
  = events st ++ map (upsert_event old) new ++ map DidDelete (stale old new).
Proof.
  intros Hup old new. rewrite (src_sync_reconciles _ _ Hup).
  apply (reconcile_events new (set_lastProjectVersion _ st)), src_newVersions_NoDup.
Qed.

Lemma sync_emits_witness :
  Markdown.typescript Sample.replaced = Some Sample.replaced_host
  /\ shouldUpdate (Markdown.getProjectVersion Sample.replaced_host)
       (lastProjectVersion Sample.once_7) = true
  /\ exists upserts deletes,
       events (Markdown.sync Sample.selector Sample.replaced Sample.once_7)
       = events Sample.once_7 ++ upserts ++ deletes
       /\ Forall is_upsert upserts /\ Forall is_delete deletes.
Proof.
  split; [reflexivity|]. split; [reflexivity|].
  destruct (sync_emits Sample.selector Sample.replaced Sample.replaced_host
              Sample.once_7 eq_refl eq_refl)
    as (upserts & deletes & Hev & _ & _ & _ & _ & _ & _ & _ & Hups & Hdels).
  exists upserts, deletes. repeat split; assumption.
Defined.

(** ** The version gate of [sync] *)

Lemma shouldUpdate_same v : shouldUpdate (Some v) (Some v) = false.
Proof. simpl. rewrite String.eqb_refl. reflexivity. Qed.

Lemma shouldUpdate_false newProjectVersion last :
  shouldUpdate newProjectVersion last = false ->
  exists v, newProjectVersion = Some v /\ last = Some v.
Proof.
  destruct newProjectVersion as [v|]; [|discriminate].
  destruct last as [l|]; [|discriminate]. simpl.
  intros H. apply negb_false_iff, String.eqb_eq in H. subst. eauto.
Qed.

Lemma reconcile_lastProjectVersion uris new st :
  lastProjectVersion (reconcile uris new st) = lastProjectVersion st.
Proof. rewrite reconcile_unfold. reflexivity. Qed.

(** After a sync over a host, the recorded version is the one the host gave. *)
Lemma sync_records_version documentSelector context host st :
  Markdown.typescript context = Some host ->
  lastProjectVersion (Markdown.sync documentSelector context st)
  = Markdown.getProjectVersion host.
Proof.
  intros Hts.
  destruct (shouldUpdate (Markdown.getProjectVersion host) (lastProjectVersion st))
    eqn:Hup.
  - rewrite (sync_reconciles _ _ _ _ Hts Hup), reconcile_lastProjectVersion.
    reflexivity.
  - rewrite sync_skips by (rewrite Hts; exact Hup).
    apply shouldUpdate_false in Hup as [v [-> ->]]. reflexivity.
Qed.

Lemma src_sync_records_version context st :
  lastProjectVersion (MarkdownSrc.sync context st)
  = MarkdownSrc.getProjectVersion context.
Proof.
  destruct (shouldUpdate (MarkdownSrc.getProjectVersion context)
              (lastProjectVersion st)) eqn:Hup.
  - rewrite (src_sync_reconciles _ _ Hup), reconcile_lastProjectVersion. reflexivity.
  - unfold MarkdownSrc.sync. rewrite Hup. simpl.
    apply shouldUpdate_false in Hup as [v [-> ->]]. reflexivity.
Qed.

(** C2, as the code has it: when both calls read the same defined project
    version, the second [sync] returns at once: the tracker is left as the
    first call left it, so no event is added and the tracked set is
    unchanged, whatever else differs between the two contexts. *)
Theorem sync_twice_same_version documentSelector context context' host host' v st :
  Markdown.typescript context = Some host ->
  Markdown.getProjectVersion host = Some v ->
  Markdown.typescript context' = Some host' ->
  Markdown.getProjectVersion host' = Some v ->
  let once := Markdown.sync documentSelector context st in
  let twice := Markdown.sync documentSelector context' once in
  twice = once
  /\ events twice = events once
  /\ syncedVersions twice = syncedVersions once.
Proof.
  intros Hts Hv Hts' Hv' once twice.
  assert (Heq : twice = once).
  { subst twice. apply sync_skips. rewrite Hts', Hv'.
    subst once. rewrite (sync_records_version _ _ _ _ Hts), Hv.
    apply shouldUpdate_same. }
  rewrite Heq. auto.
Qed.

Lemma sync_twice_same_version_witness :
  Sample.twice_7 = Sample.once_7
  /\ events Sample.twice_7 = events Sample.once_7
  /\ syncedVersions Sample.twice_7 = syncedVersions Sample.once_7.
Proof.
  exact (sync_twice_same_version Sample.selector
           Sample.versioned Sample.versioned'
           Sample.versioned_host Sample.versioned_host'
           "7" initial eq_refl eq_refl eq_refl eq_refl).
Defined.

(** The same for the [sync] of markdown/src/index.ts. *)
Lemma src_sync_twice_same_version context context' v st :
  MarkdownSrc.getProjectVersion context = Some v ->
  MarkdownSrc.getProjectVersion context' = Some v ->
  MarkdownSrc.sync context' (MarkdownSrc.sync context st)
  = MarkdownSrc.sync context st.
Proof.
  intros Hv Hv'. unfold MarkdownSrc.sync at 1.
  rewrite src_sync_records_version, Hv, Hv', shouldUpdate_same. reflexivity.
Qed.

(** C2 as stated fails when the host gives no project version: the token
    is [undefined] at both calls, yet the second call reconciles again and
    fires "changed" for each tracked document. *)
Lemma sync_twice_undefined_version_emits :
  Markdown.getProjectVersion Sample.unversioned_host = None
  /\ events Sample.twice
     = events Sample.once
       ++ [ DidChange Sample.readme_document;
            DidChange (Sample.provider "file:///page.vue#docs_0" "markdown"
                         {| getText := "intro" |});
            DidChange (Sample.provider "file:///page.vue#docs_1" "markdown"
                         {| getText := "outro" |}) ]
  /\ events Sample.twice <> events Sample.once.
Proof.
  split; [reflexivity|]. split; [vm_compute; reflexivity|].
  vm_compute. discriminate.
Qed.

(** ** Create / delete pairing *)

Lemma restrict_app u evs1 evs2 :
  restrict u (evs1 ++ evs2) = restrict u evs1 ++ restrict u evs2.
Proof. apply filter_app. Qed.

Lemma pairing_app evs1 : forall present evs2,
  pairing present (evs1 ++ evs2)
  = match pairing present evs1 with
    | Some present' => pairing present' evs2
    | None => None
    end.
Proof.
  induction evs1 as [|e evs1 IH]; intros present evs2; simpl; [reflexivity|].
  destruct (pairing_step present e); [apply IH | reflexivity].
Qed.

(** In a map with distinct keys, at most one entry is filed under [u]. *)
Lemma filter_key (m : JsMap.t TextDocument) u :
  NoDup (JsMap.keys m) ->
  filter (fun e => String.eqb (fst e) u) m
  = match JsMap.get m u with Some d => [(u, d)] | None => [] end.
Proof.
  unfold JsMap.keys. induction m as [|[k d] m IH]; simpl; [reflexivity|].
  intros Hnd. apply NoDup_cons_iff in Hnd as [Hnotin Hnd].
  destruct (String.eqb_spec k u) as [->|Hne].
  - f_equal. rewrite IH by exact Hnd.
    destruct (JsMap.get m u) as [d'|] eqn:Hget; [|reflexivity].
    exfalso. apply Hnotin. apply get_In in Hget.
    apply (in_map fst) in Hget. exact Hget.
  - apply IH, Hnd.
Qed.

Lemma filter_uri (uris : list string) u :
  NoDup uris ->
  filter (fun x => String.eqb x u) uris = if JsSet.has uris u then [u] else [].
Proof.
  unfold JsSet.has. induction uris as [|x uris IH]; simpl; [reflexivity|].
  intros Hnd. apply NoDup_cons_iff in Hnd as [Hnotin Hnd].
  rewrite (String.eqb_sym u x).
  destruct (String.eqb_spec x u) as [->|Hne]; simpl.
  - f_equal. rewrite IH by exact Hnd.
    destruct (existsb (String.eqb u) uris) eqn:Hex; [|reflexivity].
    exfalso. apply Hnotin. apply (proj1 (JsSet_has_In uris u)). exact Hex.
  - apply IH, Hnd.
Qed.

Lemma restrict_upserts old new u :
  NoDup (JsMap.keys new) -> keyed new ->
  restrict u (map (upsert_event old) new)
  = match JsMap.get new u with
    | Some d => [upsert_event old (u, d)]
    | None => []
    end.
Proof.
  intros Hnd Hk.
  assert (Hswap : restrict u (map (upsert_event old) new)
                  = map (upsert_event old)
                      (filter (fun e => String.eqb (fst e) u) new)).
  { clear Hnd. unfold restrict. induction new as [|e new IH]; simpl; [reflexivity|].
    inversion Hk as [|? ? Hhd Htl]; subst.
    rewrite upsert_event_uri by (constructor; [exact Hhd | constructor]).
    destruct (String.eqb (fst e) u); simpl; rewrite IH by exact Htl; reflexivity. }
  rewrite Hswap, filter_key by exact Hnd.
  destruct (JsMap.get new u); reflexivity.
Qed.

Lemma stale_NoDup old new : NoDup (stale old new).
Proof. unfold stale. apply NoDup_filter, JsSet_of_list_NoDup. Qed.

Lemma restrict_deletes old new u :
  restrict u (map DidDelete (stale old new))
  = if JsMap.has old u && negb (JsMap.has new u) then [DidDelete u] else [].
Proof.
  assert (Hswap : forall uris,
             restrict u (map DidDelete uris)
             = map DidDelete (filter (fun x => String.eqb x u) uris)).
  { unfold restrict. induction uris as [|x uris IH]; simpl; [reflexivity|].
    destruct (String.eqb x u); simpl; rewrite IH; reflexivity. }
  rewrite Hswap, filter_uri by apply stale_NoDup.
  destruct (JsSet.has (stale old new) u) eqn:Hs.
  - apply JsSet_has_In, stale_In in Hs as [-> ->]. reflexivity.
  - destruct (JsMap.has old u) eqn:Ho; [|reflexivity].
    destruct (JsMap.has new u) eqn:Hn; [reflexivity|].
    exfalso. apply not_true_iff_false in Hs. apply Hs.
    apply JsSet_has_In, stale_In. auto.
Qed.

(** The events of one reconciliation about a URI, read from "the URI is
    reported as existing iff the old set has it", pair up and leave the
    URI reported as existing iff the new set has it. *)
Lemma emitted_paired old new u :
  NoDup (JsMap.keys new) -> keyed new ->
  pairing (JsMap.has old u)
    (restrict u (map (upsert_event old) new ++ map DidDelete (stale old new)))
  = Some (JsMap.has new u).
Proof.
  intros Hnd Hk.
  rewrite restrict_app, pairing_app.
  rewrite restrict_upserts by assumption. rewrite restrict_deletes.
  unfold JsMap.has at 3 4. unfold upsert_event. simpl.
  destruct (JsMap.get new u) as [d|]; simpl.
  - rewrite andb_false_r. destruct (JsMap.has old u); reflexivity.
  - rewrite andb_true_r. destruct (JsMap.has old u); reflexivity.
Qed.

(** What a call of [sync] adds to the events, and what it leaves tracked. *)
Lemma sync_step documentSelector context st :
  NoDup (JsMap.keys (syncedVersions st)) ->
  let st' := Markdown.sync documentSelector context st in
  NoDup (JsMap.keys (syncedVersions st'))
  /\ exists emitted,
       events st' = events st ++ emitted
       /\ forall u, pairing (JsMap.has (syncedVersions st) u) (restrict u emitted)
                    = Some (JsMap.has (syncedVersions st') u).
Proof.
  intros Hold st'. subst st'.
  assert (Hskip : Markdown.sync documentSelector context st = st ->
            NoDup (JsMap.keys (syncedVersions (Markdown.sync documentSelector context st)))
            /\ exists emitted,
                 events (Markdown.sync documentSelector context st)
                 = events st ++ emitted
                 /\ forall u,
                      pairing (JsMap.has (syncedVersions st) u) (restrict u emitted)
                      = Some (JsMap.has
                                (syncedVersions
                                   (Markdown.sync documentSelector context st)) u)).
  { intros ->. split; [exact Hold|]. exists []. split.
    - symmetry. apply app_nil_r.
    - intros u. reflexivity. }
  destruct (Markdown.typescript context) as [host|] eqn:Hts.
  - destruct (shouldUpdate (Markdown.getProjectVersion host) (lastProjectVersion st))
      eqn:Hup.
    + clear Hskip. rewrite (sync_reconciles _ _ _ _ Hts Hup).
      set (new := Markdown.newVersions documentSelector context host).
      set (v := Markdown.getProjectVersion host).
      assert (Hnew : NoDup (JsMap.keys new)) by apply newVersions_NoDup.
      assert (Hk : keyed new) by apply newVersions_keyed.
      pose proof (reconcile_events new (set_lastProjectVersion v st) Hnew) as Hev.
      pose proof (reconcile_same_entries new (set_lastProjectVersion v st) Hold Hnew)
        as Hsame.
      change (events (set_lastProjectVersion v st)) with (events st) in Hev.
      change (syncedVersions (set_lastProjectVersion v st))
        with (syncedVersions st) in Hev, Hsame |- *.
      split.
      * rewrite reconcile_unfold. simpl.
        apply NoDup_keys_delete_all, NoDup_keys_set_all, Hold.
      * eexists. split; [exact Hev|]. intros u.
        rewrite emitted_paired by assumption.
        unfold JsMap.has. rewrite Hsame. reflexivity.
    + apply Hskip, sync_skips. rewrite Hts. exact Hup.
  - apply Hskip, sync_skips. rewrite Hts. exact I.
Qed.

Lemma fileWatcher_tracked context changes : forall st,
  syncedVersions (Markdown.fileWatcher context changes st) = syncedVersions st
  /\ lastProjectVersion (Markdown.fileWatcher context changes st)
     = lastProjectVersion st.
Proof.
  unfold Markdown.fileWatcher.
  induction changes as [|change changes IH]; intros st; simpl; [auto|].
  destruct (IH (Markdown.fileWatcher_change context st change)) as [-> ->].
  unfold Markdown.fileWatcher_change.
  repeat (destruct (Z.eqb _ _);
          [try destruct (Markdown.getTextDocument _ _ _); auto|]).
  auto.
Qed.

Lemma skipn_events_app (evs emitted : list DocumentEvent) :
  skipn (List.length evs) (evs ++ emitted) = emitted.
Proof.
  induction evs as [|e evs IH]; simpl; [reflexivity | exact IH].
Qed.

(** The invariant of a tracker along any run: the stored map has distinct
    keys, and for every URI the events fired by the syncs so far pair up,
    the URI being left reported as existing exactly when it is tracked. *)
Lemma sync_events_invariant documentSelector triggers : forall st evs,
  NoDup (JsMap.keys (syncedVersions st)) ->
  (forall u, pairing false (restrict u evs)
             = Some (JsMap.has (syncedVersions st) u)) ->
  forall u,
    pairing false
      (restrict u (evs ++ Markdown.sync_events documentSelector st triggers))
    = Some (JsMap.has
              (syncedVersions (fold_left (Markdown.step documentSelector) triggers st))
              u).
Proof.
  induction triggers as [|t triggers IH]; intros st evs Hnd Hpair u; simpl.
  - rewrite app_nil_r. apply Hpair.
  - rewrite app_assoc. destruct t as [context|context changes]; simpl.
    + destruct (sync_step documentSelector context st Hnd)
        as [Hnd' [emitted [Hev Hem]]].
      apply IH; [exact Hnd'|]. intros u'.
      rewrite Hev, skipn_events_app, restrict_app, pairing_app, Hpair.
      apply Hem.
    + destruct (fileWatcher_tracked context changes st) as [Hsv _].
      apply IH.
      * rewrite Hsv. exact Hnd.
      * intros u'. rewrite app_nil_r, Hsv. apply Hpair.
Qed.

Lemma sync_events_only_syncs documentSelector contexts : forall st,
  events st
  ++ Markdown.sync_events documentSelector st (map Markdown.CallSync contexts)
  = events (fold_left (Markdown.step documentSelector)
              (map Markdown.CallSync contexts) st).
Proof.
  induction contexts as [|context contexts IH]; intros st; simpl.
  - apply app_nil_r.
  - rewrite <- IH, app_assoc. f_equal.
    assert (Hext : exists emitted,
               events (Markdown.sync documentSelector context st)
               = events st ++ emitted).
    { destruct (Markdown.typescript context) as [host|] eqn:Hts.
      - destruct (shouldUpdate (Markdown.getProjectVersion host)
                    (lastProjectVersion st)) eqn:Hup.
        + rewrite (sync_reconciles _ _ _ _ Hts Hup).
          eexists.
          apply (reconcile_events _ (set_lastProjectVersion _ st)),
            newVersions_NoDup.
        + exists []. rewrite sync_skips by (rewrite Hts; exact Hup).
          symmetry. apply app_nil_r.
      - exists []. rewrite sync_skips by (rewrite Hts; exact I).
        symmetry. apply app_nil_r. }
    destruct Hext as [emitted Hev]. rewrite Hev, skipn_events_app. reflexivity.
Qed.

(** C3, as the code has it: in any run of a plugin instance, syncs and
    watched-file reports in any order, the events fired by the syncs about
    any one URI pair up: the first is "created", "changed" and "deleted"
    come only after a "created" not yet followed by a "deleted", and no
    "created" follows a "created" without a "deleted" in between; the
    sequence ends with "deleted" exactly when the URI is no longer
    tracked.  In a run made of syncs only, these are all the events. *)
Theorem sync_events_paired documentSelector :
  (forall triggers u,
      let st := Markdown.lifetime documentSelector triggers in
      let evs := Markdown.sync_events documentSelector initial triggers in
      pairing false (restrict u evs) = Some (JsMap.has (syncedVersions st) u)
      /\ well_paired (restrict u evs))
  /\ (forall contexts,
        Markdown.sync_events documentSelector initial
          (map Markdown.CallSync contexts)
        = events (Markdown.lifetime documentSelector
                    (map Markdown.CallSync contexts))).
Proof.
  split.
  - intros triggers u st evs.
    assert (H : pairing false (restrict u evs)
                = Some (JsMap.has (syncedVersions st) u)).
    { subst st evs. unfold Markdown.lifetime.
      apply (sync_events_invariant documentSelector triggers initial []).
      - constructor.
      - intros u'. reflexivity. }
    split; [exact H | eexists; exact H].
  - intros contexts.
    apply (sync_events_only_syncs documentSelector contexts initial).
Qed.

(** C3 as stated takes in the watched-file bridge, which forwards a
    deletion without looking at what was reported before: after a sync and
    the report of a deleted file, the only event about the URI of that file
    is a "deleted". *)
Lemma watcher_delete_unpaired :
  restrict "file:///gone.md" (events Sample.with_watcher)
  = [DidDelete "file:///gone.md"]
  /\ ~ well_paired (restrict "file:///gone.md" (events Sample.with_watcher)).
Proof.
  split; [vm_compute; reflexivity|].
  intros [present H]. vm_compute in H. discriminate.
Qed.

(** ** What the listeners find stored *)

(** A call of the first loop happens right after its entry was stored, the
    entries before it having been stored too. *)
Lemma upsert_calls_In entries : forall m c,
  In c (upsert_calls entries m) ->
  exists before e after,
    entries = before ++ e :: after
    /\ event c = upsert_event (set_all before m) e
    /\ observed c = set_all (before ++ [e]) m.
Proof.
  induction entries as [|e0 entries IH]; intros m c Hin; [destruct Hin|].
  destruct Hin as [<-|Hin].
  - exists [], e0, entries. repeat split.
  - destruct (IH _ _ Hin) as (before & e & after & -> & Hev & Hobs).
    exists (e0 :: before), e, after. repeat split; assumption.
Qed.

(** A call of the second loop happens right after its URI was removed, the
    URIs before it having been removed too. *)
Lemma delete_calls_In uris : forall m c,
  In c (delete_calls uris m) ->
  exists before u after,
    uris = before ++ u :: after
    /\ event c = DidDelete u
    /\ observed c = delete_all (before ++ [u]) m.
Proof.
  induction uris as [|u0 uris IH]; intros m c Hin; [destruct Hin|].
  destruct Hin as [<-|Hin].
  - exists [], u0, uris. repeat split.
  - destruct (IH _ _ Hin) as (before & u & after & -> & Hev & Hobs).
    exists (u0 :: before), u, after. repeat split; assumption.
Qed.

Lemma has_set_all_keeps entries m u :
  JsMap.has m u = true -> JsMap.has (set_all entries m) u = true.
Proof.
  unfold JsMap.has. rewrite get_set_all.
  destruct (JsMap.get (rev entries) u); [reflexivity | auto].
Qed.

Lemma get_rev_last (before : JsMap.t TextDocument) e :
  JsMap.get (rev (before ++ [e])) (fst e) = Some (snd e).
Proof.
  rewrite rev_app_distr. destruct e as [k d]. simpl.
  rewrite String.eqb_refl. reflexivity.
Qed.

Lemma event_upsert_document old e d :
  upsert_event old e = DidChange d \/ upsert_event old e = DidCreate d ->
  snd e = d.
Proof.
  unfold upsert_event. destruct (JsMap.has old (fst e)); intros [H|H]; congruence.
Qed.

Lemma reconcile_observed old new calls :
  NoDup (JsMap.keys old) -> NoDup (JsMap.keys new) -> keyed new ->
  calls = upsert_calls new old ++ delete_calls (stale old new) (set_all new old) ->
  (forall c d, In c calls -> event c = DidChange d \/ event c = DidCreate d ->
        JsMap.get (observed c) (uri d) = Some d
        /\ forall u, In u (stale old new) -> JsMap.has (observed c) u = true)
  /\ (forall c u, In c calls -> event c = DidDelete u ->
        JsMap.has (observed c) u = false
        /\ forall k d, JsMap.get new k = Some d -> JsMap.get (observed c) k = Some d).
Proof.
  intros Hold Hnew Hk ->. split.
  - intros c d Hin Hev. apply in_app_or in Hin as [Hin|Hin].
    + apply upsert_calls_In in Hin as (before & e & after & Hsplit & He & Hobs).
      rewrite He in Hev. apply event_upsert_document in Hev. subst d.
      assert (Hkey : fst e = uri (snd e)).
      { unfold keyed in Hk. rewrite Forall_forall in Hk. apply Hk.
        rewrite Hsplit. apply in_or_app. right. left. reflexivity. }
      rewrite Hobs. split.
      * rewrite get_set_all, <- Hkey, get_rev_last. reflexivity.
      * intros u Hu. apply has_set_all_keeps. apply stale_In in Hu. tauto.
    + apply delete_calls_In in Hin as (before & u & after & _ & He & _).
      rewrite He in Hev. destruct Hev; discriminate.
  - intros c u Hin Hev. apply in_app_or in Hin as [Hin|Hin].
    + apply upsert_calls_In in Hin as (before & e & after & _ & He & _).
      rewrite He in Hev. unfold upsert_event in Hev.
      destruct (JsMap.has _ (fst e)); discriminate.
    + apply delete_calls_In in Hin as (before & u' & after & Hsplit & He & Hobs).
      rewrite He in Hev. injection Hev as ->.
      assert (Hmid : NoDup (JsMap.keys (set_all new old)))
        by (apply NoDup_keys_set_all, Hold).
      rewrite Hobs. split.
      * unfold JsMap.has. rewrite get_delete_all by exact Hmid.
        assert (Hu : JsSet.has (before ++ [u]) u = true)
          by (apply JsSet_has_In, in_or_app; right; left; reflexivity).
        rewrite Hu. reflexivity.
      * intros k d Hget. rewrite get_delete_all by exact Hmid.
        destruct (JsSet.has (before ++ [u]) k) eqn:Hin.
        -- exfalso. apply JsSet_has_In in Hin.
           assert (Hst : In k (stale old new)).
           { rewrite Hsplit. apply in_app_or in Hin as [Hin|[<-|[]]];
               apply in_or_app; [left; exact Hin | right; left; reflexivity]. }
           apply stale_In in Hst as [_ Hst]. unfold JsMap.has in Hst.
           rewrite Hget in Hst. discriminate.
        -- rewrite get_set_all_NoDup by exact Hnew. rewrite Hget. reflexivity.
Qed.

(** C5, as the code has it: during a sync that reconciles, the stored set
    is updated in place, one entry at a time, between the listener calls.
    Each document of the new set is stored just before its "changed" or
    "created" listener runs, so that listener finds its own document stored
    together with every stale entry of the old set; each stale URI is
    removed just before its "deleted" listener runs, which finds its URI
    gone and every entry of the new set stored.  Once the sync has returned
    the stored set holds the entries of the new set and no others. *)
Theorem sync_updates_in_place documentSelector context host st :
  Markdown.typescript context = Some host ->
  shouldUpdate (Markdown.getProjectVersion host) (lastProjectVersion st) = true ->
  NoDup (JsMap.keys (syncedVersions st)) ->
  let old := syncedVersions st in
  let new := Markdown.newVersions documentSelector context host in
  let st' := Markdown.sync documentSelector context st in
  exists calls,
    fired st' = fired st ++ calls
    /\ calls = upsert_calls new old ++ delete_calls (stale old new) (set_all new old)
    /\ (forall c d, In c calls -> event c = DidChange d \/ event c = DidCreate d ->
          JsMap.get (observed c) (uri d) = Some d
          /\ forall u, In u (stale old new) -> JsMap.has (observed c) u = true)
    /\ (forall c u, In c calls -> event c = DidDelete u ->
          JsMap.has (observed c) u = false
          /\ forall k d, JsMap.get new k = Some d ->
                         JsMap.get (observed c) k = Some d)
    /\ JsMap.same_entries (syncedVersions st') new.
Proof.
  intros Hts Hup Hold old new st'.
  exists (upsert_calls new old ++ delete_calls (stale old new) (set_all new old)).
  assert (Hnew : NoDup (JsMap.keys new)) by apply newVersions_NoDup.
  assert (Hk : keyed new) by apply newVersions_keyed.
  destruct (reconcile_observed old new _ Hold Hnew Hk eq_refl) as [Hups Hdels].
  subst st'. rewrite (sync_reconciles _ _ _ _ Hts Hup).
  split; [rewrite reconcile_unfold; reflexivity|].
  split; [reflexivity|]. split; [exact Hups|]. split; [exact Hdels|].
  apply (reconcile_same_entries new (set_lastProjectVersion _ st) Hold Hnew).
Qed.

(** The same interleaving in the [sync] of markdown/src/index.ts. *)
Lemma src_sync_updates_in_place context st :
  shouldUpdate (MarkdownSrc.getProjectVersion context) (lastProjectVersion st) = true ->
  NoDup (JsMap.keys (syncedVersions st)) ->
  let old := syncedVersions st in
  let new := MarkdownSrc.newVersions context in
  let st' := MarkdownSrc.sync context st in
  fired st'
  = fired st ++ upsert_calls new old
             ++ delete_calls (stale old new) (set_all new old)
  /\ JsMap.same_entries (syncedVersions st') new.
Proof.
  intros Hup Hold old new st'. subst st'.
  rewrite (src_sync_reconciles _ _ Hup). split.
  - rewrite reconcile_unfold. reflexivity.
  - apply (reconcile_same_entries new (set_lastProjectVersion _ st) Hold),
      src_newVersions_NoDup.
Qed.

Lemma sync_updates_in_place_witness :
  NoDup (JsMap.keys (syncedVersions Sample.once_7))
  /\ exists calls,
       fired (Markdown.sync Sample.selector Sample.replaced Sample.once_7)
       = fired Sample.once_7 ++ calls
       /\ JsMap.same_entries
            (syncedVersions
               (Markdown.sync Sample.selector Sample.replaced Sample.once_7))
            (Markdown.newVersions Sample.selector Sample.replaced
               Sample.replaced_host).
Proof.
  assert (Hnd : NoDup (JsMap.keys (syncedVersions Sample.once_7))).
  { vm_compute. repeat constructor; simpl; intuition discriminate. }
  split; [exact Hnd|].
  destruct (sync_updates_in_place Sample.selector Sample.replaced
              Sample.replaced_host Sample.once_7 eq_refl eq_refl Hnd)
    as (calls & Hfired & _ & _ & _ & Hsame).
  exists calls. split; assumption.
Defined.

(** C5 as stated fails: when the project of the example is replaced, the
    listener of the first "created" event finds a stored set that is
    neither the old one nor the new one: its own document is there, the
    stale entries are still there, and the next new document is not yet. *)
Lemma listener_observes_partial_update :
  exists call,
    nth_error (skipn (List.length (fired Sample.once_7)) (fired Sample.once_8)) 0
    = Some call
    /\ event call = DidCreate Sample.notes_document
    /\ JsMap.get (observed call) "file:///notes.md" = Some Sample.notes_document
    /\ JsMap.get (syncedVersions Sample.once_7) "file:///notes.md" = None
    /\ JsMap.get (observed call) "file:///readme.md" = Some Sample.readme_document
    /\ JsMap.get (syncedVersions Sample.once_8) "file:///readme.md" = None
    /\ JsMap.get (observed call) "file:///todo.md" = None
    /\ JsMap.get (syncedVersions Sample.once_8) "file:///todo.md"
       = Some Sample.todo_document.
Proof.
  eexists. split; [vm_compute; reflexivity|].
  repeat split; vm_compute; reflexivity.
Qed.

(** ** [getAllMarkdownDocuments] *)

Lemma same_entries_keyed (m new : JsMap.t TextDocument) :
  NoDup (JsMap.keys m) -> JsMap.same_entries m new -> keyed new -> keyed m.
Proof.
  intros Hnd Hsame Hk. unfold keyed. apply Forall_forall. intros [k d] Hin.
  simpl. apply In_get in Hin; [|exact Hnd]. rewrite Hsame in Hin.
  exact (keyed_get _ _ _ Hk Hin).
Qed.

Lemma keyed_values_uri (m : JsMap.t TextDocument) :
  keyed m -> map uri (JsMap.values m) = JsMap.keys m.
Proof.
  intros Hk. unfold JsMap.values, JsMap.keys. rewrite map_map.
  apply map_ext_in. intros e Hin. unfold keyed in Hk. rewrite Forall_forall in Hk.
  symmetry. exact (Hk _ Hin).
Qed.

(** C4, as the code has it: after a [sync] that reconciles,
    [getAllMarkdownDocuments] returns one document per URI, namely the
    entries of the map built from the documents of the nodes that match
    the selector now: every returned document is the document of a
    matching node, every matching node has a returned document under its
    URI, and when matching nodes with one URI have one document the
    returned documents are exactly those of the matching nodes.  After a
    [sync] that returns at the gate (no typescript project, or a defined
    and unchanged project version) the documents tracked before are
    returned as they are. *)
Theorem getAll_after_sync documentSelector context st :
  NoDup (JsMap.keys (syncedVersions st)) ->
  (forall host,
      Markdown.typescript context = Some host ->
      shouldUpdate (Markdown.getProjectVersion host) (lastProjectVersion st) = true ->
      let docs := snd (Markdown.getAllMarkdownDocuments documentSelector context st) in
      let matching := Markdown.matching_documents documentSelector context host in
      NoDup (map uri docs)
      /\ (forall d, In d docs <-> JsMap.get (of_documents matching) (uri d) = Some d)
      /\ (forall d, In d docs -> In d matching)
      /\ (forall d, In d matching -> exists d', In d' docs /\ uri d' = uri d)
      /\ ((forall d1 d2, In d1 matching -> In d2 matching ->
                         uri d1 = uri d2 -> d1 = d2) ->
          forall d, In d docs <-> In d matching))
  /\ (match Markdown.typescript context with
      | Some host =>
          shouldUpdate (Markdown.getProjectVersion host) (lastProjectVersion st) = false
      | None => True
      end ->
      Markdown.getAllMarkdownDocuments documentSelector context st
      = (st, JsMap.values (syncedVersions st))).
Proof.
  intros Hold. split.
  - intros host Hts Hup docs matching.
    set (new := Markdown.newVersions documentSelector context host).
    set (st' := Markdown.sync documentSelector context st).
    assert (Hnew : NoDup (JsMap.keys new)) by apply newVersions_NoDup.
    assert (Hk : keyed new) by apply newVersions_keyed.
    assert (Hsame : JsMap.same_entries (syncedVersions st') new).
    { subst st'. rewrite (sync_reconciles _ _ _ _ Hts Hup).
      apply (reconcile_same_entries new (set_lastProjectVersion _ st) Hold Hnew). }
    assert (Hnd' : NoDup (JsMap.keys (syncedVersions st'))).
    { subst st'. rewrite (sync_reconciles _ _ _ _ Hts Hup), reconcile_unfold. simpl.
      apply NoDup_keys_delete_all, NoDup_keys_set_all, Hold. }
    assert (Hof : new = of_documents matching) by apply newVersions_of_documents.
    assert (Hdocs : forall d, In d docs <-> JsMap.get new (uri d) = Some d).
    { intros d. subst docs. unfold Markdown.getAllMarkdownDocuments. simpl.
      fold st'. rewrite (In_values_get _ _ Hnd'). split.
      - intros [k Hget]. rewrite Hsame in Hget.
        rewrite <- (keyed_get _ _ _ Hk Hget). exact Hget.
      - intros Hget. exists (uri d). rewrite Hsame. exact Hget. }
    split; [|split; [|split; [|split]]].
    + subst docs. unfold Markdown.getAllMarkdownDocuments. simpl. fold st'.
      rewrite keyed_values_uri; [exact Hnd'|].
      exact (same_entries_keyed _ _ Hnd' Hsame Hk).
    + intros d. rewrite <- Hof. apply Hdocs.
    + intros d Hin. apply Hdocs in Hin. rewrite Hof in Hin.
      apply of_documents_get in Hin. tauto.
    + intros d Hin. apply of_documents_has in Hin. rewrite <- Hof in Hin.
      unfold JsMap.has in Hin.
      destruct (JsMap.get new (uri d)) as [d'|] eqn:Hget; [|discriminate].
      pose proof (keyed_get _ _ _ Hk Hget) as Huri.
      exists d'. split; [|congruence]. apply Hdocs. rewrite <- Huri. exact Hget.
    + intros Hinj d. split.
      * intros Hin. apply Hdocs in Hin. rewrite Hof in Hin.
        apply of_documents_get in Hin. tauto.
      * intros Hin. pose proof (of_documents_has _ _ Hin) as Hhas.
        rewrite <- Hof in Hhas. unfold JsMap.has in Hhas.
        destruct (JsMap.get new (uri d)) as [d'|] eqn:Hget; [|discriminate].
        pose proof (keyed_get _ _ _ Hk Hget) as Huri.
        assert (Hin' : In d' matching).
        { rewrite Hof in Hget. apply of_documents_get in Hget. tauto. }
        assert (d' = d) by (apply Hinj; auto). subst d'.
        apply Hdocs. exact Hget.
  - intros Hskip. unfold Markdown.getAllMarkdownDocuments.
    rewrite (sync_skips _ _ _ Hskip). reflexivity.
Qed.

Lemma getAll_after_sync_witness :
  NoDup (JsMap.keys (syncedVersions Sample.once_7))
  /\ forall d,
       In d (snd (Markdown.getAllMarkdownDocuments Sample.selector
                    Sample.replaced Sample.once_7))
       -> In d (Markdown.matching_documents Sample.selector
                  Sample.replaced Sample.replaced_host).
Proof.
  assert (Hnd : NoDup (JsMap.keys (syncedVersions Sample.once_7))).
  { vm_compute. repeat constructor; simpl; intuition discriminate. }
  split; [exact Hnd|].
  destruct (getAll_after_sync Sample.selector Sample.replaced
              Sample.once_7 Hnd) as [Hrec _].
  destruct (Hrec Sample.replaced_host eq_refl eq_refl) as (_ & _ & Hsub & _).
  exact Hsub.
Defined.

(** C4 as stated fails at the gate: the files of the example change while
    the host keeps project version 7, the second [sync] returns at once,
    and the documents returned are those of the files that are gone, not
    those of the markdown files that are there now. *)
Lemma getAll_stale_under_same_version :
  Markdown.getProjectVersion Sample.versioned_host
  = Markdown.getProjectVersion Sample.versioned_host'
  /\ snd (Markdown.getAllMarkdownDocuments Sample.selector
            Sample.versioned' Sample.once_7)
     = [ Sample.readme_document;
         Sample.provider "file:///page.vue#docs_0" "markdown" {| getText := "intro" |};
         Sample.provider "file:///page.vue#docs_1" "markdown" {| getText := "outro" |} ]
  /\ Markdown.matching_documents Sample.selector
       Sample.versioned' Sample.versioned_host'
     = [Sample.notes_document; Sample.todo_document]
  /\ ~ (forall d,
          In d (snd (Markdown.getAllMarkdownDocuments Sample.selector
                       Sample.versioned' Sample.once_7))
          <-> In d (Markdown.matching_documents Sample.selector
                      Sample.versioned' Sample.versioned_host')).
Proof.
  split; [reflexivity|]. split; [vm_compute; reflexivity|].
  split; [vm_compute; reflexivity|].
  intros H. specialize (H Sample.notes_document). destruct H as [_ H].
  assert (Hin : In Sample.notes_document
                  (Markdown.matching_documents Sample.selector
                     Sample.versioned' Sample.versioned_host'))
    by (vm_compute; auto).
  apply H in Hin. vm_compute in Hin. intuition discriminate.
Qed.

(** ** The watched-file bridge *)

Lemma events_fire e st : events (fire e st) = events st ++ [e].
Proof. unfold events, fire. simpl. rewrite map_app. reflexivity. Qed.

Lemma getTextDocument_source_only context u :
  Markdown.getTextDocument context u false
  = match Markdown.files_get context u with
    | Some sourceFile =>
        Some (Markdown.documents_get context u
                (Markdown.sf_languageId sourceFile) (Markdown.sf_snapshot sourceFile))
    | None => None
    end.
Proof. reflexivity. Qed.

Lemma src_getTextDocument_source_only context u :
  MarkdownSrc.getTextDocument context u false
  = match MarkdownSrc.getSourceFile context u with
    | Some sourceFile =>
        Some (MarkdownSrc.documents_get context u
                (MarkdownSrc.sf_languageId sourceFile)
                (MarkdownSrc.sf_snapshot sourceFile))
    | None => None
    end.
Proof.
  unfold MarkdownSrc.getTextDocument.
  destruct (MarkdownSrc.getSourceFile context u); reflexivity.
Qed.

(** C10: the watched-file bridge is asymmetric.  A change of type Created
    (or Changed) fires "created" (or "changed") with the document of the
    URI when the URI is that of a known source file, and fires nothing
    otherwise; a change of type Deleted always fires "deleted" with the
    URI, whatever the files known and whatever the tracker holds, so also
    for a URI that was never resolved, tracked or reported as created.  The
    bridge leaves the tracked set and the recorded version alone.  Both
    layouts of the plugin behave so. *)
Theorem fileWatcher_bridge_asymmetric :
  (forall context st u,
      let resolved :=
        match Markdown.files_get context u with
        | Some sourceFile =>
            Some (Markdown.documents_get context u
                    (Markdown.sf_languageId sourceFile)
                    (Markdown.sf_snapshot sourceFile))
        | None => None
        end in
      let change t := {| fe_uri := u; fe_type := t |} in
      let after t := Markdown.fileWatcher context [change t] st in
      events (after FileChangeType_Created)
      = events st ++ match resolved with Some d => [DidCreate d] | None => [] end
      /\ events (after FileChangeType_Changed)
         = events st ++ match resolved with Some d => [DidChange d] | None => [] end
      /\ events (after FileChangeType_Deleted) = events st ++ [DidDelete u]
      /\ forall t, syncedVersions (after t) = syncedVersions st
                   /\ lastProjectVersion (after t) = lastProjectVersion st)
  /\ (forall context st u,
      let resolved :=
        match MarkdownSrc.getSourceFile context u with
        | Some sourceFile =>
            Some (MarkdownSrc.documents_get context u
                    (MarkdownSrc.sf_languageId sourceFile)
                    (MarkdownSrc.sf_snapshot sourceFile))
        | None => None
        end in
      let change t := {| fe_uri := u; fe_type := t |} in
      let after t := MarkdownSrc.fileWatcher context [change t] st in
      events (after FileChangeType_Created)
      = events st ++ match resolved with Some d => [DidCreate d] | None => [] end
      /\ events (after FileChangeType_Changed)
         = events st ++ match resolved with Some d => [DidChange d] | None => [] end
      /\ events (after FileChangeType_Deleted) = events st ++ [DidDelete u]
      /\ forall t, syncedVersions (after t) = syncedVersions st
                   /\ lastProjectVersion (after t) = lastProjectVersion st).
Proof.
  split.
  - intros context st u resolved change after. subst after change resolved.
    unfold Markdown.fileWatcher, Markdown.fileWatcher_change,
      Markdown.getTextDocument. simpl.
    destruct (Markdown.files_get context u) as [sourceFile|];
      (repeat split;
       [ first [apply events_fire | symmetry; apply app_nil_r]
       | first [apply events_fire | symmetry; apply app_nil_r]
       | apply events_fire
       | repeat (destruct (Z.eqb t _); [reflexivity|]); reflexivity
       | repeat (destruct (Z.eqb t _); [reflexivity|]); reflexivity ]).
  - intros context st u resolved change after. subst after change resolved.
    unfold MarkdownSrc.fileWatcher, MarkdownSrc.fileWatcher_change,
      MarkdownSrc.getTextDocument. simpl.
    destruct (MarkdownSrc.getSourceFile context u) as [sourceFile|];
      (repeat split;
       [ first [apply events_fire | symmetry; apply app_nil_r]
       | first [apply events_fire | symmetry; apply app_nil_r]
       | apply events_fire
       | repeat (destruct (Z.eqb t _); [reflexivity|]); reflexivity
       | repeat (destruct (Z.eqb t _); [reflexivity|]); reflexivity ]).
Qed.

(** A deleted file that no call ever resolved or reported still gets its
    "deleted" event. *)
Example fileWatcher_deleted_unknown :
  Markdown.files_get Sample.versioned "file:///gone.md" = None
  /\ JsMap.has (syncedVersions Sample.once_7) "file:///gone.md" = false
  /\ restrict "file:///gone.md" (events Sample.once_7) = []
  /\ events (Markdown.fileWatcher Sample.versioned [Sample.gone] Sample.once_7)
     = events Sample.once_7 ++ [DidDelete "file:///gone.md"].
Proof. repeat split; vm_compute; reflexivity. Qed.

(** ** Construction *)

(** C9: when [context.env.fs] is absent, [create] throws "context.env.fs
    must be defined"; when it is there and [onDidChangeWatchedFiles] is
    absent, [create] throws "context.env.fs.onDidChangeWatchedFiles must be
    defined"; in both cases nothing has been built or subscribed when the
    error is thrown.  With both capabilities there, [create] does not
    throw and returns a fresh tracker (no recorded version, nothing
    tracked, nothing fired). *)
Theorem create_requires_capabilities (FileSystem WatchSource : Type) :
  (forall watch : option WatchSource,
      Create.create
        {| Create.fs := @None FileSystem; Create.onDidChangeWatchedFiles := watch |} []
      = (Create.Thrown "context.env.fs must be defined", []))
  /\ (forall fs : FileSystem,
        Create.create
          {| Create.fs := Some fs;
             Create.onDidChangeWatchedFiles := @None WatchSource |} []
        = (Create.Thrown "context.env.fs.onDidChangeWatchedFiles must be defined", []))
  /\ (forall (fs : FileSystem) (watch : WatchSource),
        exists built,
          Create.create
            {| Create.fs := Some fs; Create.onDidChangeWatchedFiles := Some watch |} []
          = (Create.Returned initial, built)
          /\ In Create.WatcherSubscription built
          /\ In Create.SyncedVersionsMap built).
Proof.
  split; [|split].
  - intros watch. reflexivity.
  - intros fs. reflexivity.
  - intros fs watch. eexists. split; [reflexivity|]. simpl. auto 10.
Qed.

Example create_examples :
  Create.create (Sample.environment false true) []
  = (Create.Thrown "context.env.fs must be defined", [])
  /\ Create.create (Sample.environment true false) []
     = (Create.Thrown "context.env.fs.onDidChangeWatchedFiles must be defined", [])
  /\ fst (Create.create (Sample.environment true true) []) = Create.Returned initial.
Proof. repeat split. Qed.

(** ** Caches of parsed documents *)

Module CachesFacts.
Import stdpp.base stdpp.gmap.
Import Caches.

Section Json.
Context {JSONDocument : Type}.
Variable documentSelector : DocumentSelector.
Variable parseJSONDocument : TextDocument -> JSONDocument.

Abbreviation get := (getJsonDocument documentSelector parseJSONDocument).
Abbreviation selected d := (matchDocument documentSelector (languageId d)).

Lemma json_unselected cache doc :
  selected (content doc) = false -> get cache doc = (None, cache).
Proof. intros H. unfold getJsonDocument. rewrite H. reflexivity. Qed.

Lemma json_hit cache doc cacheDoc :
  selected (content doc) = true ->
  cache !! identity doc = Some (version (content doc), cacheDoc) ->
  get cache doc = (Some cacheDoc, cache).
Proof.
  intros Hsel Hc. unfold getJsonDocument. rewrite Hsel, Hc. simpl.
  rewrite Z.eqb_refl. reflexivity.
Qed.

Lemma json_miss cache doc :
  selected (content doc) = true ->
  (forall cacheDoc,
      cache !! identity doc <> Some (version (content doc), cacheDoc)) ->
  get cache doc
  = (Some (parseJSONDocument (content doc)),
     <[identity doc := (version (content doc), parseJSONDocument (content doc))]>
       cache).
Proof.
  intros Hsel Hc. unfold getJsonDocument. rewrite Hsel. simpl.
  destruct (cache !! identity doc) as [[cacheVersion cacheDoc]|] eqn:Hlook;
    [|reflexivity].
  destruct (Z.eqb_spec cacheVersion (version (content doc))) as [->|Hne];
    [|reflexivity].
  exfalso. exact (Hc cacheDoc eq_refl).
Qed.

Lemma json_idempotent cache doc :
  get (snd (get cache doc)) doc = get cache doc.
Proof.
  destruct (selected (content doc)) eqn:Hsel.
  - destruct (cache !! identity doc) as [[cacheVersion cacheDoc]|] eqn:Hlook.
    + destruct (Z.eqb_spec cacheVersion (version (content doc))) as [Heq|Hne].
      * subst cacheVersion. rewrite (json_hit _ _ _ Hsel Hlook). simpl.
        apply (json_hit _ _ _ Hsel Hlook).
      * rewrite (json_miss cache doc Hsel) by congruence. simpl.
        rewrite (json_hit _ _ (parseJSONDocument (content doc)) Hsel)
          by apply lookup_insert_eq.
        reflexivity.
    + rewrite (json_miss cache doc Hsel) by congruence. simpl.
      rewrite (json_hit _ _ (parseJSONDocument (content doc)) Hsel)
        by apply lookup_insert_eq.
      reflexivity.
  - rewrite !(json_unselected _ _ Hsel). reflexivity.
Qed.

(** Every answer of the store leaves the version it answered for. *)
Lemma json_stores_version cache doc :
  selected (content doc) = true ->
  exists parsed,
    snd (get cache doc) !! identity doc = Some (version (content doc), parsed).
Proof.
  intros Hsel.
  destruct (cache !! identity doc) as [[cacheVersion cacheDoc]|] eqn:Hlook.
  - destruct (Z.eqb_spec cacheVersion (version (content doc))) as [Heq|Hne].
    + subst cacheVersion. rewrite (json_hit _ _ _ Hsel Hlook). eauto.
    + rewrite (json_miss cache doc Hsel) by congruence. simpl.
      rewrite lookup_insert_eq. eauto.
  - rewrite (json_miss cache doc Hsel) by congruence. simpl.
    rewrite lookup_insert_eq. eauto.
Qed.

Lemma json_refreshes :
  refreshes_on_version_change get parseJSONDocument
    (fun d => selected d).
Proof.
  intros cache before after Hid Hsel Hsel' Hver.
  destruct (json_stores_version cache before Hsel) as [parsed Hstored].
  rewrite (json_miss _ after Hsel'); [reflexivity|].
  intros cacheDoc. rewrite <- Hid, Hstored. congruence.
Qed.
End Json.

Section Vetur.
Context {HTMLDocument : Type}.
Variable parseHTMLDocument : TextDocument -> HTMLDocument.

Abbreviation get := (getHtmlDocument parseHTMLDocument).

Lemma html_unselected cache doc :
  languageId (content doc) <> "html" -> get cache doc = (None, cache).
Proof.
  intros H. unfold getHtmlDocument.
  destruct (String.eqb_spec (languageId (content doc)) "html");
    [contradiction | reflexivity].
Qed.

Lemma html_hit cache doc htmlDocument :
  languageId (content doc) = "html" ->
  cache !! identity doc = Some htmlDocument ->
  get cache doc = (Some htmlDocument, cache).
Proof.
  intros Hsel Hc. unfold getHtmlDocument. rewrite Hsel, Hc. reflexivity.
Qed.

Lemma html_miss cache doc :
  languageId (content doc) = "html" ->
  cache !! identity doc = None ->
  get cache doc
  = (Some (parseHTMLDocument (content doc)),
     <[identity doc := parseHTMLDocument (content doc)]> cache).
Proof.
  intros Hsel Hc. unfold getHtmlDocument. rewrite Hsel, Hc. reflexivity.
Qed.

Lemma html_idempotent cache doc :
  get (snd (get cache doc)) doc = get cache doc.
Proof.
  destruct (String.eqb_spec (languageId (content doc)) "html") as [Hsel|Hsel].
  - destruct (cache !! identity doc) as [htmlDocument|] eqn:Hlook.
    + rewrite (html_hit _ _ _ Hsel Hlook). simpl.
      apply (html_hit _ _ _ Hsel Hlook).
    + rewrite (html_miss _ _ Hsel Hlook). simpl.
      apply html_hit; [exact Hsel | apply lookup_insert_eq].
  - rewrite !(html_unselected _ _ Hsel). reflexivity.
Qed.
End Vetur.

(** C7, as the code has it.  [getJsonDocument] answers with the cached
    parse when the version stored for the document object is the present
    version of the document, and otherwise parses the present content
    and replaces the entry; so it refreshes when the version changes.
    [getHtmlDocument] stores no version: it parses on the first request
    for a document object and answers with that parse on every later
    request for the object, whatever the version.  Both answer nothing,
    and leave the cache alone, for a document whose language is not
    selected, and for both a second request with the same document, at
    the same version, gives the same answer and leaves the cache as the
    first request left it. *)
Theorem parsed_document_caches {JSONDocument HTMLDocument : Type}
    (documentSelector : DocumentSelector)
    (parseJSONDocument : TextDocument -> JSONDocument)
    (parseHTMLDocument : TextDocument -> HTMLDocument) :
  let getJson := getJsonDocument documentSelector parseJSONDocument in
  let getHtml := getHtmlDocument parseHTMLDocument in
  let selected d := matchDocument documentSelector (languageId d) in
  (forall cache doc, selected (content doc) = false ->
      getJson cache doc = (None, cache))
  /\ (forall cache doc cacheDoc, selected (content doc) = true ->
        cache !! identity doc = Some (version (content doc), cacheDoc) ->
        getJson cache doc = (Some cacheDoc, cache))
  /\ (forall cache doc, selected (content doc) = true ->
        (forall cacheDoc,
            cache !! identity doc <> Some (version (content doc), cacheDoc)) ->
        getJson cache doc
        = (Some (parseJSONDocument (content doc)),
           <[identity doc := (version (content doc),
                              parseJSONDocument (content doc))]> cache))
  /\ (forall cache doc, getJson (snd (getJson cache doc)) doc = getJson cache doc)
  /\ refreshes_on_version_change getJson parseJSONDocument selected
  /\ (forall cache doc, languageId (content doc) <> "html" ->
        getHtml cache doc = (None, cache))
  /\ (forall cache doc htmlDocument, languageId (content doc) = "html" ->
        cache !! identity doc = Some htmlDocument ->
        getHtml cache doc = (Some htmlDocument, cache))
  /\ (forall cache doc, languageId (content doc) = "html" ->
        cache !! identity doc = None ->
        getHtml cache doc
        = (Some (parseHTMLDocument (content doc)),
           <[identity doc := parseHTMLDocument (content doc)]> cache))
  /\ (forall cache doc, getHtml (snd (getHtml cache doc)) doc = getHtml cache doc).
Proof.
  intros getJson getHtml selected. subst getJson getHtml selected.
  split; [apply json_unselected|].
  split; [apply json_hit|].
  split; [apply json_miss|].
  split; [apply json_idempotent|].
  split; [apply json_refreshes|].
  split; [apply html_unselected|].
  split; [apply html_hit|].
  split; [apply html_miss|].
  apply html_idempotent.
Qed.

(** The HTML document of the example is served at version 1 and then
    asked for again at version 2: the answer is the parse made at
    version 1, and the cache is left as it was. *)
Lemma getHtmlDocument_serves_stale_parse :
  let first := getHtmlDocument Sample.parse ∅ Sample.html_v1 in
  let second := getHtmlDocument Sample.parse (snd first) Sample.html_v2 in
  version (content Sample.html_v1) <> version (content Sample.html_v2)
  /\ fst second = Some "<p>"
  /\ Sample.parse (content Sample.html_v2) = "<div>"
  /\ snd second = snd first
  /\ ~ refreshes_on_version_change
         (getHtmlDocument Sample.parse) Sample.parse Sample.is_html.
Proof.
  intros first second.
  assert (Hfirst : first = (Some "<p>", <[1%positive := "<p>"]> ∅)).
  { subst first. apply html_miss; [reflexivity | apply lookup_empty]. }
  assert (Hsecond : second = (Some "<p>", <[1%positive := "<p>"]> ∅)).
  { subst second. rewrite Hfirst. simpl.
    apply html_hit; [reflexivity | apply lookup_insert_eq]. }
  split; [simpl; discriminate|].
  split; [rewrite Hsecond; reflexivity|].
  split; [reflexivity|].
  split; [rewrite Hsecond, Hfirst; reflexivity|].
  intros Hrefresh.
  specialize (Hrefresh ∅ Sample.html_v1 Sample.html_v2
                eq_refl eq_refl eq_refl ltac:(simpl; discriminate)).
  fold first in Hrefresh. fold second in Hrefresh.
  rewrite Hsecond in Hrefresh. simpl in Hrefresh. discriminate.
Qed.
End CachesFacts.

(** ** Position mapping *)

Lemma contains_spec start stop p :
  PositionMapper.contains start stop p = true <-> (start <= p < stop)%Z.
Proof. unfold PositionMapper.contains. lia. Qed.

Lemma toGeneratedPosition_gap spans p :
  (forall span, In span spans ->
     ~ (PositionMapper.source_start span <= p < PositionMapper.source_end span)%Z) ->
  PositionMapper.toGeneratedPosition spans p = None.
Proof.
  induction spans as [|s spans IH]; intros Hgap; simpl; [reflexivity|].
  destruct (PositionMapper.contains _ _ p) eqn:Hc.
  - apply contains_spec in Hc. exfalso. exact (Hgap s (or_introl eq_refl) Hc).
  - apply IH. intros span Hin. apply Hgap. right. exact Hin.
Qed.

Lemma position_round_trip_in spans : forall span p,
  PositionMapper.monotonic spans = true ->
  In span spans ->
  (PositionMapper.source_start span <= p < PositionMapper.source_end span)%Z ->
  let g := (PositionMapper.generated_start span
            + (p - PositionMapper.source_start span))%Z in
  PositionMapper.toGeneratedPosition spans p = Some g
  /\ PositionMapper.toSourcePosition spans g = Some p.
Proof.
  induction spans as [|s spans IH]; intros span p Hmono Hin Hp g; [destruct Hin|].
  simpl in Hmono. apply andb_prop in Hmono as [Hmono Hrest].
  apply andb_prop in Hmono as [Hverb Hlater].
  unfold PositionMapper.verbatim in Hverb. apply andb_prop in Hverb as [Hle Hlen].
  rewrite forallb_forall in Hlater.
  assert (Hsep : forall later, In later spans ->
            (PositionMapper.source_end s <= PositionMapper.source_start later
             /\ PositionMapper.generated_end s
                <= PositionMapper.generated_start later)%Z).
  { intros later Hl. specialize (Hlater later Hl). lia. }
  simpl. destruct Hin as [->|Hin].
  - assert (Hc : PositionMapper.contains (PositionMapper.source_start span)
                   (PositionMapper.source_end span) p = true)
      by (apply contains_spec; exact Hp).
    rewrite Hc. split; [reflexivity|].
    assert (Hg : PositionMapper.contains (PositionMapper.generated_start span)
                   (PositionMapper.generated_end span) g = true)
      by (apply contains_spec; subst g; lia).
    rewrite Hg. f_equal. subst g. lia.
  - destruct (Hsep span Hin) as [Hs Hgen].
    assert (Hc : PositionMapper.contains (PositionMapper.source_start s)
                   (PositionMapper.source_end s) p = false).
    { apply not_true_iff_false. rewrite contains_spec. lia. }
    rewrite Hc.
    assert (Hg : PositionMapper.contains (PositionMapper.generated_start s)
                   (PositionMapper.generated_end s) g = false).
    { apply not_true_iff_false. rewrite contains_spec. subst g. lia. }
    rewrite Hg. apply IH; assumption.
Qed.

(** C8: with spans that are verbatim, sorted and non-overlapping in both
    coordinate spaces, a position inside the source range of a span maps
    to the generated position at the same offset in that span, and that
    generated position maps back to it; a position in the source range of
    no span has no generated position. *)
Theorem position_round_trip spans p :
  (PositionMapper.monotonic spans = true ->
   forall span,
     In span spans ->
     (PositionMapper.source_start span <= p < PositionMapper.source_end span)%Z ->
     exists g,
       PositionMapper.toGeneratedPosition spans p = Some g
       /\ g = (PositionMapper.generated_start span
               + (p - PositionMapper.source_start span))%Z
       /\ PositionMapper.toSourcePosition spans g = Some p)
  /\ ((forall span, In span spans ->
         ~ (PositionMapper.source_start span <= p
            < PositionMapper.source_end span)%Z) ->
      PositionMapper.toGeneratedPosition spans p = None).
Proof.
  split.
  - intros Hmono span Hin Hp.
    destruct (position_round_trip_in spans span p Hmono Hin Hp) as [Hto Hback].
    eexists. split; [exact Hto|]. split; [reflexivity | exact Hback].
  - apply toGeneratedPosition_gap.
Qed.

Lemma position_round_trip_witness :
  PositionMapper.monotonic [Sample.span_5_15] = true
  /\ (exists g,
        PositionMapper.toGeneratedPosition [Sample.span_5_15] 8 = Some g
        /\ g = 3%Z
        /\ PositionMapper.toSourcePosition [Sample.span_5_15] g = Some 8%Z)
  /\ PositionMapper.toGeneratedPosition [Sample.span_5_15] 20 = None.
Proof.
  split; [reflexivity|]. split.
  - destruct (position_round_trip [Sample.span_5_15] 8) as [Hin _].
    destruct (Hin eq_refl Sample.span_5_15 (or_introl eq_refl)) as (g & H1 & H2 & H3).
    + simpl. lia.
    + exists g. repeat split; assumption.
  - destruct (position_round_trip [Sample.span_5_15] 20) as [_ Hgap].
    apply Hgap. intros span [<-|[]]. simpl. lia.
Defined.

(** The hover provider gives nothing for a position that has no generated
    position. *)
Lemma hover_gap {HtmlHover Hover : Type}
    (doHover : Z -> option HtmlHover) (transformHover : HtmlHover -> Hover) spans pos :
  PositionMapper.toGeneratedPosition spans pos = None ->
  PositionMapper.hover doHover transformHover spans pos = None.
Proof. intros H. unfold PositionMapper.hover. rewrite H. reflexivity. Qed.

(** * Further properties of the plugins *)

(** ** Selectors *)

Lemma selects_spec entry lang :
  selects entry lang = true <->
  entry = SelString lang
  \/ exists f, entry = SelFilter f /\ language f = Some lang.
Proof.
  destruct entry as [s|f]; simpl.
  - rewrite String.eqb_eq. split.
    + intros ->. auto.
    + intros [[= ->]|[f [Hf _]]]; [reflexivity | discriminate].
  - split.
    + destruct (language f) as [l|] eqn:Hl; [|discriminate].
      rewrite String.eqb_eq. intros ->. right. eauto.
    + intros [Hs|[f' [[= <-] Hl]]]; [discriminate|].
      rewrite Hl. apply String.eqb_refl.
Qed.

Lemma matchDocument_exists selector lang :
  matchDocument selector lang = true <->
  exists entry, In entry selector /\ selects entry lang = true.
Proof.
  induction selector as [|entry selector IH]; simpl.
  - split; [discriminate | intros [e [[] _]]].
  - destruct (selects entry lang) eqn:Hsel.
    + split; [eauto | reflexivity].
    + rewrite IH. split.
      * intros [e [Hin He]]. eauto.
      * intros [e [[<-|Hin] He]]; [congruence | eauto].
Qed.

(** X1: a selector matches a language exactly when one of its entries is
    that language as a plain string, or is a filter whose [language] field
    is that language; the [scheme] and [pattern] of a filter play no part,
    a filter without [language] matches nothing, and a concatenation of
    selectors matches when either part does, so the order of the entries
    does not matter. *)
Theorem matchDocument_any selector lang :
  (matchDocument selector lang = true <->
     In (SelString lang) selector
     \/ exists f, In (SelFilter f) selector /\ language f = Some lang)
  /\ (forall selector',
        matchDocument (selector ++ selector') lang
        = matchDocument selector lang || matchDocument selector' lang)
  /\ (forall selector',
        matchDocument (selector ++ selector') lang
        = matchDocument (selector' ++ selector) lang).
Proof.
  assert (Happ : forall s1 s2,
             matchDocument (s1 ++ s2) lang
             = matchDocument s1 lang || matchDocument s2 lang).
  { induction s1 as [|e s1 IH]; intros s2; simpl; [reflexivity|].
    destruct (selects e lang); [reflexivity | apply IH]. }
  split; [|split].
  - rewrite matchDocument_exists. split.
    + intros [entry [Hin Hsel]]. apply selects_spec in Hsel.
      destruct Hsel as [->|[f [-> Hl]]]; [left; exact Hin | right; eauto].
    + intros [Hin|[f [Hin Hl]]].
      * exists (SelString lang). split; [exact Hin | apply selects_spec; auto].
      * exists (SelFilter f). split; [exact Hin | apply selects_spec; eauto].
  - apply Happ.
  - intros selector'. rewrite !Happ. apply orb_comm.
Qed.

(** ** Resolving a URI to a document *)

(** X2: [getTextDocument] asked with virtual files resolves every URI it
    resolves without them; a virtual code under the URI takes precedence
    over a source file under it, and without one the two lookups agree.
    [hasMarkdownDocument] answers true exactly when [openMarkdownDocument]
    gives a document whose language the selector matches. *)
Theorem getTextDocument_with_virtual documentSelector context u :
  (forall d, Markdown.getTextDocument context u false = Some d ->
             exists d', Markdown.getTextDocument context u true = Some d')
  /\ (forall virtualCode,
        fst (Markdown.getVirtualCodeByUri context u) = Some virtualCode ->
        Markdown.getTextDocument context u true
        = Some (Markdown.documents_get context u
                  (Markdown.vc_languageId virtualCode)
                  (Markdown.vc_snapshot virtualCode)))
  /\ (fst (Markdown.getVirtualCodeByUri context u) = None ->
      Markdown.getTextDocument context u true
      = Markdown.getTextDocument context u false)
  /\ (MarkdownProviders.hasMarkdownDocument documentSelector context u = true <->
      exists d,
        MarkdownProviders.openMarkdownDocument context u = Some d
        /\ matchDocument documentSelector (languageId d) = true).
Proof.
  unfold MarkdownProviders.hasMarkdownDocument,
    MarkdownProviders.openMarkdownDocument, Markdown.getTextDocument.
  repeat split.
  - intros d Hd.
    destruct (fst (Markdown.getVirtualCodeByUri context u)); eauto.
  - intros virtualCode ->. reflexivity.
  - intros ->. reflexivity.
  - simpl.
    destruct (fst (Markdown.getVirtualCodeByUri context u)) as [virtualCode|];
      [eauto|].
    destruct (Markdown.files_get context u); [eauto | discriminate].
  - intros [d [Hd Hm]]. simpl in Hd |- *. rewrite Hd. exact Hm.
Qed.

(** ** The watched-file listener on a batch of changes *)

Lemma fileWatcher_change_events context st change :
  events (Markdown.fileWatcher_change context st change)
  = events st ++ events (Markdown.fileWatcher_change context initial change).
Proof.
  unfold Markdown.fileWatcher_change.
  repeat (destruct (Z.eqb _ _);
          [ try destruct (Markdown.getTextDocument _ _ _);
            rewrite ?events_fire; rewrite ?app_nil_r; reflexivity |]).
  rewrite app_nil_r. reflexivity.
Qed.

(** X3: the watched-file listener treats each change of a batch on its
    own and in order: the events it fires are those of the first change,
    then those of the second, and so on, whatever the tracker holds; a
    change fires at most one event, and a change whose type is none of
    Created, Changed and Deleted fires none. *)
Theorem fileWatcher_forwards_in_order context changes st :
  let forwarded change :=
    events (Markdown.fileWatcher_change context initial change) in
  events (Markdown.fileWatcher context changes st)
  = events st ++ flat_map forwarded changes
  /\ (forall change, List.length (forwarded change) <= 1)
  /\ (forall change,
        fe_type change <> FileChangeType_Created ->
        fe_type change <> FileChangeType_Changed ->
        fe_type change <> FileChangeType_Deleted ->
        forwarded change = [])
  /\ List.length (events (Markdown.fileWatcher context changes st))
     <= List.length (events st) + List.length changes.
Proof.
  intros forwarded.
  assert (Hall : forall st,
             events (Markdown.fileWatcher context changes st)
             = events st ++ flat_map forwarded changes).
  { unfold Markdown.fileWatcher.
    induction changes as [|change changes IH]; intros st'; simpl.
    - symmetry. apply app_nil_r.
    - rewrite IH, fileWatcher_change_events, <- app_assoc. reflexivity. }
  assert (Hone : forall change, List.length (forwarded change) <= 1).
  { intros change. subst forwarded. unfold Markdown.fileWatcher_change.
    repeat (destruct (Z.eqb _ _);
            [ try destruct (Markdown.getTextDocument _ _ _);
              rewrite ?events_fire; simpl; lia |]).
    simpl. lia. }
  split; [apply Hall|]. split; [exact Hone|]. split.
  - intros change H1 H2 H3. subst forwarded. unfold Markdown.fileWatcher_change.
    apply Z.eqb_neq in H1, H2, H3. rewrite H1, H2, H3. reflexivity.
  - rewrite Hall, length_app.
    assert (List.length (flat_map forwarded changes) <= List.length changes).
    { clear Hall. induction changes as [|change changes IH]; simpl; [lia|].
      rewrite length_app. specialize (Hone change). lia. }
    lia.
Qed.

(** ** The tracked set along a run *)

Lemma keyed_delete (m : JsMap.t TextDocument) k : keyed m -> keyed (JsMap.delete m k).
Proof.
  unfold keyed. induction m as [|[k0 d0] m IH]; simpl; intros Hk; [constructor|].
  inversion Hk as [|? ? Hhd Htl]; subst.
  destruct (String.eqb k0 k); [exact Htl | constructor; auto].
Qed.

Lemma keyed_delete_all uris : forall m, keyed m -> keyed (delete_all uris m).
Proof.
  unfold delete_all. induction uris as [|u uris IH]; intros m Hk; simpl.
  - exact Hk.
  - apply IH, keyed_delete, Hk.
Qed.

Lemma keyed_set_all entries : forall m,
  keyed entries -> keyed m -> keyed (set_all entries m).
Proof.
  unfold set_all. induction entries as [|[k d] entries IH]; intros m He Hm; simpl.
  - exact Hm.
  - inversion He as [|? ? Hhd Htl]; subst. simpl in Hhd. subst k.
    apply IH; [exact Htl | apply keyed_set, Hm].
Qed.

Lemma sync_keeps_well_formed documentSelector context st :
  NoDup (JsMap.keys (syncedVersions st)) -> keyed (syncedVersions st) ->
  NoDup (JsMap.keys (syncedVersions (Markdown.sync documentSelector context st)))
  /\ keyed (syncedVersions (Markdown.sync documentSelector context st)).
Proof.
  intros Hnd Hk.
  destruct (Markdown.typescript context) as [host|] eqn:Hts.
  - destruct (shouldUpdate (Markdown.getProjectVersion host) (lastProjectVersion st))
      eqn:Hup.
    + rewrite (sync_reconciles _ _ _ _ Hts Hup), reconcile_unfold. simpl. split.
      * apply NoDup_keys_delete_all, NoDup_keys_set_all, Hnd.
      * apply keyed_delete_all, keyed_set_all; [apply newVersions_keyed | exact Hk].
    + rewrite sync_skips by (rewrite Hts; exact Hup). auto.
  - rewrite sync_skips by (rewrite Hts; exact I). auto.
Qed.

(** X4: whatever the host does to a plugin instance, syncs and
    watched-file reports in any order and over any contexts, the tracked
    set stays a proper map of documents by URI: its keys are pairwise
    distinct, every document is stored under its own URI, and so the
    documents that [getAllMarkdownDocuments] lists have pairwise distinct
    URIs. *)
Theorem lifetime_tracked_set_well_formed documentSelector triggers :
  let tracked := syncedVersions (Markdown.lifetime documentSelector triggers) in
  NoDup (JsMap.keys tracked)
  /\ (forall u d, JsMap.get tracked u = Some d -> uri d = u)
  /\ NoDup (map uri (JsMap.values tracked)).
Proof.
  intros tracked.
  assert (H : NoDup (JsMap.keys tracked) /\ keyed tracked).
  { subst tracked. unfold Markdown.lifetime.
    assert (Hgen : forall st,
               NoDup (JsMap.keys (syncedVersions st)) -> keyed (syncedVersions st) ->
               NoDup (JsMap.keys
                        (syncedVersions
                           (fold_left (Markdown.step documentSelector) triggers st)))
               /\ keyed (syncedVersions
                           (fold_left (Markdown.step documentSelector) triggers st))).
    { induction triggers as [|t triggers IH]; intros st Hnd Hk; simpl; [auto|].
      apply IH; destruct t as [context|context changes]; simpl.
      - apply sync_keeps_well_formed; assumption.
      - rewrite (proj1 (fileWatcher_tracked context changes st)). exact Hnd.
      - apply sync_keeps_well_formed; assumption.
      - rewrite (proj1 (fileWatcher_tracked context changes st)). exact Hk. }
    apply Hgen; constructor. }
  destruct H as [Hnd Hk]. split; [exact Hnd|]. split.
  - intros u d Hget. symmetry. exact (keyed_get _ _ _ Hk Hget).
  - rewrite keyed_values_uri; assumption.
Qed.

(** ** Particular syncs *)

Lemma set_fresh (m : JsMap.t TextDocument) k d :
  JsMap.has m k = false -> JsMap.set m k d = m ++ [(k, d)].
Proof.
  unfold JsMap.has. induction m as [|[k0 d0] m IH]; simpl; [reflexivity|].
  destruct (String.eqb k0 k); [discriminate|].
  intros H. rewrite IH by exact H. reflexivity.
Qed.

Lemma set_all_fresh entries : forall m,
  NoDup (JsMap.keys (m ++ entries)) -> set_all entries m = m ++ entries.
Proof.
  unfold set_all. induction entries as [|[k d] entries IH]; intros m Hnd; simpl.
  - symmetry. apply app_nil_r.
  - assert (Hk : JsMap.has m k = false).
    { apply has_false_not_In. unfold JsMap.keys in *.
      rewrite map_app in Hnd. simpl in Hnd.
      apply NoDup_remove_2 in Hnd. intros Hin. apply Hnd.
      apply in_or_app. auto. }
    rewrite set_fresh by exact Hk.
    rewrite IH; rewrite <- app_assoc; [reflexivity | exact Hnd].
Qed.

Lemma stale_empty_old new : stale [] new = [].
Proof. reflexivity. Qed.

(** X5: the first sync of a fresh plugin instance over a typescript
    project fires exactly one "created" per document of the new set, in
    walk order, and nothing else; afterwards the tracked set is the new
    set, in that order, and the host's project version is recorded.  So
    the first [getAllMarkdownDocuments] lists the documents of the new set
    in walk order. *)
Theorem first_sync_creates documentSelector context host :
  Markdown.typescript context = Some host ->
  let new := Markdown.newVersions documentSelector context host in
  let st := Markdown.sync documentSelector context initial in
  events st = map DidCreate (JsMap.values new)
  /\ syncedVersions st = new
  /\ lastProjectVersion st = Markdown.getProjectVersion host
  /\ snd (Markdown.getAllMarkdownDocuments documentSelector context initial)
     = JsMap.values new.
Proof.
  intros Hts new st.
  assert (Hup : shouldUpdate (Markdown.getProjectVersion host)
                  (lastProjectVersion initial) = true).
  { simpl. destruct (Markdown.getProjectVersion host); reflexivity. }
  assert (Hnd : NoDup (JsMap.keys new)) by apply newVersions_NoDup.
  assert (Hst : st = reconcile [] new
                       (set_lastProjectVersion (Markdown.getProjectVersion host)
                          initial)).
  { subst st. apply (sync_reconciles _ _ _ _ Hts Hup). }
  assert (Hsynced : syncedVersions st = new).
  { rewrite Hst, reconcile_unfold. simpl. apply (set_all_fresh new []). exact Hnd. }
  split; [|split; [exact Hsynced | split]].
  - pose proof (reconcile_events new
                  (set_lastProjectVersion (Markdown.getProjectVersion host) initial)
                  Hnd) as Hev.
    simpl in Hev. change (JsSet.of_list []) with (@nil string) in Hev.
    rewrite <- Hst in Hev. rewrite Hev, app_nil_r.
    unfold JsMap.values. rewrite map_map. reflexivity.
  - rewrite Hst. apply reconcile_lastProjectVersion.
  - unfold Markdown.getAllMarkdownDocuments. simpl. fold st.
    rewrite Hsynced. reflexivity.
Qed.

Lemma first_sync_creates_witness :
  events Sample.once_7
  = map DidCreate
      (JsMap.values
         (Markdown.newVersions Sample.selector Sample.versioned Sample.versioned_host))
  /\ syncedVersions Sample.once_7
     = Markdown.newVersions Sample.selector Sample.versioned Sample.versioned_host.
Proof.
  destruct (first_sync_creates Sample.selector Sample.versioned
              Sample.versioned_host eq_refl) as (Hev & Hsynced & _).
  split; assumption.
Defined.

Lemma JsSet_of_list_NoDup_id l : NoDup l -> JsSet.of_list l = l.
Proof.
  intros Hnd. unfold JsSet.of_list.
  enough (H : forall s, NoDup (s ++ l) -> fold_left JsSet.add l s = s ++ l)
    by (apply (H []); exact Hnd).
  clear Hnd. induction l as [|k l IH]; simpl; intros s Hnd.
  - rewrite app_nil_r. reflexivity.
  - assert (Hk : JsSet.has s k = false).
    { destruct (JsSet.has s k) eqn:Hhas; [|reflexivity].
      apply JsSet_has_In in Hhas. apply NoDup_remove_2 in Hnd.
      exfalso. apply Hnd. apply in_or_app. auto. }
    unfold JsSet.add at 2. rewrite Hk.
    rewrite IH; rewrite <- app_assoc; simpl; [reflexivity | exact Hnd].
Qed.

Lemma delete_all_keys (m : JsMap.t TextDocument) : delete_all (JsMap.keys m) m = [].
Proof.
  unfold delete_all, JsMap.keys.
  induction m as [|[k d] m IH]; simpl; [reflexivity|].
  rewrite String.eqb_refl. exact IH.
Qed.

(** The state after a reconciliation against the keys of the stored set,
    told with the stale URIs. *)
Lemma reconcile_stale new st :
  reconcile (JsSet.of_list (JsMap.keys (syncedVersions st))) new st
  = {| lastProjectVersion := lastProjectVersion st;
       syncedVersions :=
         delete_all (stale (syncedVersions st) new) (set_all new (syncedVersions st));
       fired := fired st ++ upsert_calls new (syncedVersions st)
                         ++ delete_calls (stale (syncedVersions st) new)
                              (set_all new (syncedVersions st)) |}.
Proof. rewrite reconcile_unfold. reflexivity. Qed.

Lemma stale_empty_new (old : JsMap.t TextDocument) :
  NoDup (JsMap.keys old) -> stale old [] = JsMap.keys old.
Proof.
  intros Hnd. unfold stale. rewrite JsSet_of_list_NoDup_id by exact Hnd.
  induction (JsMap.keys old) as [|x l IH]; simpl; [reflexivity|].
  f_equal. apply IH. apply NoDup_cons_iff in Hnd. tauto.
Qed.

(** X6: when the project has no script file left, a sync that reconciles
    fires one "deleted" per tracked URI, in the order of the tracked set,
    and nothing else, and leaves nothing tracked. *)
Theorem sync_empty_project_deletes_all documentSelector context host st :
  Markdown.typescript context = Some host ->
  Markdown.getScriptFileNames host = [] ->
  shouldUpdate (Markdown.getProjectVersion host) (lastProjectVersion st) = true ->
  NoDup (JsMap.keys (syncedVersions st)) ->
  let st' := Markdown.sync documentSelector context st in
  events st' = events st ++ map DidDelete (JsMap.keys (syncedVersions st))
  /\ syncedVersions st' = []
  /\ snd (Markdown.getAllMarkdownDocuments documentSelector context st) = [].
Proof.
  intros Hts Hfiles Hup Hnd st'.
  assert (Hnew : Markdown.newVersions documentSelector context host = []).
  { unfold Markdown.newVersions. rewrite Hfiles. reflexivity. }
  pose proof (reconcile_stale []
                (set_lastProjectVersion (Markdown.getProjectVersion host) st)) as Hrec.
  change (syncedVersions (set_lastProjectVersion (Markdown.getProjectVersion host) st))
    with (syncedVersions st) in Hrec.
  rewrite (stale_empty_new _ Hnd) in Hrec.
  rewrite <- Hnew, <- (sync_reconciles _ _ _ _ Hts Hup) in Hrec.
  fold st' in Hrec. rewrite Hnew in Hrec.
  assert (Hsynced : syncedVersions st' = []).
  { rewrite Hrec. apply delete_all_keys. }
  split; [|split; [exact Hsynced|]].
  - rewrite Hrec. unfold events. cbn [fired set_lastProjectVersion upsert_calls].
    rewrite !map_app, delete_calls_events. reflexivity.
  - unfold Markdown.getAllMarkdownDocuments. cbn [snd]. fold st'.
    rewrite Hsynced. reflexivity.
Qed.

Lemma sync_empty_project_deletes_all_witness :
  NoDup (JsMap.keys (syncedVersions Sample.once_7))
  /\ events (Markdown.sync Sample.selector Cases.emptied Sample.once_7)
     = events Sample.once_7
       ++ [ DidDelete "file:///readme.md";
            DidDelete "file:///page.vue#docs_0";
            DidDelete "file:///page.vue#docs_1" ]
  /\ syncedVersions (Markdown.sync Sample.selector Cases.emptied Sample.once_7) = [].
Proof.
  assert (Hnd : NoDup (JsMap.keys (syncedVersions Sample.once_7))).
  { vm_compute. repeat constructor; simpl; intuition discriminate. }
  split; [exact Hnd|].
  destruct (sync_empty_project_deletes_all Sample.selector Cases.emptied
              Cases.emptied_host Sample.once_7 eq_refl eq_refl eq_refl Hnd)
    as (Hev & Hsynced & _).
  split; [exact Hev | exact Hsynced].
Defined.

Lemma set_same (m : JsMap.t TextDocument) k d :
  JsMap.get m k = Some d -> JsMap.set m k d = m.
Proof.
  induction m as [|[k0 d0] m IH]; simpl; [discriminate|].
  destruct (String.eqb k0 k).
  - intros [= ->]. reflexivity.
  - intros H. rewrite IH by exact H. reflexivity.
Qed.

Lemma set_all_same entries : forall m,
  (forall k d, In (k, d) entries -> JsMap.get m k = Some d) ->
  set_all entries m = m.
Proof.
  unfold set_all. induction entries as [|[k d] entries IH]; intros m Hall; simpl.
  - reflexivity.
  - rewrite set_same by (apply Hall; left; reflexivity).
    apply IH. intros k' d' Hin. apply Hall. right. exact Hin.
Qed.

(** X7: over a host that gives no project version, a second sync of an
    unchanged project still reconciles: it fires exactly one "changed" per
    document of the new set, in walk order, no "created" and no "deleted",
    and it leaves the tracked set exactly as the first sync left it. *)
Theorem resync_unchanged_project documentSelector context host st :
  Markdown.typescript context = Some host ->
  Markdown.getProjectVersion host = None ->
  NoDup (JsMap.keys (syncedVersions st)) ->
  let new := Markdown.newVersions documentSelector context host in
  let once := Markdown.sync documentSelector context st in
  let twice := Markdown.sync documentSelector context once in
  events twice = events once ++ map DidChange (JsMap.values new)
  /\ syncedVersions twice = syncedVersions once.
Proof.
  intros Hts Hv Hold new once twice.
  assert (Hnew : NoDup (JsMap.keys new)) by apply newVersions_NoDup.
  assert (Hup : forall last, shouldUpdate (Markdown.getProjectVersion host) last = true)
    by (intros last; rewrite Hv; reflexivity).
  assert (Hsame : JsMap.same_entries (syncedVersions once) new).
  { subst once. rewrite (sync_reconciles _ _ _ _ Hts (Hup _)).
    apply (reconcile_same_entries new (set_lastProjectVersion _ st) Hold Hnew). }
  assert (Hstale : stale (syncedVersions once) new = []).
  { unfold stale.
    assert (Hnone : forall l : list string,
               (forall u, In u l -> JsMap.has new u = true) ->
               filter (fun u => negb (JsMap.has new u)) l = []).
    { induction l as [|x l IH]; intros Hl; simpl; [reflexivity|].
      rewrite (Hl x (or_introl eq_refl)). simpl. apply IH.
      intros u Hu. apply Hl. right. exact Hu. }
    apply Hnone. intros u Hu. apply JsSet_of_list_In, has_In_keys in Hu.
    unfold JsMap.has in *. rewrite <- Hsame. exact Hu. }
  assert (Htwice : twice = reconcile (JsSet.of_list (JsMap.keys (syncedVersions once)))
                             new
                             (set_lastProjectVersion (Markdown.getProjectVersion host)
                                once)).
  { subst twice. apply (sync_reconciles _ _ _ _ Hts (Hup _)). }
  split.
  - pose proof (reconcile_events new
                  (set_lastProjectVersion (Markdown.getProjectVersion host) once)
                  Hnew) as Hev.
    change (events (set_lastProjectVersion (Markdown.getProjectVersion host) once))
      with (events once) in Hev.
    change (syncedVersions
              (set_lastProjectVersion (Markdown.getProjectVersion host) once))
      with (syncedVersions once) in Hev.
    rewrite <- Htwice, Hstale in Hev. rewrite Hev. simpl. rewrite app_nil_r.
    f_equal. unfold JsMap.values. rewrite map_map.
    apply map_ext_in. intros [k d] Hin. unfold upsert_event. simpl.
    assert (Hhas : JsMap.has (syncedVersions once) k = true).
    { unfold JsMap.has. rewrite Hsame, (In_get _ _ _ Hnew Hin). reflexivity. }
    rewrite Hhas. reflexivity.
  - rewrite Htwice, reconcile_unfold. simpl.
    fold (stale (syncedVersions once) new). rewrite Hstale. simpl.
    apply set_all_same. intros k d Hin. rewrite Hsame.
    apply In_get; assumption.
Qed.

Lemma resync_unchanged_project_witness :
  events Sample.twice
  = events Sample.once
    ++ map DidChange
         (JsMap.values
            (Markdown.newVersions Sample.selector Sample.unversioned
               Sample.unversioned_host))
  /\ syncedVersions Sample.twice = syncedVersions Sample.once.
Proof.
  exact (resync_unchanged_project Sample.selector Sample.unversioned
           Sample.unversioned_host initial eq_refl eq_refl (NoDup_nil _)).
Defined.

(** ** [provideDefinition] *)

(** X8: [provideDefinition] answers nothing for a document the selector
    does not match, without syncing and without asking the language
    service.  For a matching document it syncs first; then an absent answer
    of the language service stays absent, a single location gives the same
    links as the one-element array of it, and an array of locations gives
    one link per location, in order (an empty array gives an empty list,
    not an absent answer), each link pointing at the URI of its location
    with the range of the location both as target range and as target
    selection range. *)
Theorem provideDefinition_links {Position Range : Type}
    documentSelector context
    (getDefinition : TextDocument -> Position
                     -> option (@MarkdownProviders.Definitions Range))
    document position st :
  let provide get :=
    MarkdownProviders.provideDefinition documentSelector context get
      document position st in
  (matchDocument documentSelector (languageId document) = false ->
   provide getDefinition = (st, None))
  /\ (matchDocument documentSelector (languageId document) = true ->
      fst (provide getDefinition) = Markdown.sync documentSelector context st
      /\ (getDefinition document position = None ->
          snd (provide getDefinition) = None)
      /\ (forall location,
            getDefinition document position
            = Some (MarkdownProviders.OneLocation location) ->
            provide getDefinition
            = provide (fun _ _ => Some (MarkdownProviders.ManyLocations [location])))
      /\ (forall locations,
            getDefinition document position
            = Some (MarkdownProviders.ManyLocations locations) ->
            exists links,
              snd (provide getDefinition) = Some links
              /\ map MarkdownProviders.targetUri links
                 = map MarkdownProviders.loc_uri locations
              /\ map MarkdownProviders.targetRange links
                 = map MarkdownProviders.loc_range locations
              /\ map MarkdownProviders.targetSelectionRange links
                 = map MarkdownProviders.loc_range locations)).
Proof.
  intros provide. subst provide.
  unfold MarkdownProviders.provideDefinition, MarkdownProviders.prepare.
  split.
  - intros ->. reflexivity.
  - intros ->. simpl. split; [|split; [|split]].
    + destruct (getDefinition document position); reflexivity.
    + intros ->. reflexivity.
    + intros location ->. reflexivity.
    + intros locations ->. eexists. split; [reflexivity|].
      rewrite !map_map. repeat split.
Qed.

(** ** The default language settings of the json plugin *)

Lemma push_schemas_acc configured : forall i acc,
  Json.push_schemas i configured acc = acc ++ Json.push_schemas i configured [].
Proof.
  induction configured as [|s rest IH]; intros i acc; simpl.
  - symmetry. apply app_nil_r.
  - rewrite IH. rewrite (IH (S i) (match Json.schema_uri i s with
                                   | Some _ => _ | None => _ end)).
    destruct (Json.schema_uri i s) as [u|]; [|reflexivity].
    destruct (JsString.truthy (Some u)); [|reflexivity].
    simpl. rewrite <- app_assoc. reflexivity.
Qed.

Lemma push_schemas_cons i s rest :
  Json.push_schemas i (s :: rest) []
  = Json.push_schemas i [s] [] ++ Json.push_schemas (S i) rest [].
Proof.
  change (Json.push_schemas i (s :: rest) [])
    with (Json.push_schemas (S i) rest (Json.push_schemas i [s] [])).
  apply push_schemas_acc.
Qed.

Lemma truthy_nonempty u : JsString.truthy (Some u) = true <-> u <> "".
Proof.
  simpl. rewrite negb_true_iff. split.
  - intros H ->. discriminate.
  - intros H. destruct (String.eqb_spec u ""); [contradiction | reflexivity].
Qed.

(** What one configured schema contributes. *)
Lemma push_schema_one i s :
  if JsString.truthy (Json.url s)
     || match Json.schema s with Some _ => true | None => false end
  then exists u,
         Json.schema_uri i s = Some u /\ u <> ""
         /\ Json.push_schemas i [s] []
            = [ {| Json.sc_uri := u;
                   Json.sc_fileMatch := Json.fileMatch s;
                   Json.sc_schema := Json.schema s;
                   Json.sc_folderUri := Json.folderUri s |} ]
  else Json.push_schemas i [s] [] = [].
Proof.
  unfold Json.push_schemas, Json.schema_uri.
  destruct (JsString.truthy (Json.url s)) eqn:Hurl; simpl.
  - destruct (Json.url s) as [u|] eqn:Hu; [|discriminate].
    exists u. rewrite Hurl. repeat split. apply truthy_nonempty. exact Hurl.
  - destruct (Json.schema s) as [inline|].
    + destruct (JsString.truthy (Json.id inline)) eqn:Hid.
      * destruct (Json.id inline) as [u|]; [|discriminate].
        exists u. rewrite Hid. repeat split. apply truthy_nonempty. exact Hid.
      * eexists. split; [reflexivity|]. split; [discriminate|]. reflexivity.
    + destruct (Json.url s) as [u|]; [rewrite Hurl|]; reflexivity.
Qed.

Lemma of_index_injective i j : JsString.of_index i = JsString.of_index j -> i = j.
Proof.
  unfold JsString.of_index. intros H.
  apply (f_equal NilEmpty.uint_of_string) in H. rewrite !NilEmpty.usu in H.
  injection H as H. apply (f_equal Nat.of_uint) in H.
  rewrite !Unsigned.of_to in H. exact H.
Qed.

(** X9: the default language settings of the json plugin keep the
    configured schemas that have a non-empty [url] or an inline schema, in
    their order and with their [fileMatch], [schema] and [folderUri], and
    drop the others; every schema kept has a non-empty URI: its [url] when
    that is non-empty, otherwise the non-empty [id] of its inline schema,
    otherwise "vscode://schemas/custom/" followed by its index among the
    configured schemas (dropped ones counted), so two schemas never get
    the same made-up URI.  Validation is on unless the configuration says
    false. *)
Theorem getLanguageSettings_schemas validateSetting configured :
  let settings := Json.getLanguageSettings validateSetting (Some configured) in
  let kept s :=
    JsString.truthy (Json.url s)
    || match Json.schema s with Some _ => true | None => false end in
  Forall (fun c => Json.sc_uri c <> "") (Json.schemas settings)
  /\ map (fun c => (Json.sc_fileMatch c, Json.sc_schema c, Json.sc_folderUri c))
       (Json.schemas settings)
     = map (fun s => (Json.fileMatch s, Json.schema s, Json.folderUri s))
         (filter kept configured)
  /\ (forall i s u,
        nth_error configured i = Some s -> Json.url s = Some u -> u <> "" ->
        exists c, In c (Json.schemas settings) /\ Json.sc_uri c = u
                  /\ Json.sc_schema c = Json.schema s)
  /\ (forall i s inline,
        nth_error configured i = Some s ->
        JsString.truthy (Json.url s) = false ->
        Json.schema s = Some inline ->
        JsString.truthy (Json.id inline) = false ->
        exists c, In c (Json.schemas settings)
                  /\ Json.sc_uri c
                     = ("vscode://schemas/custom/" ++ JsString.of_index i)%string)
  /\ (forall i j, JsString.of_index i = JsString.of_index j -> i = j)
  /\ Json.validate settings
     = match validateSetting with Some false => false | _ => true end.
Proof.
  intros settings kept. subst settings. unfold Json.getLanguageSettings. simpl.
  assert (Hgen : forall l i,
             Forall (fun c => Json.sc_uri c <> "") (Json.push_schemas i l [])
             /\ map (fun c => (Json.sc_fileMatch c, Json.sc_schema c,
                               Json.sc_folderUri c)) (Json.push_schemas i l [])
                = map (fun s => (Json.fileMatch s, Json.schema s, Json.folderUri s))
                    (filter kept l)
             /\ forall n s, nth_error l n = Some s ->
                  forall c, In c (Json.push_schemas (i + n) [s] []) ->
                            In c (Json.push_schemas i l [])).
  { induction l as [|s rest IH]; intros i.
    - split; [constructor|]. split; [reflexivity|].
      intros [|n] s H; discriminate.
    - rewrite push_schemas_cons. destruct (IH (S i)) as (IH1 & IH2 & IH3).
      pose proof (push_schema_one i s) as Hone. fold (kept s) in Hone.
      split; [|split].
      + apply Forall_app. split; [|exact IH1].
        destruct (kept s).
        * destruct Hone as (u & _ & Hu & ->). constructor; [exact Hu | constructor].
        * rewrite Hone. constructor.
      + rewrite map_app, IH2. cbn [filter]. destruct (kept s).
        * destruct Hone as (u & _ & _ & ->). reflexivity.
        * rewrite Hone. reflexivity.
      + intros [|n] s' Hn c Hc; simpl in Hn.
        * injection Hn as <-. rewrite Nat.add_0_r in Hc.
          apply in_or_app. left. exact Hc.
        * apply in_or_app. right. apply (IH3 n s' Hn).
          replace (S i + n) with (i + S n) by lia. exact Hc. }
  destruct (Hgen configured 0) as (H1 & H2 & H3).
  split; [exact H1|]. split; [exact H2|]. split; [|split; [|split]].
  - intros i s u Hn Hurl Hu.
    pose proof (push_schema_one i s) as Hone.
    assert (Ht : JsString.truthy (Json.url s) = true)
      by (rewrite Hurl; apply truthy_nonempty; exact Hu).
    rewrite Ht in Hone. simpl in Hone. destruct Hone as (u' & Hsu & _ & Hpush).
    unfold Json.schema_uri in Hsu. rewrite Ht in Hsu. simpl in Hsu.
    rewrite Hurl in Hsu. injection Hsu as <-.
    eexists. split; [apply (H3 i s Hn); simpl; rewrite Hpush; left; reflexivity|].
    split; reflexivity.
  - intros i s inline Hn Hurl Hs Hid.
    pose proof (push_schema_one i s) as Hone.
    rewrite Hurl, Hs in Hone. simpl in Hone. destruct Hone as (u' & Hsu & _ & Hpush).
    unfold Json.schema_uri in Hsu. rewrite Hurl, Hs, Hid in Hsu. simpl in Hsu.
    injection Hsu as <-.
    eexists. split; [apply (H3 i s Hn); simpl; rewrite Hpush; left; reflexivity|].
    reflexivity.
  - apply of_index_injective.
  - destruct validateSetting as [[|]|]; reflexivity.
Qed.

(** ** The base of a resource *)

Lemma append_cons x (a b : string) :
  (String x a ++ b)%string = String x (a ++ b)%string.
Proof. reflexivity. Qed.

Lemma take_app_length pre post :
  JsString.take (String.length pre) (pre ++ post)%string = pre.
Proof.
  induction pre as [|a pre IH].
  - destruct post; reflexivity.
  - rewrite append_cons. simpl. rewrite IH. reflexivity.
Qed.

Lemma string_length_app (a b : string) :
  String.length (a ++ b)%string = String.length a + String.length b.
Proof.
  induction a as [|c a IH]; [reflexivity|].
  rewrite append_cons. simpl. rewrite IH. reflexivity.
Qed.

Lemma string_app_assoc (a b c : string) :
  ((a ++ b) ++ c)%string = (a ++ (b ++ c))%string.
Proof.
  induction a as [|x a IH]; [reflexivity|].
  rewrite !append_cons, IH. reflexivity.
Qed.

(** Where the last occurrence is: either there is none and the scan gives
    back what it was given, or the string splits around it. *)
Lemma lastIndexOf_from_spec c s : forall i last,
  (JsString.occurs c s = false /\ JsString.lastIndexOf_from s c i last = last)
  \/ exists pre post,
       s = (pre ++ String c post)%string
       /\ JsString.occurs c post = false
       /\ JsString.lastIndexOf_from s c i last = (i + Z.of_nat (String.length pre))%Z.
Proof.
  induction s as [|a s IH]; intros i last; simpl.
  - left. auto.
  - destruct (IH (i + 1)%Z (if Ascii.eqb a c then i else last))
      as [[Hno Hres]|(pre & post & Hs & Hpost & Hres)].
    + destruct (Ascii.eqb_spec a c) as [->|Hne].
      * right. exists "", s. simpl. repeat split; [exact Hno | rewrite Hres; lia].
      * left. simpl. split; [exact Hno | exact Hres].
    + right. exists (String a pre), post. rewrite Hs. repeat split.
      * exact Hpost.
      * rewrite <- Hs, Hres. simpl String.length. lia.
Qed.

Lemma substring_prefix s n :
  n <= String.length s ->
  JsString.substring s 0 (Z.of_nat n) = JsString.take n s.
Proof.
  intros Hn. unfold JsString.substring, JsString.clamp, JsString.length.
  replace (Z.max 0 (Z.min 0 (Z.of_nat (String.length s)))) with 0%Z by lia.
  replace (Z.max 0 (Z.min (Z.of_nat n) (Z.of_nat (String.length s))))
    with (Z.of_nat n) by lia.
  replace (Z.min 0 (Z.of_nat n)) with 0%Z by lia.
  replace (Z.max 0 (Z.of_nat n) - 0)%Z with (Z.of_nat n) by lia.
  rewrite Nat2Z.id. reflexivity.
Qed.

(** X10: the base that the default [resolveRelativePath] of the json
    plugin computes is the resource up to and including its last slash:
    the resource is the base followed by a rest without slash, the base is
    empty or ends with a slash, and it is empty exactly when the resource
    has no slash at all. *)
Theorem base_up_to_last_slash resource :
  exists rest,
    resource = (Json.base resource ++ rest)%string
    /\ JsString.occurs "/" rest = false
    /\ (Json.base resource = ""
        \/ exists directory, Json.base resource = (directory ++ "/")%string)
    /\ (Json.base resource = "" <-> JsString.occurs "/" resource = false).
Proof.
  unfold Json.base, JsString.lastIndexOf.
  destruct (lastIndexOf_from_spec "/" resource 0 (-1))
    as [[Hno ->]|(pre & post & Hs & Hpost & ->)].
  - exists resource.
    assert (Hempty : JsString.substring resource 0 (-1 + 1) = "").
    { change (-1 + 1)%Z with (Z.of_nat 0). rewrite substring_prefix by lia.
      destruct resource; reflexivity. }
    rewrite Hempty.
    split; [reflexivity|]. split; [exact Hno|]. split; [left; reflexivity|].
    split; intros _; [exact Hno | reflexivity].
  - exists post. subst resource.
    assert (Hres : (pre ++ String "/" post)%string = ((pre ++ "/") ++ post)%string)
      by (rewrite string_app_assoc; reflexivity).
    assert (Hbase : JsString.substring (pre ++ String "/" post) 0
                      (0 + Z.of_nat (String.length pre) + 1)
                    = (pre ++ "/")%string).
    { replace (0 + Z.of_nat (String.length pre) + 1)%Z
        with (Z.of_nat (String.length (pre ++ "/")%string))
        by (rewrite string_length_app; simpl; lia).
      rewrite substring_prefix
        by (rewrite Hres, !string_length_app; simpl; lia).
      rewrite Hres. apply take_app_length. }
    rewrite Hbase.
    split; [exact Hres|]. split; [exact Hpost|].
    split; [right; exists pre; reflexivity|].
    apply conj.
    + intros H. destruct pre; discriminate.
    + intros H. exfalso. clear -H.
      induction pre as [|a pre IH].
      * simpl in H. discriminate.
      * rewrite append_cons in H. simpl in H.
        apply orb_false_iff in H. tauto.
Qed.

(** ** The json worker configures the language service once per settings *)

Module JsonWorkerFacts.
Import stdpp.base stdpp.gmap.
Import JsonWorker.

Section Instance.
Context {JSONDocument : Type}.
Variable documentSelector : DocumentSelector.
Variable parseJSONDocument : TextDocument -> JSONDocument.

Abbreviation step := (JsonWorker.step documentSelector parseJSONDocument).
Abbreviation run := (JsonWorker.run documentSelector parseJSONDocument).
Abbreviation selected d :=
  (matchDocument documentSelector (languageId (Caches.content d))).

Lemma worker_unselected {T} settings document (callback : JSONDocument -> T) st :
  selected document = false ->
  worker documentSelector parseJSONDocument settings document callback st = (st, None).
Proof.
  intros Hsel. unfold worker.
  rewrite (CachesFacts.json_unselected _ _ _ _ Hsel). destruct st; reflexivity.
Qed.

Lemma worker_selected {T} settings document (callback : JSONDocument -> T) st :
  selected document = true ->
  let after := fst (worker documentSelector parseJSONDocument
                      settings document callback st) in
  initializing after = true
  /\ configured after
     = if initializing st then configured st else configured st ++ [settings].
Proof.
  intros Hsel after. subst after. unfold worker.
  destruct (Caches.getJsonDocument _ _ _ _) as [[parsed|] cache] eqn:Hget.
  - simpl. unfold ensure_initialized. simpl.
    destruct (initializing st) eqn:Hinit; simpl; auto.
  - exfalso. unfold Caches.getJsonDocument in Hget. rewrite Hsel in Hget.
    simpl in Hget.
    destruct (jsonDocuments st !! Caches.identity document) as [[v d]|];
      [destruct (Z.eqb v _)|]; discriminate.
Qed.

Lemma step_bound st call :
  List.length (configured (step st call)) + (if initializing (step st call) then 0 else 1)
  <= List.length (configured st) + (if initializing st then 0 else 1)
     + (if is_change call then 1 else 0).
Proof.
  destruct call as [settings document|]; simpl.
  - destruct (selected document) eqn:Hsel.
    + destruct (worker_selected settings document (fun _ => tt) st Hsel) as [-> ->].
      destruct (initializing st); simpl; [lia|]. rewrite length_app. simpl. lia.
    + rewrite (worker_unselected _ _ _ _ Hsel). simpl. lia.
  - destruct (initializing st); simpl; lia.
Qed.

Lemma run_bound calls : forall st,
  List.length (configured (fold_left step calls st))
  + (if initializing (fold_left step calls st) then 0 else 1)
  <= List.length (configured st) + (if initializing st then 0 else 1)
     + List.length (List.filter is_change calls).
Proof.
  induction calls as [|call calls IH]; intros st; simpl; [lia|].
  specialize (IH (step st call)). pose proof (step_bound st call) as Hs.
  destruct (is_change call); simpl; lia.
Qed.

Lemma run_unselected calls : forall st,
  (forall settings document,
      In (Request settings document) calls -> selected document = false) ->
  configured (fold_left step calls st) = configured st.
Proof.
  induction calls as [|call calls IH]; intros st Hall; simpl; [reflexivity|].
  rewrite IH by (intros s d Hin; apply (Hall s d); right; exact Hin).
  destruct call as [settings document|]; simpl; [|reflexivity].
  rewrite worker_unselected; [reflexivity|].
  apply (Hall settings document). left. reflexivity.
Qed.
End Instance.

(** X11: the json plugin configures its language service lazily and at
    most once per settings: over any sequence of provider requests and
    settings changes on a fresh instance, [jsonLs.configure] is called at
    most once more than the settings changed; a request for a document
    the selector does not match never configures, so an instance that only
    sees such documents never does; and right after a request for a
    matching document, a further request for a matching document does not
    configure again, whatever the configuration gives by then. *)
Theorem json_configures_once_per_settings {JSONDocument : Type}
    documentSelector (parseJSONDocument : TextDocument -> JSONDocument) :
  let run := JsonWorker.run documentSelector parseJSONDocument in
  let step := JsonWorker.step documentSelector parseJSONDocument in
  let selected d := matchDocument documentSelector (languageId (Caches.content d)) in
  (forall calls,
      List.length (configured (run calls))
      <= 1 + List.length (List.filter is_change calls))
  /\ (forall calls,
        (forall settings document,
            In (Request settings document) calls -> selected document = false) ->
        configured (run calls) = [])
  /\ (forall st settings document settings' document',
        selected document = true -> selected document' = true ->
        configured (step (step st (Request settings document))
                      (Request settings' document'))
        = configured (step st (Request settings document))).
Proof.
  intros run step selected. subst run step selected. split; [|split].
  - intros calls.
    pose proof (run_bound documentSelector parseJSONDocument calls fresh) as H.
    unfold JsonWorker.run.
    destruct (initializing _); simpl in H; lia.
  - intros calls Hall. unfold JsonWorker.run.
    apply (run_unselected documentSelector parseJSONDocument calls fresh Hall).
  - intros st settings document settings' document' Hsel Hsel'. simpl.
    destruct (worker_selected documentSelector parseJSONDocument settings document
                (fun _ => tt) st Hsel) as [Hinit _].
    destruct (worker_selected documentSelector parseJSONDocument settings' document'
                (fun _ => tt)
                (fst (worker documentSelector parseJSONDocument settings document
                        (fun _ => tt) st))
                Hsel') as [_ ->].
    rewrite Hinit. reflexivity.
Qed.
End JsonWorkerFacts.

(** ** The attributes the vetur plugin offers for a tag *)

Lemma provideAttributes_acc {ValueSet Documentation : Type}
    (collected : list (string * ValueSet * Documentation)) : forall acc,
  fold_left Vetur.push_attribute collected acc
  = acc ++ Vetur.provideAttributes collected.
Proof.
  unfold Vetur.provideAttributes.
  induction collected as [|c collected IH]; intros acc; simpl.
  - symmetry. apply app_nil_r.
  - rewrite IH. rewrite (IH (Vetur.push_attribute [] c)).
    rewrite app_assoc. f_equal.
    destruct c as [[attribute type] documentation]. unfold Vetur.push_attribute.
    destruct (_ || _); reflexivity.
Qed.

(** X12: for a tag, the vetur plugin offers every attribute that the tag
    provider reports, under its own name and with its value set and
    description; an attribute that does not start with "v-" or "@" is also
    offered as "v-bind:" and ":" followed by its name, before the plain
    name, and an attribute that starts with "v-" or "@" is offered once
    only.  Nothing else is offered, the order of the provider is kept, and
    so the list has between one and three times as many entries as the
    provider reported. *)
Theorem provideAttributes_expands {ValueSet Documentation : Type}
    (collected : list (string * ValueSet * Documentation)) :
  let offered := Vetur.provideAttributes collected in
  let entry name (type : ValueSet) (documentation : Documentation) :=
    {| Vetur.attr_name := name;
       Vetur.attr_valueSet := type;
       Vetur.attr_description := documentation |} in
  let directive attribute :=
    JsString.startsWith attribute "v-" || JsString.startsWith attribute "@" in
  offered
  = flat_map (fun '(attribute, type, documentation) =>
                if directive attribute then [entry attribute type documentation]
                else [ entry ("v-bind:" ++ attribute)%string type documentation;
                       entry (":" ++ attribute)%string type documentation;
                       entry attribute type documentation ])
      collected
  /\ (forall attribute type documentation,
        In (attribute, type, documentation) collected ->
        In (entry attribute type documentation) offered)
  /\ (forall attribute type documentation,
        In (attribute, type, documentation) collected ->
        directive attribute = false ->
        In (entry ("v-bind:" ++ attribute)%string type documentation) offered
        /\ In (entry (":" ++ attribute)%string type documentation) offered)
  /\ (forall e, In e offered ->
        exists attribute,
          In (attribute, Vetur.attr_valueSet e, Vetur.attr_description e) collected
          /\ (Vetur.attr_name e = attribute
              \/ directive attribute = false
                 /\ (Vetur.attr_name e = ("v-bind:" ++ attribute)%string
                     \/ Vetur.attr_name e = (":" ++ attribute)%string)))
  /\ List.length collected <= List.length offered <= 3 * List.length collected.
Proof.
  intros offered entry directive.
  assert (Hflat : offered
                  = flat_map (fun '(attribute, type, documentation) =>
                      if directive attribute then [entry attribute type documentation]
                      else [ entry ("v-bind:" ++ attribute)%string type documentation;
                             entry (":" ++ attribute)%string type documentation;
                             entry attribute type documentation ])
                      collected).
  { subst offered. induction collected as [|c collected IH]; [reflexivity|].
    unfold Vetur.provideAttributes. simpl. rewrite provideAttributes_acc, IH.
    f_equal. }
  split; [exact Hflat|]. rewrite Hflat. clear Hflat offered.
  split; [|split; [|split]].
  - intros attribute type documentation Hin. apply in_flat_map.
    exists (attribute, type, documentation). split; [exact Hin|].
    destruct (directive attribute); simpl; auto.
  - intros attribute type documentation Hin Hdir. split; apply in_flat_map;
      exists (attribute, type, documentation); (split; [exact Hin|]);
      rewrite Hdir; simpl; auto.
  - intros e Hin. apply in_flat_map in Hin as [[[attribute type] documentation] [Hc He]].
    exists attribute. destruct (directive attribute) eqn:Hdir; simpl in He.
    + destruct He as [<-|[]]. simpl. auto.
    + destruct He as [<-|[<-|[<-|[]]]]; simpl; auto.
  - induction collected as [|[[attribute type] documentation] collected IH];
      simpl; [lia|].
    rewrite length_app. destruct (directive attribute); simpl; lia.
Qed.

(** ** The nearest package.json *)

Section PackageJsonFacts.
Variable dirname : string -> string.
Variable existsSync : string -> bool.

Abbreviation ancestor k start := (Nat.iter k dirname start).
Abbreviation manifest d := (d ++ "/package.json")%string.

Lemma iter_shift k start : Nat.iter k dirname (dirname start) = Nat.iter (S k) dirname start.
Proof.
  induction k as [|k IH]; [reflexivity|]. simpl. rewrite IH. reflexivity.
Qed.

Lemma search_found fuel : forall start p,
  Vetur.search dirname existsSync fuel start = Some (Some p) ->
  exists k,
    1 <= k <= fuel
    /\ p = manifest (ancestor k start)
    /\ existsSync p = true
    /\ forall j, 1 <= j < k ->
         existsSync (manifest (ancestor j start)) = false
         /\ ancestor j start <> ancestor (j - 1) start.
Proof.
  induction fuel as [|fuel IH]; intros start p H; [discriminate|].
  simpl in H. destruct (String.eqb_spec (dirname start) start) as [Heq|Hne];
    [discriminate|].
  destruct (existsSync (manifest (dirname start))) eqn:Hex.
  - injection H as <-. exists 1.
    split; [lia|]. split; [reflexivity|]. split; [exact Hex|].
    intros j Hj. lia.
  - destruct (IH _ _ H) as (k & Hk & Hp & Hexists & Hbefore).
    exists (S k). rewrite <- !iter_shift. split; [lia|]. split; [exact Hp|].
    split; [exact Hexists|]. intros j Hj.
    destruct (Nat.eq_dec j 1) as [->|Hj1].
    + simpl. split; [exact Hex | exact Hne].
    + destruct (Hbefore (j - 1)) as [H1 H2]; [lia|].
      rewrite !iter_shift in H1, H2.
      replace (S (j - 1)) with j in H1, H2 by lia.
      rewrite ?iter_shift in H2.
      replace (S (j - 1 - 1)) with (j - 1) in H2 by lia. auto.
Qed.

Lemma search_none fuel : forall start,
  Vetur.search dirname existsSync fuel start = Some None ->
  exists k,
    k < fuel
    /\ dirname (ancestor k start) = ancestor k start
    /\ forall j, 1 <= j <= k -> existsSync (manifest (ancestor j start)) = false.
Proof.
  induction fuel as [|fuel IH]; intros start H; [discriminate|].
  simpl in H. destruct (String.eqb_spec (dirname start) start) as [Heq|Hne].
  - exists 0. split; [lia|]. split; [exact Heq|]. intros j Hj. lia.
  - destruct (existsSync (manifest (dirname start))) eqn:Hex; [discriminate|].
    destruct (IH _ H) as (k & Hk & Hfix & Hbefore).
    exists (S k). rewrite <- !iter_shift. split; [lia|]. split; [exact Hfix|].
    intros j Hj. destruct (Nat.eq_dec j 1) as [->|Hj1]; [exact Hex|].
    specialize (Hbefore (j - 1)). rewrite iter_shift in Hbefore.
    replace (S (j - 1)) with j in Hbefore by lia. apply Hbefore. lia.
Qed.

Lemma search_ends n : forall start,
  dirname (ancestor n start) = ancestor n start ->
  Vetur.search dirname existsSync (S n) start <> None.
Proof.
  induction n as [|n IH]; intros start Hfix.
  - simpl in *. rewrite Hfix, String.eqb_refl. discriminate.
  - cbn [Vetur.search].
    destruct (String.eqb (dirname start) start); [discriminate|].
    destruct (existsSync _); [discriminate|].
    apply IH. rewrite !iter_shift. exact Hfix.
Qed.
End PackageJsonFacts.

(** X13: the search for the package.json of a file walks up from the
    file: a path it finds is "/package.json" appended to the nearest
    proper ancestor directory that holds one (the file's own directory
    first), the file system saying that it exists; when it finds none, it
    has reached a directory that is its own parent, none of the proper
    ancestors up to it holding a package.json; and it ends whenever
    [path.dirname], applied again and again, reaches such a directory. *)
Theorem search_finds_nearest dirname existsSync fuel start :
  (forall p,
      Vetur.search dirname existsSync fuel start = Some (Some p) ->
      exists k,
        1 <= k <= fuel
        /\ p = (Nat.iter k dirname start ++ "/package.json")%string
        /\ existsSync p = true
        /\ forall j, 1 <= j < k ->
             existsSync (Nat.iter j dirname start ++ "/package.json")%string = false
             /\ Nat.iter j dirname start <> Nat.iter (j - 1) dirname start)
  /\ (Vetur.search dirname existsSync fuel start = Some None ->
      exists k,
        k < fuel
        /\ dirname (Nat.iter k dirname start) = Nat.iter k dirname start
        /\ forall j, 1 <= j <= k ->
             existsSync (Nat.iter j dirname start ++ "/package.json")%string = false)
  /\ (forall n,
        dirname (Nat.iter n dirname start) = Nat.iter n dirname start ->
        n < fuel ->
        Vetur.search dirname existsSync fuel start <> None).
Proof.
  split; [apply search_found|]. split; [apply search_none|].
  intros n Hfix Hn.
  assert (Hmono : forall m fuel' s,
             Vetur.search dirname existsSync fuel' s <> None ->
             Vetur.search dirname existsSync (fuel' + m) s <> None).
  { intros m fuel'. revert m. induction fuel' as [|fuel' IH]; intros m s H.
    - exfalso. apply H. reflexivity.
    - cbn [Nat.add Vetur.search] in *.
      destruct (String.eqb (dirname s) s); [discriminate|].
      destruct (existsSync _); [discriminate|]. apply IH. exact H. }
  replace fuel with (S n + (fuel - S n)) by lia.
  apply Hmono, search_ends, Hfix.
Qed.

(** X14: the vetur plugin remembers the package.json it found for a
    document URI and forgets a failed search.  A non-empty path stored for
    the URI is answered as it is, without any search, whatever the file
    system holds and however little fuel there is; so once a call has
    found a path, every later call answers that path, also when the file
    is gone.  A call that found nothing stores nothing usable: the next
    call for a file URI searches again, and finds a package.json that has
    appeared in between. *)
Theorem getPackageJsonPath_memo scheme fsPath dirname :
  let get := Vetur.getPackageJsonPath scheme fsPath dirname in
  (forall existsSync fuel cache document p,
      JsMap.get cache (uri document) = Some (Some p) -> p <> "" ->
      get existsSync fuel cache document = Some (Some p, cache))
  /\ (forall existsSync fuel cache document p cache',
        get existsSync fuel cache document = Some (Some p, cache') -> p <> "" ->
        forall existsSync' fuel',
          get existsSync' fuel' cache' document = Some (Some p, cache'))
  /\ (forall existsSync fuel cache document cache',
        get existsSync fuel cache document = Some (None, cache') ->
        scheme (uri document) = "file" ->
        forall existsSync' fuel',
          get existsSync' fuel' cache' document
          = match Vetur.search dirname existsSync' fuel'
                    (Vetur.slashes (fsPath (uri document))) with
            | Some found => Some (found, JsMap.set cache' (uri document) found)
            | None => None
            end).
Proof.
  intros get. subst get.
  assert (Hhit : forall existsSync fuel cache document p,
             JsMap.get cache (uri document) = Some (Some p) -> p <> "" ->
             Vetur.getPackageJsonPath scheme fsPath dirname existsSync fuel
               cache document
             = Some (Some p, cache)).
  { intros existsSync fuel cache document p Hget Hp.
    unfold Vetur.getPackageJsonPath. rewrite Hget.
    rewrite (proj2 (truthy_nonempty p) Hp). reflexivity. }
  split; [exact Hhit|]. split.
  - intros existsSync fuel cache document p cache' Hcall Hp existsSync' fuel'.
    apply Hhit; [|exact Hp].
    unfold Vetur.getPackageJsonPath in Hcall.
    destruct (JsString.truthy _) eqn:Htruthy; simpl in Hcall.
    + injection Hcall as Hstored <-.
      destruct (JsMap.get cache (uri document)) as [stored|]; [|discriminate].
      rewrite Hstored. reflexivity.
    + destruct (if String.eqb _ _ then _ else _) as [found|]; [|discriminate].
      injection Hcall as -> <-. rewrite get_set, String.eqb_refl. reflexivity.
  - intros existsSync fuel cache document cache' Hcall Hfile existsSync' fuel'.
    assert (Hstored : JsMap.get cache' (uri document) = Some None
                      \/ JsMap.get cache' (uri document) = None).
    { unfold Vetur.getPackageJsonPath in Hcall.
      destruct (JsString.truthy _) eqn:Htruthy; simpl in Hcall.
      - injection Hcall as Hstored <-.
        destruct (JsMap.get cache (uri document)) as [stored|]; [|auto].
        rewrite Hstored. auto.
      - destruct (if String.eqb _ _ then _ else _) as [found|]; [|discriminate].
        injection Hcall as -> <-. rewrite get_set, String.eqb_refl. auto. }
    unfold Vetur.getPackageJsonPath. rewrite Hfile.
    destruct Hstored as [->| ->]; reflexivity.
Qed.

(** ** Semantic tokens for component tags *)

Section TokensFacts.
Variable positionAt : Z -> Z * Z.
Variable functionType : Z.

Abbreviation scan := (Vetur.scan positionAt functionType).
Abbreviation semantic := (Vetur.semantic positionAt functionType).

Lemma scan_acc names rangeStart rangeEnd tokens : forall acc,
  scan names rangeStart rangeEnd tokens acc
  = acc ++ scan names rangeStart rangeEnd tokens [].
Proof.
  induction tokens as [|token tokens IH]; intros acc; simpl.
  - symmetry. apply app_nil_r.
  - destruct (Vetur.tk_offset token >? rangeEnd)%Z;
      [symmetry; apply app_nil_r|].
    rewrite IH. symmetry. rewrite IH. symmetry.
    rewrite app_assoc. f_equal.
    destruct ((Vetur.tk_offset token >=? rangeStart)%Z
              && Vetur.is_tag (Vetur.tk_type token));
      [|symmetry; apply app_nil_r].
    destruct (JsSet.has names (Vetur.tk_text token)); simpl;
      [reflexivity|].
    destruct (JsString.occurs "." (Vetur.tk_text token));
      symmetry; apply app_nil_r.
Qed.
End TokensFacts.

Lemma components_has providers name :
  JsSet.has (Vetur.components providers) name = true <->
  exists provider,
    In provider providers
    /\ Vetur.getId provider <> "html5"
    /\ In name (Vetur.provideTags provider).
Proof.
  unfold Vetur.components. rewrite JsSet_has_In, JsSet_of_list_In, in_flat_map.
  split; intros [provider [Hin Hname]]; exists provider.
  - destruct (String.eqb_spec (Vetur.getId provider) "html5") as [Heq|Hne];
      [destruct Hname | auto].
  - destruct Hname as [Hne Hname]. split; [exact Hin|].
    destruct (String.eqb_spec (Vetur.getId provider) "html5");
      [contradiction | exact Hname].
Qed.

(** X15: the semantic tokens of the vetur plugin are the start and end
    tags whose name is a component name (a tag of a data provider other
    than "html5") and whose offset lies in the requested range, both ends
    included: every token produced is the token of such a tag, with its
    position, its length and the "function" type; a tag whose name merely
    contains a dot is never highlighted; and when the scanner gives its
    tokens at non-decreasing offsets, every such tag is highlighted, in
    the order of the document. *)
Theorem scan_highlights_components positionAt functionType
    providers rangeStart rangeEnd tokens :
  let names := Vetur.components providers in
  let result := Vetur.scan positionAt functionType names rangeStart rangeEnd tokens [] in
  (forall produced, In produced result ->
      exists token,
        In token tokens
        /\ Vetur.picked names rangeStart rangeEnd token = true
        /\ produced = Vetur.semantic positionAt functionType token)
  /\ (forall name,
        JsSet.has names name = true <->
        exists provider,
          In provider providers
          /\ Vetur.getId provider <> "html5"
          /\ In name (Vetur.provideTags provider))
  /\ (StronglySorted Z.le (map Vetur.tk_offset tokens) ->
      result
      = map (Vetur.semantic positionAt functionType)
          (filter (Vetur.picked names rangeStart rangeEnd) tokens)).
Proof.
  intros names result. subst result. split; [|split].
  - induction tokens as [|token tokens IH]; intros produced Hin; [destruct Hin|].
    simpl in Hin.
    destruct (Vetur.tk_offset token >? rangeEnd)%Z eqn:Hend; [destruct Hin|].
    rewrite scan_acc in Hin. apply in_app_or in Hin as [Hin|Hin].
    + exists token. split; [left; reflexivity|].
      unfold Vetur.picked.
      destruct (Vetur.tk_offset token >=? rangeStart)%Z eqn:Hstart;
        [|destruct Hin].
      destruct (Vetur.is_tag (Vetur.tk_type token)); [|destruct Hin].
      simpl in Hin.
      destruct (JsSet.has names (Vetur.tk_text token)); simpl in Hin.
      * destruct Hin as [<-|[]]. split; [|reflexivity].
        rewrite !andb_true_r. apply andb_true_iff. lia.
      * destruct (JsString.occurs "." (Vetur.tk_text token)); destruct Hin.
    + destruct (IH produced Hin) as (t & Ht & Hp & He).
      exists t. split; [right; exact Ht | auto].
  - apply components_has.
  - induction tokens as [|token tokens IH]; intros Hsorted; [reflexivity|].
    simpl in Hsorted. apply StronglySorted_inv in Hsorted as [Hrest Hall].
    simpl. destruct (Vetur.tk_offset token >? rangeEnd)%Z eqn:Hend.
    + assert (Hout : forall l,
                 Forall (Z.le (Vetur.tk_offset token)) (map Vetur.tk_offset l) ->
                 filter (Vetur.picked names rangeStart rangeEnd) l = []).
      { induction l as [|t l IHl]; intros Hl; [reflexivity|].
        simpl in Hl. inversion Hl as [|? ? Hle Hl']; subst. simpl.
        assert (Hp : Vetur.picked names rangeStart rangeEnd t = false).
        { unfold Vetur.picked.
          replace (Vetur.tk_offset t <=? rangeEnd)%Z with false by lia.
          rewrite andb_false_r. reflexivity. }
        rewrite Hp. apply IHl, Hl'. }
      rewrite (Hout tokens Hall).
      assert (Hp : Vetur.picked names rangeStart rangeEnd token = false).
      { unfold Vetur.picked.
        replace (Vetur.tk_offset token <=? rangeEnd)%Z with false by lia.
        rewrite andb_false_r. reflexivity. }
      rewrite Hp. reflexivity.
    + rewrite scan_acc, (IH Hrest). unfold Vetur.picked at 2.
      replace (Vetur.tk_offset token <=? rangeEnd)%Z with true by lia.
      replace (rangeStart <=? Vetur.tk_offset token)%Z
        with (Vetur.tk_offset token >=? rangeStart)%Z by lia.
      rewrite andb_true_r.
      destruct (Vetur.tk_offset token >=? rangeStart)%Z; [|reflexivity].
      destruct (Vetur.is_tag (Vetur.tk_type token)); [|reflexivity].
      simpl.
      destruct (JsSet.has names (Vetur.tk_text token)); [reflexivity|].
      destruct (JsString.occurs "." (Vetur.tk_text token)); reflexivity.
Qed.

(** ** The prettier plugin *)



(** ** The prettyhtml plugin *)

Lemma take_drop_string n s :
  (JsString.take n s ++ JsString.drop n s)%string = s.
Proof.
  revert s. induction n as [|n IH]; intros s; [destruct s; reflexivity|].
  destruct s as [|a s]; [reflexivity|].
  simpl. rewrite append_cons, IH. reflexivity.
Qed.

Lemma drop_length n : forall s,
  String.length (JsString.drop n s) = String.length s - n.
Proof.
  induction n as [|n IH]; intros s; [simpl; lia|].
  destruct s as [|a s]; [reflexivity | simpl; apply IH].
Qed.

Lemma take_all n : forall s, String.length s <= n -> JsString.take n s = s.
Proof.
  induction n as [|n IH]; intros s Hn.
  - destruct s; [reflexivity | simpl in Hn; lia].
  - destruct s as [|a s]; [reflexivity|]. simpl in *. rewrite IH by lia. reflexivity.
Qed.

Lemma drop_drop a : forall b s,
  JsString.drop b (JsString.drop a s) = JsString.drop (a + b) s.
Proof.
  induction a as [|a IH]; intros b s; [reflexivity|].
  destruct s as [|c s]; simpl.
  - destruct b; reflexivity.
  - apply IH.
Qed.

Lemma substring_between s a b :
  a <= b <= String.length s ->
  JsString.substring s (Z.of_nat a) (Z.of_nat b)
  = JsString.take (b - a) (JsString.drop a s).
Proof.
  intros H. unfold JsString.substring, JsString.clamp, JsString.length.
  replace (Z.max 0 (Z.min (Z.of_nat a) (Z.of_nat (String.length s))))
    with (Z.of_nat a) by lia.
  replace (Z.max 0 (Z.min (Z.of_nat b) (Z.of_nat (String.length s))))
    with (Z.of_nat b) by lia.
  replace (Z.min (Z.of_nat a) (Z.of_nat b)) with (Z.of_nat a) by lia.
  replace (Z.max (Z.of_nat a) (Z.of_nat b) - Z.of_nat a)%Z
    with (Z.of_nat (b - a)) by lia.
  rewrite !Nat2Z.id. reflexivity.
Qed.

(** The three pieces that the plugin cuts a document into make up the
    document. *)
Lemma split_three s a b :
  a <= b <= String.length s ->
  (JsString.substring s 0 (Z.of_nat a)
   ++ JsString.substring s (Z.of_nat a) (Z.of_nat b)
   ++ JsString.substring s (Z.of_nat b) (JsString.length s))%string
  = s.
Proof.
  intros H. unfold JsString.length.
  change 0%Z with (Z.of_nat 0).
  rewrite !substring_between by lia.
  rewrite Nat.sub_0_r. change (JsString.drop 0 s) with s.
  rewrite (take_all (String.length s - b))
    by (rewrite drop_length; lia).
  rewrite <- (take_drop_string a s) at 4. f_equal.
  rewrite <- (take_drop_string (b - a) (JsString.drop a s)) at 2. f_equal.
  rewrite drop_drop. f_equal. lia.
Qed.



(** ** The workers of the vetur plugin *)

Module VeturWorkerFacts.
Import stdpp.base stdpp.gmap.
Import VeturWorker.

Section Instance.
Context {HTMLDocument Provider Position Item Hover : Type}.
Variable parseHTMLDocument : TextDocument -> HTMLDocument.
Variable scheme : string -> string.
Variable fsPath : string -> string.
Variable dirname : string -> string.
Variable existsSync : string -> bool.
Variable enabledTagProviders : string -> list Provider.

Abbreviation Inst := (@Instance HTMLDocument Provider).
Abbreviation worker :=
  (htmlWorker parseHTMLDocument scheme fsPath dirname existsSync enabledTagProviders).
Abbreviation pathOf :=
  (packageJsonPath_of (Provider := Provider) scheme fsPath dirname existsSync).
Abbreviation providersOf :=
  (dataProviders_of (HTMLDocument := HTMLDocument) enabledTagProviders).

Lemma instance_eta (st : Inst) :
  {| htmlDocuments := htmlDocuments st;
     uriToPackageJsonPath := uriToPackageJsonPath st;
     htmlDataProviders := htmlDataProviders st;
     dataProviders := dataProviders st |} = st.
Proof. destruct st; reflexivity. Qed.

Lemma worker_not_html {T : Type} fuel document
    (callback : HTMLDocument -> Inst -> option (Inst * T)) st :
  languageId (Caches.content document) <> "html" ->
  worker fuel document callback st = Some (st, None).
Proof.
  intros Hne. unfold htmlWorker, Caches.getHtmlDocument.
  destruct (String.eqb_spec (languageId (Caches.content document)) "html");
    [contradiction|].
  simpl. rewrite instance_eta. reflexivity.
Qed.

Lemma pathOf_hit fuel document (st : Inst) path :
  JsMap.get (uriToPackageJsonPath st) (uri (Caches.content document))
  = Some (Some path) ->
  path <> "" ->
  pathOf fuel document st = Some (st, Some path).
Proof.
  intros Hget Hpath. unfold packageJsonPath_of, Vetur.getPackageJsonPath.
  rewrite Hget, (proj2 (truthy_nonempty path) Hpath). simpl.
  rewrite instance_eta. reflexivity.
Qed.

Lemma pathOf_stored fuel document (st st' : Inst) path :
  pathOf fuel document st = Some (st', Some path) ->
  path <> "" ->
  JsMap.get (uriToPackageJsonPath st') (uri (Caches.content document))
  = Some (Some path)
  /\ htmlDocuments st' = htmlDocuments st
  /\ htmlDataProviders st' = htmlDataProviders st
  /\ dataProviders st' = dataProviders st.
Proof.
  intros Hcall Hpath. unfold packageJsonPath_of in Hcall.
  destruct (Vetur.getPackageJsonPath _ _ _ _ _ _ _) as [[found paths]|] eqn:Hget;
    [|discriminate].
  injection Hcall as <- ->. simpl. split; [|auto].
  unfold Vetur.getPackageJsonPath in Hget.
  destruct (JsString.truthy _) eqn:Htruthy; simpl in Hget.
  - injection Hget as Hstored <-.
    destruct (JsMap.get (uriToPackageJsonPath st) _) as [stored|]; [|discriminate].
    rewrite Hstored. reflexivity.
  - destruct (if String.eqb _ _ then _ else _) as [found|]; [|discriminate].
    injection Hget as -> <-. rewrite get_set, String.eqb_refl. reflexivity.
Qed.

Lemma providersOf_hit path (st : Inst) providers :
  JsMap.get (htmlDataProviders st) path = Some providers ->
  providersOf path st = (st, providers).
Proof.
  intros Hget. unfold dataProviders_of, getHtmlDataProviders. rewrite Hget.
  rewrite instance_eta. reflexivity.
Qed.

Lemma providersOf_stored path (st : Inst) :
  JsMap.get (htmlDataProviders (fst (providersOf path st))) path
  = Some (snd (providersOf path st))
  /\ htmlDocuments (fst (providersOf path st)) = htmlDocuments st
  /\ uriToPackageJsonPath (fst (providersOf path st)) = uriToPackageJsonPath st
  /\ dataProviders (fst (providersOf path st)) = dataProviders st.
Proof.
  unfold dataProviders_of, getHtmlDataProviders.
  destruct (JsMap.get (htmlDataProviders st) path) as [providers|] eqn:Hget; simpl.
  - auto.
  - rewrite get_set, String.eqb_refl. auto.
Qed.

Abbreviation preparedOf :=
  (prepared parseHTMLDocument scheme fsPath dirname existsSync enabledTagProviders).

(** The worker runs its callback on what it has prepared. *)
Lemma worker_prepared {T : Type} fuel document
    (callback : HTMLDocument -> Inst -> option (Inst * T)) st :
  worker fuel document callback st
  = match preparedOf fuel document st with
    | None => None
    | Some (st', None) => Some (st', None)
    | Some (st1, Some htmlDocument) =>
        match callback htmlDocument st1 with
        | Some (st', result) => Some (st', Some result)
        | None => None
        end
    end.
Proof.
  unfold prepared, htmlWorker, pure.
  destruct (Caches.getHtmlDocument _ _ _) as [[h|] cache]; [|reflexivity].
  destruct (pathOf fuel document _) as [[st1 [path|]]|]; try reflexivity.
  destruct (JsString.truthy (Some path)); [|reflexivity].
  destruct (providersOf path st1) as [st2 providers]. reflexivity.
Qed.

Lemma prepared_not_html fuel document st :
  languageId (Caches.content document) <> "html" ->
  preparedOf fuel document st = Some (st, None).
Proof. intros Hne. apply worker_not_html, Hne. Qed.

(** What the worker has prepared for its callback is settled. *)
Lemma prepared_settled fuel document st st1 htmlDocument :
  preparedOf fuel document st = Some (st1, Some htmlDocument) ->
  exists path providers, settled document htmlDocument path providers st1.
Proof.
  intros Hcall.
  destruct (String.eqb_spec (languageId (Caches.content document)) "html")
    as [Hhtml|Hne];
    [|rewrite prepared_not_html in Hcall by exact Hne; discriminate].
  unfold prepared, htmlWorker, pure in Hcall.
  destruct (Caches.getHtmlDocument parseHTMLDocument (htmlDocuments st) document)
    as [parsed cache] eqn:Hdoc.
  assert (Hcache : exists h, parsed = Some h
                             /\ cache !! Caches.identity document = Some h).
  { unfold Caches.getHtmlDocument in Hdoc. rewrite Hhtml in Hdoc. simpl in Hdoc.
    destruct (htmlDocuments st !! Caches.identity document) as [h|] eqn:Hlook;
      injection Hdoc as <- <-; eexists; split; try reflexivity.
    - exact Hlook.
    - apply lookup_insert_eq. }
  destruct Hcache as (h & -> & Hlook).
  destruct (pathOf fuel document _) as [[st2 [path|]]|] eqn:Hpath;
    try discriminate.
  destruct (JsString.truthy (Some path)) eqn:Htruthy; [|discriminate].
  apply truthy_nonempty in Htruthy.
  destruct (pathOf_stored _ _ _ _ _ Hpath Htruthy) as (Hget & Hdocs & Hprov & Hdata).
  pose proof (providersOf_stored path st2) as (Hstored & Hdocs' & Hpaths' & Hdata').
  destruct (providersOf path st2) as [st3 providers] eqn:Hproviders.
  simpl in Hstored, Hdocs', Hpaths', Hdata'.
  injection Hcall as <- <-.
  exists path, providers.
  unfold settled, setDataProviders. simpl.
  rewrite Hdocs', Hdocs, Hpaths'. simpl. auto.
Qed.

Lemma setDataProviders_same providers (st : Inst) :
  dataProviders st = Some providers -> setDataProviders providers st = st.
Proof. intros H. unfold setDataProviders. rewrite <- H. apply instance_eta. Qed.

End Instance.

Section Later.
Context {HTMLDocument Provider : Type}.
Variable parseHTMLDocument : TextDocument -> HTMLDocument.
Variable scheme : string -> string.
Variable fsPath : string -> string.
Variable dirname : string -> string.
Variable existsSync : string -> bool.
Variable enabledTagProviders : string -> list Provider.

(** On an instance settled for a document, the worker prepares nothing
    new for that document object. *)
Lemma settled_prepared fuel document document' htmlDocument path providers
    (st : @Instance HTMLDocument Provider) :
  settled document htmlDocument path providers st ->
  Caches.identity document' = Caches.identity document ->
  uri (Caches.content document') = uri (Caches.content document) ->
  languageId (Caches.content document') = "html" ->
  prepared parseHTMLDocument scheme fsPath dirname existsSync enabledTagProviders
    fuel document' st
  = Some (st, Some htmlDocument).
Proof.
  intros (Hdoc & Hpath & Hne & Hprov & Hdata) Hid Huri Hhtml.
  unfold prepared, htmlWorker, pure, Caches.getHtmlDocument.
  rewrite Hhtml, Hid, Hdoc, String.eqb_refl. cbn [negb]. rewrite instance_eta.
  rewrite <- Huri in Hpath.
  rewrite (pathOf_hit scheme fsPath dirname existsSync _ _ _ _ Hpath Hne).
  rewrite (proj2 (truthy_nonempty path) Hne).
  rewrite (providersOf_hit enabledTagProviders _ _ _ Hprov).
  rewrite (setDataProviders_same _ _ Hdata). reflexivity.
Qed.
End Later.

Section Providers.
Context {HTMLDocument Provider Position Item Hover : Type}.
Variable parseHTMLDocument : TextDocument -> HTMLDocument.
Variable scheme : string -> string.
Variable fsPath : string -> string.
Variable dirname : string -> string.
Variable existsSync : string -> bool.
Variable enabledTagProviders : string -> list Provider.
Variable provider_getId : Provider -> string.
Variable provider_tags : Provider -> list string.
Variable doComplete :
  option (list Provider) -> TextDocument -> Position -> HTMLDocument -> CompletionList Item.
Variable doHover :
  option (list Provider) -> TextDocument -> Position -> HTMLDocument -> option Hover.
Variable createScanner : string -> list Vetur.Token.
Variable offsetAt : TextDocument -> Position -> Z.
Variable positionAt : TextDocument -> Z -> Z * Z.

Abbreviation Inst := (@Instance HTMLDocument Provider).
Abbreviation worker :=
  (htmlWorker parseHTMLDocument scheme fsPath dirname existsSync enabledTagProviders).
Abbreviation preparedOf :=
  (prepared parseHTMLDocument scheme fsPath dirname existsSync enabledTagProviders).
Abbreviation complete :=
  (provideCompletionItems parseHTMLDocument scheme fsPath dirname existsSync
     enabledTagProviders doComplete).
Abbreviation hover :=
  (provideHover parseHTMLDocument scheme fsPath dirname existsSync
     enabledTagProviders doHover).
Abbreviation semanticTokens :=
  (provideDocumentSemanticTokens parseHTMLDocument scheme fsPath dirname existsSync
     enabledTagProviders provider_getId provider_tags createScanner offsetAt
     positionAt).
Abbreviation tokensOf :=
  (tokens_of provider_getId provider_tags createScanner offsetAt positionAt).

(** X18: the completion of the vetur plugin answers from one source per
    language.  For a vue document it leaves the instance as it is, needs
    no search, and answers the snippets when the request has no trigger
    character and there are snippets, and nothing otherwise.  For an HTML
    document it answers what the HTML worker answers with [doComplete],
    whatever the snippets are.  For any other document it answers nothing
    and leaves the instance as it is. *)
Theorem completion_by_language fuel snippets document position triggerCharacter
    (st : Inst) :
  let answer := complete fuel snippets document position triggerCharacter st in
  (languageId (Caches.content document) = "vue" ->
   answer
   = Some (st,
           if JsString.truthy triggerCharacter then None
           else match snippets with
                | [] => None
                | _ :: _ => Some {| isIncomplete := false; items := snippets |}
                end))
  /\ (languageId (Caches.content document) = "html" ->
      answer
      = worker fuel document
          (pure (fun htmlDocument st' =>
                   doComplete (dataProviders st') (Caches.content document)
                     position htmlDocument)) st)
  /\ (languageId (Caches.content document) <> "vue" ->
      languageId (Caches.content document) <> "html" ->
      answer = Some (st, None)).
Proof.
  intros answer. subst answer. unfold provideCompletionItems, vueWorker.
  split; [|split].
  - intros Hvue. rewrite worker_not_html by (rewrite Hvue; discriminate).
    rewrite Hvue. simpl.
    destruct (JsString.truthy triggerCharacter); simpl; [reflexivity|].
    destruct snippets; reflexivity.
  - intros Hhtml. rewrite Hhtml. simpl. unfold pure.
    destruct (worker fuel document _ st) as [[st' result]|]; [|reflexivity].
    destruct (negb (JsString.truthy triggerCharacter)); reflexivity.
  - intros Hvue Hhtml. rewrite worker_not_html by exact Hhtml.
    destruct (String.eqb_spec (languageId (Caches.content document)) "vue");
      [contradiction|].
    destruct (negb (JsString.truthy triggerCharacter)); reflexivity.
Qed.

(** X19: once the HTML worker of the vetur plugin has run a callback for
    a document, the instance is settled for it: the parsed document, the
    path of the package.json and the data providers are stored, and the
    data providers are the ones set on the language service.  Every later
    request for that document object then runs its callback on the same
    parsed document and leaves the instance unchanged, with any fuel: it
    needs no search, whatever the file system holds by then, and it does
    not parse again, also when the content of the document has changed. *)
Theorem worker_settles {T : Type} fuel document (f : HTMLDocument -> Inst -> T)
    st st' (result : T) :
  worker fuel document (pure f) st = Some (st', Some result) ->
  exists htmlDocument path providers,
    settled document htmlDocument path providers st'
    /\ result = f htmlDocument st'
    /\ forall (U : Type) existsSync' fuel' document' (g : HTMLDocument -> Inst -> U),
         Caches.identity document' = Caches.identity document ->
         uri (Caches.content document') = uri (Caches.content document) ->
         languageId (Caches.content document') = "html" ->
         htmlWorker parseHTMLDocument scheme fsPath dirname existsSync'
           enabledTagProviders fuel' document' (pure g) st'
         = Some (st', Some (g htmlDocument st')).
Proof.
  intros Hcall. rewrite worker_prepared in Hcall.
  destruct (preparedOf fuel document st) as [[st1 [h|]]|] eqn:Hprepared;
    try discriminate.
  unfold pure in Hcall. injection Hcall as -> <-.
  destruct (prepared_settled _ _ _ _ _ _ _ _ _ _ _ Hprepared)
    as (path & providers & Hsettled).
  exists h, path, providers. split; [exact Hsettled|]. split; [reflexivity|].
  intros U existsSync' fuel' document' g Hid Huri Hhtml.
  rewrite worker_prepared.
  rewrite (settled_prepared parseHTMLDocument scheme fsPath dirname existsSync'
             enabledTagProviders fuel' document document' h path providers st'
             Hsettled Hid Huri Hhtml).
  reflexivity.
Qed.

(** X20: inside the HTML worker, the semantic tokens of the vetur plugin
    look up the package.json and the data providers a second time; both
    lookups are answered from what the worker has just stored.  So the
    request is the worker with a callback that leaves the instance as it
    is and answers the tokens computed with the data providers set on the
    language service: the inner [return] for a missing package.json is
    never taken, and the request changes the instance, runs out of fuel
    and answers nothing exactly as a hover request does. *)
Theorem semantic_tokens_reuse_worker fuel document rangeStart rangeEnd
    functionType (st : Inst) :
  let tokens := semanticTokens fuel document rangeStart rangeEnd functionType st in
  tokens
  = worker fuel document
      (pure (fun _ st' =>
               option_map
                 (fun providers =>
                    tokensOf providers (Caches.content document)
                      rangeStart rangeEnd functionType)
                 (dataProviders st'))) st
  /\ (forall st' answer,
        tokens = Some (st', Some answer) ->
        exists providers,
          dataProviders st' = Some providers
          /\ answer = Some (tokensOf providers (Caches.content document)
                              rangeStart rangeEnd functionType))
  /\ (forall position,
        option_map fst tokens = option_map fst (hover fuel document position st)
        /\ option_map (fun r => match snd r with Some _ => true | None => false end)
             tokens
           = option_map (fun r => match snd r with Some _ => true | None => false end)
               (hover fuel document position st)).
Proof.
  intros tokens. subst tokens.
  unfold provideDocumentSemanticTokens, provideHover.
  rewrite !worker_prepared.
  destruct (preparedOf fuel document st) as [[st1 [h|]]|] eqn:Hprepared.
  - destruct (prepared_settled _ _ _ _ _ _ _ _ _ _ _ Hprepared)
      as (path & providers & Hsettled).
    destruct Hsettled as (Hdoc & Hpath & Hne & Hprov & Hdata).
    rewrite (pathOf_hit scheme fsPath dirname existsSync _ _ _ _ Hpath Hne).
    rewrite (proj2 (truthy_nonempty path) Hne).
    rewrite (providersOf_hit enabledTagProviders _ _ _ Hprov).
    unfold pure. rewrite Hdata. simpl.
    split; [reflexivity|]. split.
    + intros st' answer Heq. injection Heq as <- <-.
      exists providers. split; [exact Hdata | reflexivity].
    + intros position. rewrite worker_prepared, Hprepared.
      split; reflexivity.
  - split; [reflexivity|]. split; [discriminate|].
    intros position. rewrite worker_prepared, Hprepared. split; reflexivity.
  - split; [reflexivity|]. split; [discriminate|].
    intros position. rewrite worker_prepared, Hprepared. split; reflexivity.
Qed.
End Providers.

Section Returns.
Context {HTMLDocument Provider : Type}.
Variable parseHTMLDocument : TextDocument -> HTMLDocument.
Variable scheme : string -> string.
Variable fsPath : string -> string.
Variable dirname : string -> string.
Variable existsSync : string -> bool.
Variable enabledTagProviders : string -> list Provider.

(** X21: the HTML worker of the vetur plugin returns.  When the
    directories above the file of a document end after [n] steps, in a
    directory that is its own parent, the worker answers within [n + 1]
    rounds of the search, whatever the instance holds; for a document
    that is not HTML it answers at once, and answers nothing. *)
Theorem worker_returns {T : Type} n document
    (f : HTMLDocument -> @Instance HTMLDocument Provider -> T) st :
  let start := Vetur.slashes (fsPath (uri (Caches.content document))) in
  dirname (Nat.iter n dirname start) = Nat.iter n dirname start ->
  (exists st' answer,
      htmlWorker parseHTMLDocument scheme fsPath dirname existsSync
        enabledTagProviders (S n) document (pure f) st
      = Some (st', answer))
  /\ (languageId (Caches.content document) <> "html" ->
      forall fuel,
        htmlWorker parseHTMLDocument scheme fsPath dirname existsSync
          enabledTagProviders fuel document (pure f) st
        = Some (st, None)).
Proof.
  intros start Hfix. split; [|intros Hne fuel; apply worker_not_html, Hne].
  unfold htmlWorker, pure.
  destruct (Caches.getHtmlDocument _ _ _) as [[h|] cache];
    [|eexists; eexists; reflexivity].
  unfold packageJsonPath_of, Vetur.getPackageJsonPath. cbn [uriToPackageJsonPath].
  destruct (negb (JsString.truthy _)).
  - destruct (String.eqb (scheme (uri (Caches.content document))) "file").
    + pose proof (search_ends dirname existsSync n start Hfix) as Hends.
      fold start.
      destruct (Vetur.search dirname existsSync (S n) start) as [[path|]|];
        [| eexists; eexists; reflexivity | contradiction].
      destruct (JsString.truthy (Some path)); [|eexists; eexists; reflexivity].
      destruct (dataProviders_of _ _ _). eexists; eexists; reflexivity.
    + destruct (match JsMap.get _ _ with Some stored => stored | None => None end)
        as [path|]; [|eexists; eexists; reflexivity].
      destruct (JsString.truthy (Some path)); [|eexists; eexists; reflexivity].
      destruct (dataProviders_of _ _ _). eexists; eexists; reflexivity.
  - destruct (match JsMap.get _ _ with Some stored => stored | None => None end)
      as [path|]; [|eexists; eexists; reflexivity].
    destruct (JsString.truthy (Some path)); [|eexists; eexists; reflexivity].
    destruct (dataProviders_of _ _ _). eexists; eexists; reflexivity.
Qed.
End Returns.

Lemma worker_returns_witness :
  exists st' answer,
    htmlWorker text Site.scheme Site.fsPath Site.dirname Site.existsSync
      Site.providers 3 Site.index_html
      (pure (fun htmlDocument _ => htmlDocument)) fresh
    = Some (st', answer).
Proof.
  apply (worker_returns text Site.scheme Site.fsPath Site.dirname Site.existsSync
           Site.providers 2 Site.index_html (fun htmlDocument _ => htmlDocument)
           fresh).
  reflexivity.
Defined.

Lemma worker_settles_witness :
  exists path providers,
    settled Site.index_html "<my-button/>" path providers
      {| htmlDocuments := <[1%positive := "<my-button/>"]> ∅;
         uriToPackageJsonPath :=
           [("file:///site/index.html", Some "/site/package.json")];
         htmlDataProviders := [("/site/package.json", ["vue"; "html5"])];
         dataProviders := Some ["vue"; "html5"] |}.
Proof.
  destruct (worker_settles text Site.scheme Site.fsPath Site.dirname
              Site.existsSync Site.providers 1 Site.index_html
              (fun htmlDocument _ => htmlDocument) fresh
              {| htmlDocuments := <[1%positive := "<my-button/>"]> ∅;
                 uriToPackageJsonPath :=
                   [("file:///site/index.html", Some "/site/package.json")];
                 htmlDataProviders := [("/site/package.json", ["vue"; "html5"])];
                 dataProviders := Some ["vue"; "html5"] |}
              "<my-button/>")
    as (htmlDocument & path & providers & Hsettled & Hresult & _).
  - reflexivity.
  - subst htmlDocument. exists path, providers. exact Hsettled.
Defined.

End VeturWorkerFacts.

(** ** Formatting with the json plugin *)

Lemma get_spread {Value : Type} (more : JsMap.t Value) : forall options k,
  NoDup (JsMap.keys more) ->
  JsMap.get (Json.spread options (Some more)) k
  = match JsMap.get more k with
    | Some v => Some v
    | None => JsMap.get options k
    end.
Proof.
  unfold Json.spread.
  induction more as [|[k0 v0] more IH]; intros options k Hnd; [reflexivity|].
  inversion Hnd as [|? ? Hnotin Hnd']; subst.
  cbn [fold_left fst snd JsMap.get]. rewrite IH by exact Hnd'.
  rewrite get_set.
  destruct (String.eqb_spec k0 k) as [->|Hne]; [|reflexivity].
  apply has_false_not_In in Hnotin. unfold JsMap.has in Hnotin.
  destruct (JsMap.get more k); [discriminate | reflexivity].
Qed.

Module JsonFormattingFacts.
Import stdpp.base stdpp.gmap.
Import JsonWorker.

Lemma worker_answers {JSONDocument : Type} documentSelector
    (parseJSONDocument : TextDocument -> JSONDocument) settings document st :
  matchDocument documentSelector (languageId (Caches.content document)) = true ->
  exists parsed,
    forall (T : Type) (callback : JSONDocument -> T),
      worker documentSelector parseJSONDocument settings document callback st
      = (fst (worker documentSelector parseJSONDocument settings document
                (fun _ => tt) st),
         Some (callback parsed)).
Proof.
  intros Hsel. unfold worker.
  destruct (Caches.getJsonDocument _ _ _ _) as [[parsed|] cache] eqn:Hget.
  - exists parsed. intros T callback. reflexivity.
  - exfalso. unfold Caches.getJsonDocument in Hget. rewrite Hsel in Hget.
    simpl in Hget.
    destruct (jsonDocuments st !! Caches.identity document) as [[v d]|];
      [destruct (Z.eqb v _)|]; discriminate.
Qed.

(** X22: formatting with the json plugin, under its default settings.  A
    document that the selector does not match gets no answer and leaves
    the instance as it is.  For a matching document the instance changes
    as for any other request, and the answer is the edits of [format]
    unless 'json.format.enable' is configured as false: a missing setting
    enables formatting.  The options that [format] gets are those of the
    editor overridden by those of 'json.format': a property that the
    configuration gives wins, any other is the editor's. *)
Theorem json_formatting_by_configuration {JSONDocument Value Range Edits : Type}
    documentSelector (parseJSONDocument : TextDocument -> JSONDocument)
    (format : TextDocument -> Range -> JsMap.t Value -> Edits)
    settings enableSetting formatOptions document range options st :
  let answer :=
    provideDocumentFormattingEdits documentSelector parseJSONDocument format
      settings enableSetting formatOptions document range options st in
  (matchDocument documentSelector (languageId (Caches.content document)) = false ->
   answer = (st, None))
  /\ (matchDocument documentSelector (languageId (Caches.content document)) = true ->
      fst answer
      = fst (worker documentSelector parseJSONDocument settings document
               (fun _ => tt) st)
      /\ snd answer
         = Some (match enableSetting with
                 | Some false => None
                 | _ => Some (format (Caches.content document) range
                                (Json.spread options formatOptions))
                 end))
  /\ (forall more k,
        formatOptions = Some more ->
        List.NoDup (JsMap.keys more) ->
        JsMap.get (Json.spread options formatOptions) k
        = match JsMap.get more k with
          | Some v => Some v
          | None => JsMap.get options k
          end)
  /\ (formatOptions = None -> Json.spread options formatOptions = options).
Proof.
  intros answer. subst answer. unfold provideDocumentFormattingEdits.
  split; [|split; [|split]].
  - intros Hsel. apply JsonWorkerFacts.worker_unselected, Hsel.
  - intros Hsel.
    destruct (worker_answers documentSelector parseJSONDocument settings
                document st Hsel) as [parsed Hrun].
    rewrite Hrun. cbn [fst snd]. split; [reflexivity|].
    destruct enableSetting as [[|]|]; reflexivity.
  - intros more k -> Hnd. apply get_spread, Hnd.
  - intros ->. reflexivity.
Qed.

End JsonFormattingFacts.
